(** * A shallow embedding of the multi-country finance simulator

    Source: [src/simulator.js].  The file holds two editions of the same
    [TaxSystem] class:

    - lines 1-390: the rule tables are an embedded constant handed to the
      constructor (module [Embedded] below);
    - lines 391-726: the rule tables are fetched per country and cached in
      [this.taxRules] (module [Fetched] below).

    Everything the two editions share verbatim is modelled once.

    ** Numbers

    JavaScript numbers are modelled as exact rationals extended with the
    two infinities and NaN ([num]).  Rounding, overflow and the sign of
    zero are not tracked (zero is read as [+0]); everything else follows
    the IEEE rules JavaScript uses: a division by zero is not an error, it
    yields an infinity or NaN, and every comparison with NaN is false.

    ** Errors

    Reading a property of [undefined] throws a [TypeError]; fallible code
    returns [result].

    ** The environment

    [Math.random()] is a sequence [random : nat -> Q] read in call order,
    [new Date().getFullYear()] is the parameter [startYear], and the
    second edition's [fetch] is a function of the simulated year and the
    country.  The receiver [this] is a record of the two properties the
    constructor assigns and of [FinancialParameters], the property that
    [calculatePensionReturns] and [calculateExpenses] read; the
    constructor leaves it undefined.  Statements about the loop body are
    made for an arbitrary receiver and for steps that complete. *)

From Stdlib Require Import QArith Qminmax ZArith List Sorted Lia Lqa.
From stdpp Require Import gmap strings.
Import ListNotations.
Local Open Scope Z_scope.
Local Open Scope string_scope.

(** ** Numbers *)

Inductive num : Type :=
| Fin (q : Q)
| PInf
| NInf
| NaN.

Definition Qltb (x y : Q) : bool := negb (Qle_bool y x).
Definition Qzerob (x : Q) : bool := Qeq_bool x 0.

Definition is_finite (a : num) : bool :=
  match a with Fin _ => true | _ => false end.

(** [a + b] *)
Definition add (a b : num) : num :=
  match a, b with
  | NaN, _ | _, NaN => NaN
  | Fin x, Fin y => Fin (x + y)
  | PInf, NInf | NInf, PInf => NaN
  | PInf, _ | _, PInf => PInf
  | NInf, _ | _, NInf => NInf
  end.

(** [a - b] *)
Definition sub (a b : num) : num :=
  match a, b with
  | NaN, _ | _, NaN => NaN
  | Fin x, Fin y => Fin (x - y)
  | PInf, PInf | NInf, NInf => NaN
  | PInf, _ | _, NInf => PInf
  | NInf, _ | _, PInf => NInf
  end.

(** An infinity times the rational [q]: NaN when [q] is zero, otherwise
    the infinity whose sign is the product of the signs. *)
Definition inf_times (positive : bool) (q : Q) : num :=
  if Qzerob q then NaN
  else if Bool.eqb positive (Qltb 0 q) then PInf else NInf.

(** [a * b] *)
Definition mul (a b : num) : num :=
  match a, b with
  | NaN, _ | _, NaN => NaN
  | Fin x, Fin y => Fin (x * y)
  | PInf, Fin y => inf_times true y
  | NInf, Fin y => inf_times false y
  | Fin x, PInf => inf_times true x
  | Fin x, NInf => inf_times false x
  | PInf, PInf | NInf, NInf => PInf
  | PInf, NInf | NInf, PInf => NInf
  end.

(** [a / b]; the divisor zero is [+0]. *)
Definition div (a b : num) : num :=
  match a, b with
  | NaN, _ | _, NaN => NaN
  | Fin x, Fin y =>
      if Qzerob y then
        (if Qzerob x then NaN else if Qltb 0 x then PInf else NInf)
      else Fin (x / y)
  | Fin _, (PInf | NInf) => Fin 0
  | PInf, Fin y => if Qltb y 0 then NInf else PInf
  | NInf, Fin y => if Qltb y 0 then PInf else NInf
  | (PInf | NInf), (PInf | NInf) => NaN
  end.

(** [a < b] *)
Definition lt (a b : num) : bool :=
  match a, b with
  | NaN, _ | _, NaN => false
  | Fin x, Fin y => Qltb x y
  | _, NInf => false
  | NInf, _ => true
  | PInf, _ => false
  | _, PInf => true
  end.

(** [a > b] *)
Definition gt (a b : num) : bool := lt b a.

(** [a <= b] *)
Definition le (a b : num) : bool :=
  match a, b with
  | NaN, _ | _, NaN => false
  | Fin x, Fin y => Qle_bool x y
  | NInf, _ => true
  | _, PInf => true
  | _, NInf => false
  | PInf, _ => false
  end.

(** [a >= b] *)
Definition ge (a b : num) : bool := le b a.

(** [Math.min(a, b)] *)
Definition nmin (a b : num) : num :=
  match a, b with
  | NaN, _ | _, NaN => NaN
  | _, _ => if lt b a then b else a
  end.

(** Equality of numbers as values (fractions are compared by value). *)
Definition num_eq (a b : num) : Prop :=
  match a, b with
  | Fin x, Fin y => (x == y)%Q
  | PInf, PInf | NInf, NInf | NaN, NaN => True
  | _, _ => False
  end.

(** A value that may be [undefined] (an absent property). *)
Definition value : Type := option num.

(** [ToNumber]: [undefined] becomes NaN in arithmetic and comparisons. *)
Definition toNumber (v : value) : num :=
  match v with Some n => n | None => NaN end.

(** ** Errors *)

Inductive result (A : Type) : Type :=
| Ok (a : A)
| Throw (e : string).
Arguments Ok {A} a.
Arguments Throw {A} e.

Definition bind {A B : Type} (m : result A) (k : A -> result B) : result B :=
  match m with
  | Ok a => k a
  | Throw e => Throw e
  end.

Notation "'let!' x ':=' m 'in' k" := (bind m (fun x => k))
  (at level 10, x name, m at level 100, k at level 200).

Definition TypeError : string := "TypeError".

(** ** Rule tables (lines 4-153) *)

Record Bracket : Type := mkBracket {
  b_rate : Q;
  b_from : Q;
  b_to : option Q            (* [null] is [None] *)
}.

Inductive TaxKind : Type :=
| FlatRate (rate threshold : Q)              (* type: "flatRate" *)
| BracketTax (brackets : list Bracket)       (* type: "bracket" *)
| OtherKind.                                 (* any other type string *)

Record TaxComponent : Type := mkTax {
  t_name : string;
  t_kind : TaxKind
}.

Inductive WealthTaxRule : Type :=
| FlatWealth (rate threshold : Q)
| BracketWealth (brackets : list Bracket).   (* type: "bracket" *)

Record AgeBand : Type := mkBand {
  maxAge : num;
  band_rate : num
}.

Inductive PensionRule : Type :=
| FixedRate (employeeRate employerRate : num)
| AgeBasedPercentage (rates : list AgeBand) (annualCap : num)
| UnknownPension.

Record CountryTaxRules : Type := mkRules {
  incomeTaxes : option (list TaxComponent);
  wealthTax : option WealthTaxRule;
  personalAssetsTax : option WealthTaxRule;
  capitalGainsTax : gmap string Q;
  pensionContribution : PensionRule
}.

Definition Qd (n : Z) (d : positive) : Q := Qmake n d.

Definition bracket (rate from : Q) (to : option Q) : Bracket :=
  mkBracket rate from to.

Definition Germany : CountryTaxRules := {|
  incomeTaxes := Some [
    mkTax "Income Tax" (BracketTax [
      bracket (Qd 14 100) 0 (Some 10000%Q);
      bracket (Qd 3 10) 10001 (Some 50000%Q);
      bracket (Qd 42 100) 50001 (Some 200000%Q);
      bracket (Qd 45 100) 200001 None ]) ];
  wealthTax := Some (FlatWealth (Qd 1 100) 1000000);
  personalAssetsTax := None;
  capitalGainsTax := {[ "indexFunds" := Qd 25 100; "etfs" := Qd 25 100;
                        "investmentTrusts" := Qd 28 100;
                        "individualShares" := Qd 3 10; "bonds" := Qd 15 100 ]};
  pensionContribution := FixedRate (Fin (Qd 9 100)) (Fin (Qd 9 100))
|}.

Definition USA : CountryTaxRules := {|
  incomeTaxes := Some [
    mkTax "Federal Income Tax" (BracketTax [
      bracket (Qd 1 10) 0 (Some 9950%Q);
      bracket (Qd 12 100) 9951 (Some 40525%Q);
      bracket (Qd 22 100) 40526 (Some 86375%Q);
      bracket (Qd 24 100) 86376 (Some 164925%Q);
      bracket (Qd 32 100) 164926 (Some 209425%Q);
      bracket (Qd 35 100) 209426 (Some 523600%Q);
      bracket (Qd 37 100) 523601 None ]);
    mkTax "Social Security Tax" (FlatRate (Qd 62 1000) 0);
    mkTax "Medicare Tax" (FlatRate (Qd 145 10000) 0) ];
  wealthTax := None;
  personalAssetsTax := None;
  capitalGainsTax := {[ "indexFunds" := Qd 2 10; "etfs" := Qd 2 10;
                        "investmentTrusts" := Qd 22 100;
                        "individualShares" := Qd 25 100; "bonds" := Qd 15 100 ]};
  pensionContribution := FixedRate (Fin (Qd 62 1000)) (Fin (Qd 62 1000))
|}.

Definition France : CountryTaxRules := {|
  incomeTaxes := Some [
    mkTax "Income Tax" (BracketTax [
      bracket 0 0 (Some 10225%Q);
      bracket (Qd 11 100) 10226 (Some 26070%Q);
      bracket (Qd 3 10) 26071 (Some 74545%Q);
      bracket (Qd 41 100) 74546 (Some 160336%Q);
      bracket (Qd 45 100) 160337 None ]);
    mkTax "General Social Contribution" (FlatRate (Qd 92 1000) 0) ];
  wealthTax := Some (FlatWealth (Qd 15 1000) 1300000);
  personalAssetsTax := None;
  capitalGainsTax := {[ "indexFunds" := Qd 3 10; "etfs" := Qd 3 10;
                        "investmentTrusts" := Qd 32 100;
                        "individualShares" := Qd 35 100; "bonds" := Qd 2 10 ]};
  pensionContribution := FixedRate (Fin (Qd 82 1000)) (Fin (Qd 172 1000))
|}.

Definition Ireland : CountryTaxRules := {|
  incomeTaxes := Some [
    mkTax "Income Tax" (BracketTax [
      bracket (Qd 20 100) 0 (Some 36800%Q);
      bracket (Qd 40 100) 36801 None ]);
    mkTax "Universal Social Charge" (BracketTax [
      bracket (Qd 5 1000) 0 (Some 12012%Q);
      bracket (Qd 2 100) 12013 (Some 21295%Q);
      bracket (Qd 45 1000) 21296 (Some 70044%Q);
      bracket (Qd 8 100) 70045 None ]);
    mkTax "Pay Related Social Insurance" (FlatRate (Qd 4 100) 18304) ];
  wealthTax := None;
  personalAssetsTax := None;
  capitalGainsTax := {[ "indexFunds" := Qd 33 100; "etfs" := Qd 33 100;
                        "investmentTrusts" := Qd 33 100;
                        "individualShares" := Qd 33 100; "bonds" := Qd 33 100 ]};
  pensionContribution :=
    AgeBasedPercentage
      [ mkBand (Fin 29) (Fin (Qd 15 100)); mkBand (Fin 39) (Fin (Qd 20 100));
        mkBand (Fin 49) (Fin (Qd 25 100)); mkBand (Fin 59) (Fin (Qd 30 100));
        mkBand PInf (Fin (Qd 35 100)) ]
      (Fin 115000)
|}.

(** [const taxRules] of the first edition. *)
Definition taxRules_table : gmap string CountryTaxRules :=
  {[ "Germany" := Germany; "USA" := USA; "France" := France; "Ireland" := Ireland ]}.

(** ** The tax evaluator *)

(** The body of the [for (const bracket of tax.brackets)] loop,
    lines 182-187: [bracket.to ?] is a truthiness test, so both [null] and
    an upper bound of [0] select the unbounded formula. *)
Definition truthyQ (o : option Q) : bool :=
  match o with
  | Some q => negb (Qzerob q)
  | None => false
  end.

Definition bracketStep (income : num) (amount : num) (b : Bracket) : num :=
  if gt income (Fin (b_from b)) then
    let taxableAmount :=
      if truthyQ (b_to b)
      then sub (nmin income (Fin (default 0%Q (b_to b)))) (Fin (b_from b))
      else sub income (Fin (b_from b)) in
    add amount (mul taxableAmount (Fin (b_rate b)))
  else amount.

(** The amount one component contributes, lines 178-188. *)
Definition componentAmount (income : num) (k : TaxKind) : num :=
  match k with
  | FlatRate rate threshold =>
      if gt income (Fin threshold)
      then mul (sub income (Fin threshold)) (Fin rate)
      else Fin 0
  | BracketTax brackets => fold_left (bracketStep income) brackets (Fin 0)
  | OtherKind => Fin 0
  end.

(** [calculateIncomeTaxes(income, country)], lines 173-191.  The second
    edition's method (lines 428-448) is the same after its first line,
    [if (!this.loadCountryRules(country)) return []], which never returns:
    the call is not awaited and the promise it yields is truthy. *)
Definition calculateIncomeTaxes (rules : gmap string CountryTaxRules)
    (income : num) (country : string) : result (list (string * num)) :=
  match rules !! country with
  | None => Throw TypeError
  | Some r =>
      match incomeTaxes r with
      | None => Ok []
      | Some taxes =>
          Ok (map (fun tax => (t_name tax, componentAmount income (t_kind tax))) taxes)
      end
  end.


(** [calculateWealthTax(wealth, country)] of the first edition,
    lines 193-199.  A rule of type "bracket" has no [threshold] property,
    so the comparison is with [undefined] and fails. *)
Definition calculateWealthTax_embedded (rules : gmap string CountryTaxRules)
    (wealth : num) (country : string) : result num :=
  match rules !! country with
  | None => Throw TypeError
  | Some r =>
      match wealthTax r with
      | Some (FlatWealth rate threshold) =>
          if gt wealth (Fin threshold) then Ok (mul wealth (Fin rate)) else Ok (Fin 0)
      | Some (BracketWealth _) => Ok (Fin 0)
      | None => Ok (Fin 0)
      end
  end.

(** The bracket loop of the second edition's wealth tax, lines 457-465;
    [bracket.to || Infinity] and [bracket.to && ...] are truthiness tests. *)
Fixpoint wealthBrackets (wealth : num) (tax : num) (brackets : list Bracket) : num :=
  match brackets with
  | [] => tax
  | b :: rest =>
      let upper := if truthyQ (b_to b) then Fin (default 0%Q (b_to b)) else PInf in
      let tax' :=
        if gt wealth (Fin (b_from b)) then
          let taxableAmount :=
            nmin (sub wealth (Fin (b_from b))) (sub upper (Fin (b_from b))) in
          add tax (mul taxableAmount (Fin (b_rate b)))
        else tax in
      if truthyQ (b_to b) && le wealth (Fin (default 0%Q (b_to b)))
      then tax'
      else wealthBrackets wealth tax' rest
  end.

(** [a || b] on optional rules. *)
Definition orElse {A : Type} (a b : option A) : option A :=
  match a with Some _ => a | None => b end.

(** [calculateWealthTax(wealth, country)] of the second edition,
    lines 450-470.  [this.loadCountryRules(country)] is not awaited: the
    promise it returns is truthy, so the guard on line 451 never returns. *)
Definition calculateWealthTax_fetched (rules : gmap string CountryTaxRules)
    (wealth : num) (country : string) : result num :=
  match rules !! country with
  | None => Throw TypeError
  | Some r =>
      match orElse (personalAssetsTax r) (wealthTax r) with
      | None => Ok (Fin 0)
      | Some (BracketWealth brackets) => Ok (wealthBrackets wealth (Fin 0) brackets)
      | Some (FlatWealth rate threshold) =>
          if gt wealth (Fin threshold)
          then Ok (mul (sub wealth (Fin threshold)) (Fin rate))
          else Ok (Fin 0)
      end
  end.

(** [calculatePensionContribution(income, country, age)], lines 201-219
    and 472-492. *)
Definition calculatePensionContribution (rules : gmap string CountryTaxRules)
    (income : num) (country : string) (age : num) : result num :=
  match rules !! country with
  | None => Throw TypeError
  | Some r =>
      match pensionContribution r with
      | FixedRate employeeRate employerRate =>
          Ok (mul income (add employeeRate employerRate))
      | AgeBasedPercentage rates annualCap =>
          match find (fun r => le age (maxAge r)) rates with
          | None => Throw TypeError
          | Some band =>
              let uncappedContribution := mul income (band_rate band) in
              Ok (nmin uncappedContribution annualCap)
          end
      | UnknownPension => Ok (Fin 0)
      end
  end.

(** ** Investments and the market model *)

Record Investment : Type := mkInvestment {
  i_type : string;
  amount : num;
  gains : value              (* absent until the first year's returns *)
}.

(** One entry of [financialParameters]; an absent property is [None]. *)
Record Params : Type := mkParams {
  expectedReturn : value;
  rate : value;
  volatility : value
}.

Definition asset (expected vol : Q) : Params :=
  mkParams (Some (Fin expected)) None (Some (Fin vol)).

(** [const financialParameters], lines 156-164. *)
Definition financialParameters_table : gmap string Params :=
  {[ "indexFunds" := asset (Qd 7 100) (Qd 1 10);
     "etfs" := asset (Qd 8 100) (Qd 15 100);
     "investmentTrusts" := asset (Qd 6 100) (Qd 12 100);
     "individualShares" := asset (Qd 1 10) (Qd 25 100);
     "bonds" := asset (Qd 4 100) (Qd 5 100);
     "pension" := asset (Qd 5 100) (Qd 2 100);
     "inflation" := mkParams None (Some (Fin (Qd 2 100))) (Some (Fin (Qd 5 1000))) ]}.

(** The property names every object literal inherits from
    [Object.prototype]: [table[name]] is defined for them although the
    table does not list them. *)
Definition inheritedName (key : string) : bool :=
  existsb (String.eqb key)
    [ "constructor"; "hasOwnProperty"; "isPrototypeOf"; "propertyIsEnumerable";
      "toLocaleString"; "toString"; "valueOf"; "__proto__";
      "__defineGetter__"; "__defineSetter__"; "__lookupGetter__"; "__lookupSetter__" ].

(** [financialParameters[type]]: the table's own entry; for an inherited
    name a function (or the prototype object), on which every property
    the code reads is [undefined]; otherwise [undefined]. *)
Definition entryOf (table : gmap string Params) (key : string) : option Params :=
  match table !! key with
  | Some p => Some p
  | None => if inheritedName key then Some (mkParams None None None) else None
  end.

(** [capitalGainsRule[type] || 0] as a number: the table's own rate; for
    an inherited name a function, which is truthy and NaN as a factor;
    otherwise 0. *)
Definition rateOf (capitalGainsRule : gmap string Q) (key : string) : num :=
  match capitalGainsRule !! key with
  | Some q => Fin q
  | None => if inheritedName key then NaN else Fin 0
  end.

(** [calculateCapitalGainsTax(investments, country)], lines 221-232 and
    494-507. *)
Definition calculateCapitalGainsTax (rules : gmap string CountryTaxRules)
    (investments : list Investment) (country : string) : result num :=
  match rules !! country with
  | None => Throw TypeError
  | Some r =>
      let capitalGainsRule := capitalGainsTax r in
      Ok (fold_left
            (fun totalCapitalGainsTax investment =>
               let taxRate := rateOf capitalGainsRule (i_type investment) in
               add totalCapitalGainsTax (mul (toNumber (gains investment)) taxRate))
            investments (Fin 0))
  end.

(** [calculatePensionIncome(pensionPot, rate)], lines 258-260 and
    533-535. *)
Definition calculatePensionIncome (pensionPot rate : num) : num :=
  mul pensionPot rate.

(** The receiver of the methods.  The constructor (lines 168-171) assigns
    [taxRules] and [financialParameters]; [FinancialParameters] is the
    property lines 245 and 252 read, present only if somebody assigns it. *)
Record TaxSystem : Type := mkTaxSystem {
  taxRules : gmap string CountryTaxRules;
  financialParameters : gmap string Params;
  FinancialParameters : option (gmap string Params)
}.

(** [new TaxSystem(taxRules, financialParameters)], lines 168-171. *)
Definition new_TaxSystem (rules : gmap string CountryTaxRules)
    (fp : gmap string Params) : TaxSystem :=
  {| taxRules := rules; financialParameters := fp; FinancialParameters := None |}.

(** [new TaxSystem(financialParameters)], lines 407-410. *)
Definition new_TaxSystem_fetched (fp : gmap string Params) : TaxSystem :=
  {| taxRules := ∅; financialParameters := fp; FinancialParameters := None |}.

Section Market.

(** [random k] is what the [k]-th call of [Math.random()] returns. *)
Variable random : nat -> Q.

(** [(Math.random() * 2 - 1) * volatility] *)
Definition randomFactor (k : nat) (vol : value) : num :=
  mul (sub (mul (Fin (random k)) (Fin 2)) (Fin 1)) (toNumber vol).

(** [calculateInvestmentReturns(investments)], lines 234-242 and 509-517;
    the second component counts the draws made so far. *)
Fixpoint calculateInvestmentReturns (this : TaxSystem) (k : nat)
    (investments : list Investment) : result (list Investment * nat) :=
  match investments with
  | [] => Ok ([], k)
  | investment :: rest =>
      match entryOf (financialParameters this) (i_type investment) with
      | None => Throw TypeError
      | Some p =>
          let nominalReturn :=
            add (toNumber (expectedReturn p)) (randomFactor k (volatility p)) in
          let investment' :=
            {| i_type := i_type investment;
               amount := amount investment;
               gains := Some (mul (amount investment) nominalReturn) |} in
          let! done := calculateInvestmentReturns this (S k) rest in
          Ok (investment' :: fst done, snd done)
      end
  end.

(** [calculatePensionReturns(pensionPot)], lines 244-249 and 519-524. *)
Definition calculatePensionReturns (this : TaxSystem) (k : nat)
    (pensionPot : num) : result num :=
  match FinancialParameters this with
  | None => Throw TypeError
  | Some fp =>
      match fp !! "pension" with
      | None => Throw TypeError
      | Some p =>
          let nominalReturn :=
            add (toNumber (expectedReturn p)) (randomFactor k (volatility p)) in
          Ok (mul pensionPot nominalReturn)
      end
  end.

(** [calculateExpenses(expenses)], lines 251-256 and 526-531. *)
Definition calculateExpenses (this : TaxSystem) (k : nat)
    (expenses : num) : result num :=
  match FinancialParameters this with
  | None => Throw TypeError
  | Some fp =>
      match fp !! "inflation" with
      | None => Throw TypeError
      | Some p =>
          let adjustedInflationRate :=
            add (toNumber (rate p)) (randomFactor k (volatility p)) in
          Ok (mul expenses (add (Fin 1) adjustedInflationRate))
      end
  end.

End Market.

(** ** Profiles, state and results *)

Inductive EventKind : Type :=
| Retire                          (* event: 'retire' *)
| Move (newCountry : string).     (* event: 'move', newCountry *)

Record LifeEvent : Type := mkEvent {
  e_year : Z;
  e_income : value;
  e_expenses : value;
  e_event : option EventKind
}.

Record Profile : Type := mkProfile {
  birthYear : Z;
  initialWealth : num;
  initialPensionPot : num;
  initialInvestments : list Investment;
  initialCountry : string;
  targetYear : Z;
  lifeEvents : list LifeEvent
}.

(** The object pushed on [results], lines 328-339. *)
Record YearResult : Type := mkYearResult {
  r_year : Z;
  r_country : string;
  r_incomeTaxes : list (string * num);
  r_wealthTax : num;
  r_pensionIncome : num;
  r_capitalGainsTax : num;
  r_totalTax : num;
  r_netIncome : num;
  r_expenses : num;
  r_remainingWealth : num
}.

(** The local variables of [simulateScenario] that live across
    iterations, and the number of [Math.random()] draws made so far. *)
Record State : Type := mkState {
  results : list YearResult;
  remainingWealth : num;
  investments : list Investment;
  pensionPot : num;
  isRetired : bool;
  previousIncome : value;
  previousExpenses : value;
  country : string;
  draws : nat
}.

(** Lines 263-272. *)
Definition initialState (profile : Profile) : State := {|
  results := [];
  remainingWealth := initialWealth profile;
  investments := initialInvestments profile;
  pensionPot := initialPensionPot profile;
  isRetired := false;
  previousIncome :=
    match lifeEvents profile with e :: _ => e_income e | [] => Some (Fin 0) end;
  previousExpenses :=
    match lifeEvents profile with e :: _ => e_expenses e | [] => Some (Fin 0) end;
  country := initialCountry profile;
  draws := 0
|}.

Definition pensionWithdrawalRate : num := Fin (Qd 4 100).

(** [profile.lifeEvents.find(event => event.year === year)] *)
Definition findEvent (profile : Profile) (year : Z) : option LifeEvent :=
  find (fun event => (e_year event =? year)%Z) (lifeEvents profile).

(** Lines 323-325: every position grows by
    [surplus * (investment.amount / remainingWealth)]. *)
Definition distribute (surplus remainingWealth : num)
    (investments : list Investment) : list Investment :=
  map (fun investment =>
         {| i_type := i_type investment;
            amount := add (amount investment)
                          (mul surplus (div (amount investment) remainingWealth));
            gains := gains investment |})
      investments.

(** Lines 317-326. *)
Definition updateWealth (netIncome expenses remainingWealth : num)
    (investments : list Investment) : num * list Investment :=
  if lt netIncome expenses then
    let deficit := sub expenses netIncome in
    (sub remainingWealth deficit, investments)
  else
    let surplus := sub netIncome expenses in
    let remainingWealth' := add remainingWealth surplus in
    (remainingWealth', distribute surplus remainingWealth' investments).

(** Line 276:
    [lifeEvent && lifeEvent.income !== undefined ? lifeEvent.income : previousIncome] *)
Definition incomeFor (lifeEvent : option LifeEvent) (previousIncome : value) : value :=
  match lifeEvent with
  | Some e => match e_income e with Some i => Some i | None => previousIncome end
  | None => previousIncome
  end.

(** Line 278: the expenses the event states, if there is an event and it
    states any. *)
Definition explicitExpenses (lifeEvent : option LifeEvent) : value :=
  match lifeEvent with
  | Some e => e_expenses e
  | None => None
  end.

(** Lines 282-285: [lifeEvent.event === 'retire'] *)
Definition retiresNow (lifeEvent : option LifeEvent) : bool :=
  match lifeEvent with
  | Some e => match e_event e with Some Retire => true | _ => false end
  | None => false
  end.

(** Lines 287-289: [lifeEvent.event === 'move'] sets the country. *)
Definition countryFor (lifeEvent : option LifeEvent) (country : string) : string :=
  match lifeEvent with
  | Some e => match e_event e with Some (Move newCountry) => newCountry | _ => country end
  | None => country
  end.

Definition sumAmounts (incomeTaxes : list (string * num)) : num :=
  fold_left (fun sum tax => add sum (snd tax)) incomeTaxes (Fin 0).

Definition sumGains (investments : list Investment) : num :=
  fold_left (fun acc inv => add acc (toNumber (gains inv))) investments (Fin 0).

(** Lines 300-303. *)
Definition pensionIncomeOf (isRetired : bool) (pensionPot : num) : num :=
  if isRetired
  then calculatePensionIncome pensionPot pensionWithdrawalRate
  else Fin 0.

(** Lines 309-339: totals, the wealth update and the result pushed, from
    what the calls above them returned. *)
Definition closeYear (year : Z) (income : value) (expenses : num) (st : State)
    (investments : list Investment) (draws : nat) (pensionPot pensionIncome : num)
    (incomeTaxes : list (string * num)) (wealthTax capitalGainsTax : num) : State :=
  let totalTax := add (add (sumAmounts incomeTaxes) wealthTax) capitalGainsTax in
  let totalIncome := add (add (toNumber income) pensionIncome) (sumGains investments) in
  let netIncome := sub totalIncome totalTax in
  let updated := updateWealth netIncome expenses (remainingWealth st) investments in
  {| results :=
       results st ++
       [ {| r_year := year;
            r_country := country st;
            r_incomeTaxes := incomeTaxes;
            r_wealthTax := wealthTax;
            r_pensionIncome := pensionIncome;
            r_capitalGainsTax := capitalGainsTax;
            r_totalTax := totalTax;
            r_netIncome := netIncome;
            r_expenses := expenses;
            r_remainingWealth := fst updated |} ];
     remainingWealth := fst updated;
     investments := snd updated;
     pensionPot := pensionPot;
     isRetired := isRetired st;
     previousIncome := previousIncome st;
     previousExpenses := previousExpenses st;
     country := country st;
     draws := draws |}.

Section Engine.

Variable random : nat -> Q.

(** The wealth-tax method of the edition at hand. *)
Variable calculateWealthTax :
  gmap string CountryTaxRules -> num -> string -> result num.

(** Lines 275-290: this year's income and expenses, then the event's
    side effects.  Returns [income], [expenses] and the state in which
    [previousIncome], [previousExpenses], [isRetired] and [country] are
    updated. *)
Definition beginYear (this : TaxSystem) (profile : Profile) (year : Z)
    (st : State) : result (value * num * State) :=
  let lifeEvent := findEvent profile year in
  let income := incomeFor lifeEvent (previousIncome st) in
  let! expenses :=
    match explicitExpenses lifeEvent with
    | Some x => Ok (x, draws st)
    | None =>
        let! x := calculateExpenses random this (draws st)
                    (toNumber (previousExpenses st)) in
        Ok (x, S (draws st))
    end in
  Ok (income, fst expenses,
      {| results := results st;
         remainingWealth := remainingWealth st;
         investments := investments st;
         pensionPot := pensionPot st;
         isRetired := if retiresNow lifeEvent then true else isRetired st;
         previousIncome := income;
         previousExpenses := Some (fst expenses);
         country := countryFor lifeEvent (country st);
         draws := snd expenses |}).

(** Lines 292-307 (573-588 in the second edition), then [closeYear];
    [st] is the state [beginYear] returned. *)
Definition yearBody (this : TaxSystem) (profile : Profile) (year : Z)
    (income : value) (expenses : num) (st : State) : result State :=
  let country := country st in
  let rules := taxRules this in
  let! returned := calculateInvestmentReturns random this (draws st) (investments st) in
  let investments := fst returned in
  let! pensionReturn := calculatePensionReturns random this (snd returned) (pensionPot st) in
  let pensionPot := add (pensionPot st) pensionReturn in
  let! pensionContribution :=
    calculatePensionContribution rules (toNumber income) country
      (Fin (inject_Z (year - birthYear profile))) in
  let pensionPot := add pensionPot pensionContribution in
  let pensionIncome := pensionIncomeOf (isRetired st) pensionPot in
  let! incomeTaxes :=
    calculateIncomeTaxes rules (add (toNumber income) pensionIncome) country in
  let! wealthTax := calculateWealthTax rules (remainingWealth st) country in
  let! capitalGainsTax := calculateCapitalGainsTax rules investments country in
  Ok (closeYear year income expenses st investments (S (snd returned))
        pensionPot pensionIncome incomeTaxes wealthTax capitalGainsTax).

End Engine.

(** ** First edition: embedded rule tables (lines 166-344) *)

Module Embedded.

Section Run.

Variable random : nat -> Q.
Variable this : TaxSystem.
Variable profile : Profile.

(** One iteration of the loop on lines 274-340. *)
Definition yearStep (year : Z) (st : State) : result State :=
  let! begun := beginYear random this profile year st in
  yearBody random calculateWealthTax_embedded this profile year
    (fst (fst begun)) (snd (fst begun)) (snd begun).

(** [n] iterations starting with [year]. *)
Fixpoint simulateYears (n : nat) (year : Z) (st : State) : result State :=
  match n with
  | O => Ok st
  | S n' =>
      let! st' := yearStep year st in
      simulateYears n' (year + 1) st'
  end.

(** [simulateScenario(profile)], lines 262-343; [startYear] is
    [new Date().getFullYear()]. *)
Definition simulateScenario (startYear : Z) : result (list YearResult) :=
  let! st := simulateYears (Z.to_nat (targetYear profile - startYear + 1))
               startYear (initialState profile) in
  Ok (results st).

End Run.

End Embedded.

(** ** Second edition: rule tables fetched on demand (lines 405-625) *)

Module Fetched.

Section Run.

Variable random : nat -> Q.

(** [fetch year c] is the rule table [taxRules/c.json] delivers when it
    is requested while [year] is simulated; [None] stands for a
    request that fails (network error, bad status, unreadable body). *)
Variable fetch : Z -> string -> option CountryTaxRules.

Variable profile : Profile.

(** [await this.loadCountryRules(country)], lines 412-426: the
    receiver with its cache updated, and the boolean returned. *)
Definition loadCountryRules (this : TaxSystem) (year : Z) (country : string)
    : TaxSystem * bool :=
  match taxRules this !! country with
  | Some _ => (this, true)
  | None =>
      match fetch year country with
      | Some rules =>
          ({| taxRules := <[country := rules]> (taxRules this);
              financialParameters := financialParameters this;
              FinancialParameters := FinancialParameters this |}, true)
      | None => (this, false)
      end
  end.

(** One iteration of the loop on lines 549-621.  The calls of
    [loadCountryRules] inside the [calculate...] methods are not
    awaited and find the country cached, so they neither return early
    nor fetch. *)
Definition yearStep (year : Z) (sys : TaxSystem * State)
    : result (TaxSystem * State) :=
  let this := fst sys in
  let! begun := beginYear random this profile year (snd sys) in
  let loaded := loadCountryRules this year (country (snd begun)) in
  if snd loaded then
    let! st' := yearBody random calculateWealthTax_fetched (fst loaded)
                  profile year (fst (fst begun)) (snd (fst begun)) (snd begun) in
    Ok (fst loaded, st')
  else
    Ok (this, snd begun).

Fixpoint simulateYears (n : nat) (year : Z) (sys : TaxSystem * State)
    : result (TaxSystem * State) :=
  match n with
  | O => Ok sys
  | S n' =>
      let! sys' := yearStep year sys in
      simulateYears n' (year + 1) sys'
  end.

(** [simulateScenario(profile)], lines 537-624. *)
Definition simulateScenario (this : TaxSystem) (startYear : Z)
    : result (TaxSystem * list YearResult) :=
  let! sys := simulateYears (Z.to_nat (targetYear profile - startYear + 1))
                startYear (this, initialState profile) in
  Ok (fst sys, results (snd sys)).

End Run.

End Fetched.

(** [const userProfile], lines 347-370. *)
Definition userProfile : Profile := {|
  birthYear := 1985;
  initialWealth := Fin 1200000;
  initialPensionPot := Fin 100000;
  initialInvestments :=
    [ mkInvestment "indexFunds" (Fin 50000) None;
      mkInvestment "individualShares" (Fin 30000) None ];
  initialCountry := "Germany";
  targetYear := 2050;
  lifeEvents :=
    [ mkEvent 2025 (Some (Fin 80000)) (Some (Fin 42000)) (Some (Move "USA"));
      mkEvent 2030 None None (Some Retire) ]
|}.

(** [taxSystem.simulateScenario(userProfile)] as the script runs it,
    lines 373-374. *)
Definition main (random : nat -> Q) (startYear : Z) : result (list YearResult) :=
  Embedded.simulateScenario random
    (new_TaxSystem taxRules_table financialParameters_table) userProfile startYear.

(** ** Definitions used in the statements *)

(** What one bracket adds, on rationals: the reading of lines 183-186 when
    the income is finite. *)
Definition taxableQ (income : Q) (b : Bracket) : Q :=
  if truthyQ (b_to b)
  then (if Qltb (default 0%Q (b_to b)) income then default 0%Q (b_to b) else income)
       - b_from b
  else income - b_from b.

Definition stepQ (income : Q) (amount : Q) (b : Bracket) : Q :=
  if Qltb (b_from b) income then amount + taxableQ income b * b_rate b else amount.

(** Well-formedness of a bracket, as decidable tests. *)
Definition nonnegRate (b : Bracket) : bool := Qle_bool 0 (b_rate b).

Definition ordered (b : Bracket) : bool :=
  match b_to b with
  | Some u => Qle_bool (b_from b) u
  | None => true
  end.

Definition nonnegFrom (b : Bracket) : bool := Qle_bool 0 (b_from b).

Definition totalRate (bs : list Bracket) : Q :=
  fold_right (fun b acc => b_rate b + acc)%Q 0%Q bs.

(** The brackets of Germany's "Income Tax" component, lines 10-15. *)
Definition germanBrackets : list Bracket :=
  [ bracket (Qd 14 100) 0 (Some 10000%Q);
    bracket (Qd 3 10) 10001 (Some 50000%Q);
    bracket (Qd 42 100) 50001 (Some 200000%Q);
    bracket (Qd 45 100) 200001 None ].

(** The amounts in the words of the specification.  [upperBoundOrBase] is
    the bracket's upper bound, or the base when the bracket has none; as on
    line 184 an upper bound of 0 counts as none. *)
Definition upperBoundOrBase (base : Q) (b : Bracket) : Q :=
  if truthyQ (b_to b) then default 0%Q (b_to b) else base.

Definition specBracket (base : Q) (b : Bracket) : Q :=
  if Qltb (b_from b) base
  then (Qmin base (upperBoundOrBase base b) - b_from b) * b_rate b
  else 0.

Definition specAmount (base : Q) (k : TaxKind) : Q :=
  match k with
  | FlatRate rate threshold => Qmax 0 (base - threshold) * rate
  | BracketTax bs => fold_right (fun b acc => specBracket base b + acc)%Q 0%Q bs
  | OtherKind => 0
  end.

(** Non-negative rates, and bounded brackets with lower <= upper bound. *)
Definition kindNonnegative (k : TaxKind) : bool :=
  match k with
  | FlatRate rate _ => Qle_bool 0 rate
  | BracketTax bs => forallb nonnegRate bs && forallb ordered bs
  | OtherKind => true
  end.

(** Non-negative thresholds and lower bounds. *)
Definition kindFromZero (k : TaxKind) : bool :=
  match k with
  | FlatRate _ threshold => Qle_bool 0 threshold
  | BracketTax bs => forallb nonnegFrom bs
  | OtherKind => true
  end.

(** A receiver on which [FinancialParameters] is assigned as well, so that
    lines 245 and 252 find the market table.  The loop body beyond those
    two lines is exercised on it. *)
Definition assignedSystem (rules : gmap string CountryTaxRules) : TaxSystem :=
  {| taxRules := rules;
     financialParameters := financialParameters_table;
     FinancialParameters := Some financialParameters_table |}.

(** [Math.random()] returning 0.5 at every call: no volatility. *)
Definition evenDraws (k : nat) : Q := Qd 1 2.

Definition valueOf {A : Type} (d : A) (r : result A) : A :=
  match r with Ok a => a | Throw _ => d end.

(** The year 2025 of [userProfile]: 80000 of income against 42000 of
    expenses, taxed in the USA. *)
Definition surplusYear : State :=
  valueOf (initialState userProfile)
    (Embedded.yearStep evenDraws (assignedSystem taxRules_table) userProfile 2025
       (initialState userProfile)).

Definition surplusResult : YearResult :=
  hd (mkYearResult 0 "" [] NaN NaN NaN NaN NaN NaN NaN) (results surplusYear).

(** A wealth-less profile whose only year breaks even: 70 of gains on
    1000 in index funds, 17.5 of capital-gains tax, 52.5 of expenses. *)
Definition breakEvenProfile : Profile := {|
  birthYear := 1985;
  initialWealth := Fin 0;
  initialPensionPot := Fin 0;
  initialInvestments := [ mkInvestment "indexFunds" (Fin 1000) None ];
  initialCountry := "Germany";
  targetYear := 2024;
  lifeEvents := [ mkEvent 2024 (Some (Fin 0)) (Some (Fin (Qd 525 10))) None ]
|}.

Definition breakEvenYear : State :=
  valueOf (initialState breakEvenProfile)
    (Embedded.yearStep evenDraws (assignedSystem taxRules_table) breakEvenProfile 2024
       (initialState breakEvenProfile)).

Definition breakEvenResult : YearResult :=
  hd (mkYearResult 0 "" [] NaN NaN NaN NaN NaN NaN NaN) (results breakEvenYear).

(** The year 2030 of [userProfile]: the retirement year. *)
Definition retirementYear : State :=
  valueOf (initialState userProfile)
    (Embedded.yearStep evenDraws (assignedSystem taxRules_table) userProfile 2030
       (initialState userProfile)).

(** The year 2024 of [userProfile], which no life event matches. *)
Definition firstYear : State :=
  valueOf (initialState userProfile)
    (Embedded.yearStep evenDraws (assignedSystem taxRules_table) userProfile 2024
       (initialState userProfile)).

(** [userProfile] with a horizon of 2031, run when 2030 is already past. *)
Definition lateProfile : Profile := {|
  birthYear := birthYear userProfile;
  initialWealth := initialWealth userProfile;
  initialPensionPot := initialPensionPot userProfile;
  initialInvestments := initialInvestments userProfile;
  initialCountry := initialCountry userProfile;
  targetYear := 2031;
  lifeEvents := lifeEvents userProfile
|}.

(** The years 2029 and 2030 of [userProfile]. *)
Definition yearBeforeRetirement : State :=
  valueOf (initialState userProfile)
    (Embedded.simulateYears evenDraws (assignedSystem taxRules_table) userProfile 1 2029
       (initialState userProfile)).

Definition yearOfRetirement : State :=
  valueOf yearBeforeRetirement
    (Embedded.yearStep evenDraws (assignedSystem taxRules_table) userProfile 2030
       yearBeforeRetirement).

(** A server that has the four tables of lines 4-153 and nothing else. *)
Definition server (year : Z) (country : string) : option CountryTaxRules :=
  taxRules_table !! country.

(** Germany until a move to a country the server does not know. *)
Definition atlantisProfile : Profile := {|
  birthYear := 1985;
  initialWealth := Fin 1200000;
  initialPensionPot := Fin 100000;
  initialInvestments := [ mkInvestment "indexFunds" (Fin 50000) None ];
  initialCountry := "Germany";
  targetYear := 2026;
  lifeEvents :=
    [ mkEvent 2025 (Some (Fin 80000)) (Some (Fin 42000)) (Some (Move "Atlantis")) ]
|}.

(** The state in which 2025 begins when Germany's rules are cached. *)
Definition germanSystem : TaxSystem :=
  {| taxRules := {[ "Germany" := Germany ]};
     financialParameters := financialParameters_table;
     FinancialParameters := None |}.

Definition afterAtlantis : State :=
  snd (valueOf (germanSystem, initialState atlantisProfile)
         (Fetched.yearStep evenDraws server atlantisProfile 2025
            (germanSystem, initialState atlantisProfile))).

(** The pension income the retirement claim expects of a YearResult, for
    the retirement year [R] and the pension pot [pot]. *)
Definition pensionIncomeAsClaimed (R : Z) (pot : num) (yr : YearResult) : Prop :=
  (r_year yr < R -> r_pensionIncome yr = Fin 0) /\
  (R <= r_year yr ->
     r_pensionIncome yr = mul pot (Fin (Qd 4 100)) /\
     (gt pot (Fin 0) = true -> gt (r_pensionIncome yr) (Fin 0) = true)).

(** An age band list cut at the band [find] returns: every band before
    it has a [maxAge] below the age. *)
Definition firstMatch (age : num) (before : list AgeBand) (band : AgeBand) : Prop :=
  Forall (fun b => le age (maxAge b) = false) before /\ le age (maxAge band) = true.

(** A position with a finite, non-negative amount whose asset class has a
    finite expected return [e] and a finite, non-negative volatility [v]. *)
Definition pricedPosition (fp : gmap string Params) (inv : Investment)
    (a e v : Q) : Prop :=
  amount inv = Fin a /\ (0 <= a)%Q /\ (0 <= v)%Q /\
  exists p : Params,
    fp !! i_type inv = Some p /\
    expectedReturn p = Some (Fin e) /\ volatility p = Some (Fin v).

(** The year's gain of a position lies within amount x (e - v) and
    amount x (e + v). *)
Definition gainWithinVolatility (fp : gmap string Params)
    (before after : Investment) : Prop :=
  exists a e v g : Q,
    pricedPosition fp before a e v /\
    gains after = Some (Fin g) /\
    (a * (e - v) <= g)%Q /\ (g <= a * (e + v))%Q.

(** Capital-gains tax on rationals: the sum of gain x rate, the rate of a
    class the table does not list being 0. *)
Definition gainsTaxQ (rates : gmap string Q) (positions : list (string * Q)) : Q :=
  fold_right (fun p acc => snd p * default 0%Q (rates !! fst p) + acc)%Q 0%Q positions.

(** A position of class [fst p] with the gain [snd p], whatever its amount. *)
Definition hasGain (inv : Investment) (p : string * Q) : Prop :=
  i_type inv = fst p /\ gains inv = Some (Fin (snd p)).

(** Brackets in ascending order: no bracket starts below the upper bound
    of a bounded bracket that precedes it. *)
Fixpoint ascending (bs : list Bracket) : bool :=
  match bs with
  | [] => true
  | b :: rest =>
      (if truthyQ (b_to b)
       then forallb (fun c => Qle_bool (default 0%Q (b_to b)) (b_from c)) rest
       else true)
      && ascending rest
  end.

(** A profile whose only life event is a retirement: it states neither
    income nor expenses. *)
Definition retireOnlyProfile : Profile := {|
  birthYear := 1985;
  initialWealth := Fin 1200000;
  initialPensionPot := Fin 100000;
  initialInvestments := [ mkInvestment "indexFunds" (Fin 50000) None ];
  initialCountry := "Germany";
  targetYear := 2030;
  lifeEvents := [ mkEvent 2030 None None (Some Retire) ]
|}.

Definition retireOnlyYear : State :=
  valueOf (initialState retireOnlyProfile)
    (Embedded.yearStep evenDraws (assignedSystem taxRules_table) retireOnlyProfile 2030
       (initialState retireOnlyProfile)).

(** The years 2025 and 2026 of [userProfile]. *)
Definition afterMove : State :=
  valueOf (initialState userProfile)
    (Embedded.simulateYears evenDraws (assignedSystem taxRules_table) userProfile 2 2025
       (initialState userProfile)).

(** Two amounts, the second being the first scaled by [factor]. *)
Definition scaledBy (factor : Q) (a a' : num) : Prop :=
  exists p q : Q, a = Fin p /\ a' = Fin q /\ (q == p * factor)%Q.

(** A pension rule that serves every finite age: an age-banded rule
    needs a band with [maxAge: Infinity]. *)
Definition pensionRuleCovers (rule : PensionRule) : Prop :=
  match rule with
  | AgeBasedPercentage rates _ =>
      exists band : AgeBand, In band rates /\ maxAge band = PInf
  | _ => True
  end.

(** A country whose rule table the receiver holds and whose pension rule
    serves every age. *)
Definition usableCountry (this : TaxSystem) (country : string) : Prop :=
  exists r : CountryTaxRules,
    taxRules this !! country = Some r /\ pensionRuleCovers (pensionContribution r).

(** What a run of the first edition needs in order to complete:
    [FinancialParameters] with pension and inflation entries, a priced
    asset class for every position, and usable rule tables for the
    initial country and for the target of every move. *)
Definition runnable (this : TaxSystem) (profile : Profile) : Prop :=
  (exists (fp : gmap string Params) (pension inflation : Params),
      FinancialParameters this = Some fp /\
      fp !! "pension" = Some pension /\ fp !! "inflation" = Some inflation) /\
  Forall (fun class => exists p : Params, financialParameters this !! class = Some p)
         (map i_type (initialInvestments profile)) /\
  usableCountry this (initialCountry profile) /\
  (forall (e : LifeEvent) (c : string),
      In e (lifeEvents profile) -> e_event e = Some (Move c) -> usableCountry this c).

(** [atlantisProfile] after the failed move, two years on, on a receiver
    that holds Germany's rules. *)
Definition stalledYears : TaxSystem * State :=
  valueOf (assignedSystem {[ "Germany" := Germany ]}, afterAtlantis)
    (Fetched.simulateYears evenDraws server atlantisProfile 2 2026
       (assignedSystem {[ "Germany" := Germany ]}, afterAtlantis)).

(** * Properties *)

Example germany_income_tax_60000 :
  calculateIncomeTaxes taxRules_table (Fin 60000) "Germany"
  = Ok [("Income Tax", Fin (0 + (10000 - 0) * Qd 14 100
                              + (50000 - 10001) * Qd 3 10
                              + (60000 - 50001) * Qd 42 100))].
Proof. vm_compute. reflexivity. Qed.

(** ** Comparisons on rationals *)

Lemma Qltb_reflect (x y : Q) : Bool.reflect (x < y)%Q (Qltb x y).
Proof.
  unfold Qltb. destruct (Qle_bool y x) eqn:E; simpl; constructor.
  - apply Qle_bool_iff in E. apply Qle_not_lt. exact E.
  - apply Qnot_le_lt. intro H. apply Qle_bool_iff in H. congruence.
Qed.

Lemma Qleb_reflect (x y : Q) : Bool.reflect (x <= y)%Q (Qle_bool x y).
Proof.
  destruct (Qle_bool x y) eqn:E; constructor.
  - apply Qle_bool_iff. exact E.
  - intro H. apply Qle_bool_iff in H. congruence.
Qed.

Lemma Qzerob_reflect (x : Q) : Bool.reflect (x == 0)%Q (Qzerob x).
Proof.
  unfold Qzerob. destruct (Qeq_bool x 0) eqn:E; constructor.
  - apply Qeq_bool_iff. exact E.
  - intro H. apply Qeq_bool_iff in H. congruence.
Qed.

Ltac qcases :=
  repeat match goal with
  | |- context [Qltb ?x ?y] => destruct (Qltb_reflect x y)
  | |- context [Qle_bool ?x ?y] => destruct (Qleb_reflect x y)
  | |- context [Qzerob ?x] => destruct (Qzerob_reflect x)
  end.

(** ** The bracket loop on finite numbers *)

Lemma bracketStep_finite (income amount : Q) (b : Bracket) :
  bracketStep (Fin income) (Fin amount) b = Fin (stepQ income amount b).
Proof.
  unfold bracketStep, stepQ, taxableQ, gt, nmin, lt.
  destruct (Qltb (b_from b) income); [|reflexivity].
  destruct (truthyQ (b_to b)); [|reflexivity].
  destruct (Qltb (default 0%Q (b_to b)) income); reflexivity.
Qed.

Lemma bracketLoop_finite (income : Q) (bs : list Bracket) (amount : Q) :
  fold_left (bracketStep (Fin income)) bs (Fin amount)
  = Fin (fold_left (stepQ income) bs amount).
Proof.
  revert amount. induction bs as [|b bs IH]; intros amount; simpl.
  - reflexivity.
  - rewrite bracketStep_finite. apply IH.
Qed.

Lemma totalRate_nonneg (bs : list Bracket) :
  forallb nonnegRate bs = true -> (0 <= totalRate bs)%Q.
Proof.
  induction bs as [|b bs IH]; simpl; intros H.
  - lra.
  - apply andb_prop in H as [Hb Hbs]. apply Qle_bool_iff in Hb.
    specialize (IH Hbs). lra.
Qed.

(** One bracket: between two incomes [x <= y] the contribution grows, and
    by no more than the bracket's rate times [y - x]. *)
Lemma stepQ_growth (x y a : Q) (b : Bracket) :
  nonnegRate b = true -> ordered b = true -> (x <= y)%Q ->
  (0 <= (stepQ y a b - a) - (stepQ x a b - a)
   /\ (stepQ y a b - a) - (stepQ x a b - a) <= b_rate b * (y - x))%Q.
Proof.
  unfold nonnegRate, ordered, stepQ, taxableQ, truthyQ.
  intros Hr Ho Hxy. apply Qle_bool_iff in Hr.
  destruct b as [r f [u|]]; simpl in *.
  - apply Qle_bool_iff in Ho.
    destruct (Qzerob_reflect u); simpl; qcases; split; nra.
  - qcases; split; nra.
Qed.

Lemma stepQ_shift (x a a' : Q) (b : Bracket) :
  (stepQ x a b - a == stepQ x a' b - a')%Q.
Proof. unfold stepQ. destruct (Qltb (b_from b) x); ring. Qed.

Lemma bracketLoop_growth (bs : list Bracket) (x y a a' : Q) :
  forallb nonnegRate bs = true -> forallb ordered bs = true -> (x <= y)%Q ->
  (0 <= (fold_left (stepQ y) bs a' - a') - (fold_left (stepQ x) bs a - a)
   /\ (fold_left (stepQ y) bs a' - a') - (fold_left (stepQ x) bs a - a)
      <= totalRate bs * (y - x))%Q.
Proof.
  revert a a'. induction bs as [|b bs IH]; simpl; intros a a' Hr Ho Hxy.
  - split; lra.
  - apply andb_prop in Hr as [Hrb Hr]. apply andb_prop in Ho as [Hob Ho].
    destruct (IH (stepQ x a b) (stepQ y a' b) Hr Ho Hxy) as [IH1 IH2].
    destruct (stepQ_growth x y a b Hrb Hob Hxy) as [S1 S2].
    pose proof (stepQ_shift y a a' b) as Sh.
    split; nra.
Qed.

(** ** C3: bracket amounts as a function of the base *)

Lemma germany_has_germanBrackets :
  incomeTaxes Germany = Some [ mkTax "Income Tax" (BracketTax germanBrackets) ].
Proof. reflexivity. Qed.

Lemma bracketAmount_finite (bs : list Bracket) (x : Q) :
  componentAmount (Fin x) (BracketTax bs) = Fin (fold_left (stepQ x) bs 0%Q).
Proof. apply bracketLoop_finite. Qed.

Lemma bracketAmount_growth (bs : list Bracket) (x y : Q) :
  forallb nonnegRate bs = true -> forallb ordered bs = true -> (x <= y)%Q ->
  exists p q : Q,
    componentAmount (Fin x) (BracketTax bs) = Fin p /\
    componentAmount (Fin y) (BracketTax bs) = Fin q /\
    (p <= q)%Q /\ (q - p <= totalRate bs * (y - x))%Q.
Proof.
  intros Hr Ho Hxy.
  exists (fold_left (stepQ x) bs 0%Q), (fold_left (stepQ y) bs 0%Q).
  rewrite !bracketAmount_finite.
  destruct (bracketLoop_growth bs x y 0%Q 0%Q Hr Ho Hxy) as [G1 G2].
  repeat split; lra.
Qed.

Lemma bracketAmount_continuous (bs : list Bracket) (x eps : Q) :
  forallb nonnegRate bs = true -> forallb ordered bs = true -> (0 < eps)%Q ->
  exists delta : Q, (0 < delta)%Q /\
    forall y : Q, (x - delta < y)%Q -> (y < x + delta)%Q ->
      exists p q : Q,
        componentAmount (Fin x) (BracketTax bs) = Fin p /\
        componentAmount (Fin y) (BracketTax bs) = Fin q /\
        (p - eps < q)%Q /\ (q < p + eps)%Q.
Proof.
  intros Hr Ho Heps.
  pose proof (totalRate_nonneg bs Hr) as HL.
  set (L := totalRate bs) in *.
  exists (eps / (L + 1))%Q.
  assert (Hd : (eps / (L + 1) * (L + 1) == eps)%Q) by (field; lra).
  assert (Hpos : (0 < eps / (L + 1))%Q) by (apply Qlt_shift_div_l; lra).
  set (delta := (eps / (L + 1))%Q) in *.
  split; [exact Hpos|].
  intros y Hlo Hhi.
  exists (fold_left (stepQ x) bs 0%Q), (fold_left (stepQ y) bs 0%Q).
  rewrite !bracketAmount_finite.
  split; [reflexivity|]. split; [reflexivity|].
  destruct (Qlt_le_dec y x) as [Hyx|Hxy].
  - destruct (bracketLoop_growth bs y x 0%Q 0%Q Hr Ho (Qlt_le_weak _ _ Hyx)) as [G1 G2].
    fold L in G2. split; nra.
  - destruct (bracketLoop_growth bs x y 0%Q 0%Q Hr Ho Hxy) as [G1 G2].
    fold L in G2. split; nra.
Qed.

(** Germany's income tax between 10001 and 50000: the first bracket in
    full, plus 0.3 of what exceeds 10001. *)
Lemma germany_second_bracket (x : Q) :
  (10001 <= x)%Q -> (x <= 50000)%Q ->
  exists p : Q,
    componentAmount (Fin x) (BracketTax germanBrackets) = Fin p /\
    (p == 1400 + Qd 3 10 * (x - 10001))%Q.
Proof.
  intros Hlo Hhi. rewrite bracketAmount_finite. eexists. split; [reflexivity|].
  unfold germanBrackets, bracket, stepQ, taxableQ, truthyQ, Qd; simpl.
  repeat match goal with
  | |- context [Qltb ?a ?b] => destruct (Qltb_reflect a b); try lra
  | |- context [Qzerob ?a] => destruct (Qzerob_reflect a); simpl; try lra
  end.
Qed.

(** C3, counterexample: the claim's instance fails.  Germany's income tax
    at 10001 does not exceed the amount at 10000 by 0.3 x 1: the unit
    between the first bracket's upper bound 10000 and the second bracket's
    lower bound 10001 is taxed by no bracket, so the two amounts are
    equal. *)
Lemma C3_counterexample_germany_gap :
  exists p q : Q,
    calculateIncomeTaxes taxRules_table (Fin 10000) "Germany" = Ok [("Income Tax", Fin p)] /\
    calculateIncomeTaxes taxRules_table (Fin 10001) "Germany" = Ok [("Income Tax", Fin q)] /\
    ~ (q - p == Qd 3 10 * (10001 - 10000))%Q.
Proof.
  eexists. eexists. split; [vm_compute; reflexivity|].
  split; [vm_compute; reflexivity|].
  intro H. vm_compute in H. discriminate H.
Qed.

(** C3, as amended: for every bracket component with non-negative rates
    whose bounded brackets have lower bound <= upper bound, the amount is
    non-decreasing in the base, grows by at most the sum of the rates
    times the increase of the base, and is continuous at every base.  For
    Germany's income-tax brackets the amounts at 10000 and at 10001 are
    both 1400, and from 10001 up to 50000 the amount is 1400 plus 0.3 of
    the excess over 10001. *)
Theorem C3_bracket_amount_monotone_continuous :
  (forall (bs : list Bracket) (x y : Q),
      forallb nonnegRate bs = true -> forallb ordered bs = true -> (x <= y)%Q ->
      exists p q : Q,
        componentAmount (Fin x) (BracketTax bs) = Fin p /\
        componentAmount (Fin y) (BracketTax bs) = Fin q /\
        (p <= q)%Q /\ (q - p <= totalRate bs * (y - x))%Q)
  /\
  (forall (bs : list Bracket) (x eps : Q),
      forallb nonnegRate bs = true -> forallb ordered bs = true -> (0 < eps)%Q ->
      exists delta : Q, (0 < delta)%Q /\
        forall y : Q, (x - delta < y)%Q -> (y < x + delta)%Q ->
          exists p q : Q,
            componentAmount (Fin x) (BracketTax bs) = Fin p /\
            componentAmount (Fin y) (BracketTax bs) = Fin q /\
            (p - eps < q)%Q /\ (q < p + eps)%Q)
  /\
  (exists p q : Q,
      calculateIncomeTaxes taxRules_table (Fin 10000) "Germany" = Ok [("Income Tax", Fin p)] /\
      calculateIncomeTaxes taxRules_table (Fin 10001) "Germany" = Ok [("Income Tax", Fin q)] /\
      (p == 1400)%Q /\ (q == 1400)%Q)
  /\
  (forall x : Q, (10001 <= x)%Q -> (x <= 50000)%Q ->
      exists p : Q,
        calculateIncomeTaxes taxRules_table (Fin x) "Germany" = Ok [("Income Tax", Fin p)] /\
        (p == 1400 + Qd 3 10 * (x - 10001))%Q).
Proof.
  split; [exact bracketAmount_growth|].
  split; [exact bracketAmount_continuous|].
  split.
  - eexists. eexists. split; [vm_compute; reflexivity|].
    split; [vm_compute; reflexivity|]. split; reflexivity.
  - intros x Hlo Hhi.
    destruct (germany_second_bracket x Hlo Hhi) as (p & Hp & Hv).
    exists p. split; [|exact Hv].
    unfold calculateIncomeTaxes.
    replace (taxRules_table !! "Germany") with (Some Germany) by (vm_compute; reflexivity).
    rewrite germany_has_germanBrackets. simpl. rewrite <- Hp. reflexivity.
Qed.

(** C3, witness: Germany's brackets between the bases 10000 and 10002. *)
Lemma C3_witness_germany :
  exists p q : Q,
    componentAmount (Fin 10000) (BracketTax germanBrackets) = Fin p /\
    componentAmount (Fin 10002) (BracketTax germanBrackets) = Fin q /\
    (p <= q)%Q /\ (q - p <= totalRate germanBrackets * (10002 - 10000))%Q.
Proof.
  apply (proj1 C3_bracket_amount_monotone_continuous germanBrackets 10000%Q 10002%Q).
  - reflexivity.
  - reflexivity.
  - unfold Qle; simpl; lia.
Defined.

(** ** C2: the flat wealth tax *)

(** First edition: above the threshold the rate is applied to the whole
    wealth. *)
Lemma calculateWealthTax_embedded_flat (rules : gmap string CountryTaxRules)
    (country : string) (r : CountryTaxRules) (rate threshold w : Q) :
  rules !! country = Some r ->
  wealthTax r = Some (FlatWealth rate threshold) ->
  calculateWealthTax_embedded rules (Fin w) country
  = Ok (if Qltb threshold w then Fin (w * rate) else Fin 0).
Proof.
  intros Hc Hw. unfold calculateWealthTax_embedded. rewrite Hc, Hw. simpl.
  destruct (Qltb threshold w); reflexivity.
Qed.

(** Second edition: above the threshold the rate is applied to the
    excess; at or below it, and without a rule, the tax is 0. *)
Lemma calculateWealthTax_fetched_flat (rules : gmap string CountryTaxRules)
    (country : string) (r : CountryTaxRules) (rate threshold w : Q) :
  rules !! country = Some r ->
  orElse (personalAssetsTax r) (wealthTax r) = Some (FlatWealth rate threshold) ->
  calculateWealthTax_fetched rules (Fin w) country
  = Ok (if Qltb threshold w then Fin ((w - threshold) * rate) else Fin 0).
Proof.
  intros Hc Hw. unfold calculateWealthTax_fetched. rewrite Hc, Hw. simpl.
  destruct (Qltb threshold w); reflexivity.
Qed.

Lemma calculateWealthTax_fetched_none (rules : gmap string CountryTaxRules)
    (country : string) (r : CountryTaxRules) (w : num) :
  rules !! country = Some r ->
  orElse (personalAssetsTax r) (wealthTax r) = None ->
  calculateWealthTax_fetched rules w country = Ok (Fin 0).
Proof.
  intros Hc Hw. unfold calculateWealthTax_fetched. rewrite Hc, Hw. reflexivity.
Qed.

Lemma calculateWealthTax_embedded_none (rules : gmap string CountryTaxRules)
    (country : string) (r : CountryTaxRules) (w : num) :
  rules !! country = Some r ->
  wealthTax r = None ->
  calculateWealthTax_embedded rules w country = Ok (Fin 0).
Proof.
  intros Hc Hw. unfold calculateWealthTax_embedded. rewrite Hc, Hw. reflexivity.
Qed.

(** C2: with Germany's flat rule (rate 0.01, threshold 1000000) and a
    wealth of 1200000 the claim gives (1200000 - 1000000) x 0.01 = 2000.
    The first edition's [calculateWealthTax] returns 1200000 x 0.01 =
    12000; the second edition's returns the claimed amount. *)
Theorem C2_embedded_wealth_tax_on_whole_wealth :
  calculateWealthTax_embedded taxRules_table (Fin 1200000) "Germany"
    = Ok (Fin (1200000 * Qd 1 100))
  /\ (1200000 * Qd 1 100 == 12000)%Q
  /\ ((1200000 - 1000000) * Qd 1 100 == 2000)%Q
  /\ calculateWealthTax_fetched taxRules_table (Fin 1200000) "Germany"
    = Ok (Fin ((1200000 - 1000000) * Qd 1 100)).
Proof.
  split; [vm_compute; reflexivity|].
  split; [reflexivity|].
  split; [reflexivity|].
  vm_compute; reflexivity.
Qed.

(** ** C5: the income-tax components *)

Lemma stepQ_spec (x a : Q) (b : Bracket) :
  (stepQ x a b - a == specBracket x b)%Q.
Proof.
  unfold stepQ, specBracket, taxableQ, upperBoundOrBase.
  destruct (Qltb (b_from b) x); [|ring].
  destruct (truthyQ (b_to b)).
  - destruct (Qltb_reflect (default 0%Q (b_to b)) x) as [H|H].
    + rewrite (Q.min_r x (default 0%Q (b_to b))); [ring | lra].
    + rewrite (Q.min_l x (default 0%Q (b_to b))); [ring | lra].
  - rewrite (Q.min_l x x); [ring | lra].
Qed.

Lemma bracketLoop_spec (x : Q) (bs : list Bracket) (a : Q) :
  (fold_left (stepQ x) bs a - a
   == fold_right (fun b acc => specBracket x b + acc) 0 bs)%Q.
Proof.
  revert a. induction bs as [|b bs IH]; intros a; simpl.
  - ring.
  - specialize (IH (stepQ x a b)). pose proof (stepQ_spec x a b). lra.
Qed.

Lemma stepQ_increases (x a : Q) (b : Bracket) :
  nonnegRate b = true -> ordered b = true -> (a <= stepQ x a b)%Q.
Proof.
  unfold nonnegRate, ordered, stepQ, taxableQ, truthyQ.
  intros Hr Ho. apply Qle_bool_iff in Hr.
  destruct b as [r f [u|]]; simpl in *.
  - apply Qle_bool_iff in Ho.
    destruct (Qzerob_reflect u); simpl; qcases; nra.
  - qcases; nra.
Qed.

Lemma bracketLoop_increases (x : Q) (bs : list Bracket) (a : Q) :
  forallb nonnegRate bs = true -> forallb ordered bs = true ->
  (a <= fold_left (stepQ x) bs a)%Q.
Proof.
  revert a. induction bs as [|b bs IH]; intros a Hr Ho; simpl.
  - lra.
  - apply andb_prop in Hr as [Hrb Hr]. apply andb_prop in Ho as [Hob Ho].
    pose proof (stepQ_increases x a b Hrb Hob). specialize (IH (stepQ x a b) Hr Ho). lra.
Qed.

Lemma bracketLoop_below_zero (x : Q) (bs : list Bracket) (a : Q) :
  forallb nonnegFrom bs = true -> (x <= 0)%Q ->
  fold_left (stepQ x) bs a = a.
Proof.
  revert a. induction bs as [|b bs IH]; intros a Hf Hx; simpl.
  - reflexivity.
  - apply andb_prop in Hf as [Hfb Hf]. apply Qle_bool_iff in Hfb.
    unfold stepQ at 2. destruct (Qltb_reflect (b_from b) x); [lra|]. apply IH; assumption.
Qed.

(** What one component contributes at a finite base. *)
Lemma componentAmount_spec (base : Q) (k : TaxKind) :
  exists q : Q,
    componentAmount (Fin base) k = Fin q /\
    (q == specAmount base k)%Q /\
    (kindNonnegative k = true -> (0 <= q)%Q) /\
    (kindFromZero k = true -> (base <= 0)%Q -> (q == 0)%Q).
Proof.
  destruct k as [rate threshold|bs|]; simpl.
  - unfold gt, lt. destruct (Qltb_reflect threshold base) as [H|H]; simpl.
    + eexists. split; [reflexivity|]. split; [|split].
      * rewrite Q.max_r; [ring | lra].
      * intros Hr. apply Qle_bool_iff in Hr. nra.
      * intros Ht Hb. apply Qle_bool_iff in Ht. lra.
    + eexists. split; [reflexivity|]. split; [|split].
      * rewrite Q.max_l; [ring | lra].
      * intros _. lra.
      * intros _ _. reflexivity.
  - rewrite bracketLoop_finite. eexists. split; [reflexivity|]. split; [|split].
    + pose proof (bracketLoop_spec base bs 0%Q). lra.
    + intros Hw. apply andb_prop in Hw as [Hr Ho].
      apply (bracketLoop_increases base bs 0%Q Hr Ho).
    + intros Hf Hb. rewrite bracketLoop_below_zero; [reflexivity | assumption | assumption].
  - exists 0%Q. split; [reflexivity|]. split; [reflexivity|]. split.
    + intros _. lra.
    + intros _ _. reflexivity.
Qed.

(** C5, counterexample: a flat-rate component with rate 0.1 and threshold
    -10 contributes 0.5 at the base -5, although the base is <= 0 and the
    rate is non-negative. *)
Lemma C5_counterexample_negative_threshold :
  exists q : Q,
    calculateIncomeTaxes
      {[ "Ruritania" := mkRules (Some [ mkTax "Levy" (FlatRate (Qd 1 10) (-10)) ])
                                None None ∅ UnknownPension ]}
      (Fin (-5)) "Ruritania" = Ok [("Levy", Fin q)]
    /\ (-5 <= 0)%Q /\ (0 <= Qd 1 10)%Q /\ ~ (q == 0)%Q.
Proof.
  eexists. split; [vm_compute; reflexivity|].
  split; [unfold Qle; simpl; lia|].
  split; [unfold Qle; simpl; lia|].
  intro H. vm_compute in H. discriminate H.
Qed.

(** Why the amended claim asks for lower <= upper bound: the bracket
    [10, 5] with rate 0.1 contributes -0.5 at the base 20. *)
Example reversed_bracket_is_negative :
  exists q : Q,
    componentAmount (Fin 20) (BracketTax [ bracket (Qd 1 10) 10 (Some 5%Q) ]) = Fin q
    /\ (q < 0)%Q.
Proof. eexists. split; [vm_compute; reflexivity|]. reflexivity. Qed.

(** C5, as amended: for every finite base and every country whose rule
    set has an income-tax list, [calculateIncomeTaxes] returns one
    (name, amount) pair per component, in order.  A flat-rate component
    contributes max(0, base - threshold) x rate; a bracket component
    contributes the sum, over the brackets whose lower bound is strictly
    below the base, of (min(base, upperBoundOrBase) - lowerBound) x rate,
    where an absent upper bound, and an upper bound of 0, count as
    unbounded.  No amount is negative when the rates are non-negative and
    every bounded bracket has lower <= upper bound; every amount is 0 at a
    base <= 0 when thresholds and lower bounds are non-negative. *)
Theorem C5_income_tax_components :
  forall (rules : gmap string CountryTaxRules) (country : string)
         (r : CountryTaxRules) (taxes : list TaxComponent) (base : Q),
    rules !! country = Some r ->
    incomeTaxes r = Some taxes ->
    exists pairs : list (string * num),
      calculateIncomeTaxes rules (Fin base) country = Ok pairs /\
      Forall2
        (fun tax pair =>
           fst pair = t_name tax /\
           exists q : Q,
             snd pair = Fin q /\
             (q == specAmount base (t_kind tax))%Q /\
             (kindNonnegative (t_kind tax) = true -> (0 <= q)%Q) /\
             (kindFromZero (t_kind tax) = true -> (base <= 0)%Q -> (q == 0)%Q))
        taxes pairs.
Proof.
  intros rules country r taxes base Hc Ht.
  unfold calculateIncomeTaxes. rewrite Hc, Ht.
  eexists. split; [reflexivity|].
  clear Ht. induction taxes as [|tax taxes IH]; simpl.
  - constructor.
  - constructor; [|exact IH]. simpl. split; [reflexivity|].
    apply componentAmount_spec.
Qed.

(** C5, witness: Ireland's three components at the base 50000. *)
Lemma C5_witness_ireland :
  exists pairs : list (string * num),
    calculateIncomeTaxes taxRules_table (Fin 50000) "Ireland" = Ok pairs /\
    Forall2
      (fun tax pair =>
         fst pair = t_name tax /\
         exists q : Q,
           snd pair = Fin q /\
           (q == specAmount 50000 (t_kind tax))%Q /\
           (kindNonnegative (t_kind tax) = true -> (0 <= q)%Q) /\
           (kindFromZero (t_kind tax) = true -> (50000 <= 0)%Q -> (q == 0)%Q))
      (default [] (incomeTaxes Ireland)) pairs.
Proof.
  apply (C5_income_tax_components taxRules_table "Ireland" Ireland).
  - vm_compute. reflexivity.
  - reflexivity.
Defined.

(** ** C1: the receiver the constructor builds *)

Lemma calculateInvestmentReturns_throws (random : nat -> Q) (this : TaxSystem)
    (investments : list Investment) (k : nat) (e : string) :
  calculateInvestmentReturns random this k investments = Throw e -> e = TypeError.
Proof.
  revert k. induction investments as [|inv rest IH]; intros k; simpl.
  - discriminate.
  - destruct (entryOf (financialParameters this) (i_type inv)); [|congruence].
    destruct (calculateInvestmentReturns random this (S k) rest) eqn:E; simpl.
    + discriminate.
    + intros H. injection H as <-. apply (IH (S k)). exact E.
Qed.

Lemma yearStep_on_constructed_system (random : nat -> Q)
    (rules : gmap string CountryTaxRules) (fp : gmap string Params)
    (profile : Profile) (year : Z) (st : State) :
  Embedded.yearStep random (new_TaxSystem rules fp) profile year st = Throw TypeError.
Proof.
  unfold Embedded.yearStep, beginYear.
  destruct (explicitExpenses (findEvent profile year)) as [x|]; simpl; [|reflexivity].
  unfold yearBody; simpl.
  destruct (calculateInvestmentReturns random (new_TaxSystem rules fp)
              (draws st) (investments st)) as [done|e] eqn:E; simpl.
  - reflexivity.
  - apply calculateInvestmentReturns_throws in E. congruence.
Qed.

(** With the property assigned, the two methods return numbers: 100000 x
    0.05 and 42000 x 1.02 when every draw is 0.5. *)
Example market_methods_on_assigned_system :
  exists p e : Q,
    calculatePensionReturns evenDraws (assignedSystem taxRules_table) 0 (Fin 100000)
    = Ok (Fin p) /\ (p == 5000)%Q /\
    calculateExpenses evenDraws (assignedSystem taxRules_table) 0 (Fin 42000)
    = Ok (Fin e) /\ (e == 42840)%Q.
Proof.
  eexists. eexists. split; [vm_compute; reflexivity|]. split; [reflexivity|].
  split; [vm_compute; reflexivity|]. reflexivity.
Qed.

(** C1: on the receiver [new TaxSystem(taxRules, financialParameters)]
    builds, [calculatePensionReturns] and [calculateExpenses] read
    [this.FinancialParameters], which the constructor never assigns (it
    assigns [financialParameters]); both throw a TypeError for every
    argument, and so does [simulateScenario] for every profile with at
    least one simulated year: no YearResult is returned. *)
Theorem C1_constructed_system_throws :
  forall (random : nat -> Q) (rules : gmap string CountryTaxRules)
         (fp : gmap string Params),
    (forall (k : nat) (pensionPot : num),
        calculatePensionReturns random (new_TaxSystem rules fp) k pensionPot
        = Throw TypeError) /\
    (forall (k : nat) (expenses : num),
        calculateExpenses random (new_TaxSystem rules fp) k expenses
        = Throw TypeError) /\
    (forall (profile : Profile) (startYear : Z),
        startYear <= targetYear profile ->
        Embedded.simulateScenario random (new_TaxSystem rules fp) profile startYear
        = Throw TypeError).
Proof.
  intros random rules fp. split; [reflexivity|]. split; [reflexivity|].
  intros profile startYear Hy. unfold Embedded.simulateScenario.
  destruct (Z.to_nat (targetYear profile - startYear + 1)) as [|n] eqn:En; [lia|].
  simpl. rewrite yearStep_on_constructed_system. reflexivity.
Qed.

(** C1, witness: the script's own run (lines 373-374), started in 2024. *)
Lemma C1_witness_main :
  main (fun _ => Qd 1 2) 2024 = Throw TypeError.
Proof.
  apply (proj2 (proj2 (C1_constructed_system_throws
                         (fun _ => Qd 1 2) taxRules_table financialParameters_table))).
  simpl. lia.
Defined.

(** ** The year step, taken apart *)

Lemma calculateInvestmentReturns_amounts (random : nat -> Q) (this : TaxSystem)
    (investments investments' : list Investment) (k k' : nat) :
  calculateInvestmentReturns random this k investments = Ok (investments', k') ->
  map amount investments' = map amount investments /\
  map i_type investments' = map i_type investments.
Proof.
  revert k k' investments'.
  induction investments as [|inv rest IH]; intros k k' investments'; simpl.
  - intros H. injection H as <- <-. split; reflexivity.
  - destruct (entryOf (financialParameters this) (i_type inv)); [|discriminate].
    destruct (calculateInvestmentReturns random this (S k) rest) as [[rest' k'']|e] eqn:E;
      simpl; [|discriminate].
    intros H. injection H as <- <-.
    destruct (IH _ _ _ E) as [Ha Ht]. simpl. rewrite Ha, Ht. split; reflexivity.
Qed.

Lemma entryOf_own (table : gmap string Params) (key : string) (p : Params) :
  table !! key = Some p -> entryOf table key = Some p.
Proof. intros H. unfold entryOf. rewrite H. reflexivity. Qed.

(** One draw per position. *)
Lemma calculateInvestmentReturns_draws (random : nat -> Q) (this : TaxSystem)
    (investments investments' : list Investment) (k k' : nat) :
  calculateInvestmentReturns random this k investments = Ok (investments', k') ->
  k' = (k + length investments)%nat.
Proof.
  revert k k' investments'.
  induction investments as [|inv rest IH]; intros k k' investments'; simpl.
  - intros H. injection H as <- <-. lia.
  - destruct (entryOf (financialParameters this) (i_type inv)); [|discriminate].
    destruct (calculateInvestmentReturns random this (S k) rest) as [[rest' k'']|e] eqn:E;
      simpl; [|discriminate].
    intros H. injection H as <- <-. rewrite (IH _ _ _ E). lia.
Qed.

(** What [calculateExpenses] returns when it returns. *)
Lemma calculateExpenses_Ok (random : nat -> Q) (this : TaxSystem) (k : nat)
    (expenses adjusted : num) :
  calculateExpenses random this k expenses = Ok adjusted ->
  exists (fp : gmap string Params) (inflation : Params),
    FinancialParameters this = Some fp /\ fp !! "inflation" = Some inflation /\
    adjusted
    = mul expenses
        (add (Fin 1)
             (add (toNumber (rate inflation))
                  (mul (sub (mul (Fin (random k)) (Fin 2)) (Fin 1))
                       (toNumber (volatility inflation))))).
Proof.
  unfold calculateExpenses.
  destruct (FinancialParameters this) as [fp|]; [|discriminate].
  destruct (fp !! "inflation") as [p|] eqn:E; [|discriminate].
  intros H. injection H as <-. exists fp, p. repeat split. exact E.
Qed.

(** A completed body: what each call returned, and the state built from
    it. *)
Lemma yearBody_Ok (random : nat -> Q)
    (wealthTaxOf : gmap string CountryTaxRules -> num -> string -> result num)
    (this : TaxSystem) (profile : Profile) (year : Z) (income : value)
    (expenses : num) (st st' : State) :
  yearBody random wealthTaxOf this profile year income expenses st = Ok st' ->
  exists (invs : list Investment) (k : nat) (ret contrib : num)
         (taxes : list (string * num)) (wtax cgt : num),
    calculateInvestmentReturns random this (draws st) (investments st) = Ok (invs, k) /\
    calculatePensionReturns random this k (pensionPot st) = Ok ret /\
    calculatePensionContribution (taxRules this) (toNumber income) (country st)
      (Fin (inject_Z (year - birthYear profile))) = Ok contrib /\
    calculateIncomeTaxes (taxRules this)
      (add (toNumber income)
           (pensionIncomeOf (isRetired st) (add (add (pensionPot st) ret) contrib)))
      (country st) = Ok taxes /\
    wealthTaxOf (taxRules this) (remainingWealth st) (country st) = Ok wtax /\
    calculateCapitalGainsTax (taxRules this) invs (country st) = Ok cgt /\
    st' = closeYear year income expenses st invs (S k)
            (add (add (pensionPot st) ret) contrib)
            (pensionIncomeOf (isRetired st) (add (add (pensionPot st) ret) contrib))
            taxes wtax cgt.
Proof.
  unfold yearBody.
  destruct (calculateInvestmentReturns random this (draws st) (investments st))
    as [[invs k]|e] eqn:E1; simpl; [|discriminate].
  destruct (calculatePensionReturns random this k (pensionPot st))
    as [ret|e] eqn:E2; simpl; [|discriminate].
  destruct (calculatePensionContribution (taxRules this) (toNumber income) (country st)
              (Fin (inject_Z (year - birthYear profile))))
    as [contrib|e] eqn:E3; simpl; [|discriminate].
  destruct (calculateIncomeTaxes (taxRules this) _ (country st))
    as [taxes|e] eqn:E4; simpl; [|discriminate].
  destruct (wealthTaxOf (taxRules this) (remainingWealth st) (country st))
    as [wtax|e] eqn:E5; simpl; [|discriminate].
  destruct (calculateCapitalGainsTax (taxRules this) invs (country st))
    as [cgt|e] eqn:E6; simpl; [|discriminate].
  intros H. injection H as <-.
  exists invs, k, ret, contrib, taxes, wtax, cgt. repeat split; assumption.
Qed.

(** What [beginYear] returns when it returns. *)
Lemma beginYear_Ok (random : nat -> Q) (this : TaxSystem) (profile : Profile)
    (year : Z) (st : State) (income : value) (expenses : num) (st1 : State) :
  beginYear random this profile year st = Ok (income, expenses, st1) ->
  let lifeEvent := findEvent profile year in
  income = incomeFor lifeEvent (previousIncome st) /\
  match explicitExpenses lifeEvent with
  | Some x => expenses = x /\ draws st1 = draws st
  | None =>
      calculateExpenses random this (draws st) (toNumber (previousExpenses st))
      = Ok expenses /\ draws st1 = S (draws st)
  end /\
  results st1 = results st /\
  remainingWealth st1 = remainingWealth st /\
  investments st1 = investments st /\
  pensionPot st1 = pensionPot st /\
  isRetired st1 = (if retiresNow lifeEvent then true else isRetired st) /\
  previousIncome st1 = income /\
  previousExpenses st1 = Some expenses /\
  country st1 = countryFor lifeEvent (country st).
Proof.
  unfold beginYear.
  destruct (explicitExpenses (findEvent profile year)) as [x|]; simpl.
  - intros H. injection H as <- <- <-. simpl. repeat split; reflexivity.
  - destruct (calculateExpenses random this (draws st) (toNumber (previousExpenses st)))
      as [x|e]; simpl; [|discriminate].
    intros H. injection H as <- <- <-. simpl. repeat split; reflexivity.
Qed.

(** A completed step of the first edition is a completed [beginYear]
    followed by a completed body. *)
Lemma embedded_yearStep_Ok (random : nat -> Q) (this : TaxSystem)
    (profile : Profile) (year : Z) (st st' : State) :
  Embedded.yearStep random this profile year st = Ok st' ->
  exists (income : value) (expenses : num) (st1 : State),
    beginYear random this profile year st = Ok (income, expenses, st1) /\
    yearBody random calculateWealthTax_embedded this profile year income expenses st1
    = Ok st'.
Proof.
  unfold Embedded.yearStep.
  destruct (beginYear random this profile year st) as [[[income expenses] st1]|e];
    simpl; [|discriminate].
  intros H. exists income, expenses, st1. split; [reflexivity | exact H].
Qed.

(** The result record a completed step pushed, and the state it left, in
    terms of the state before the step. *)
Lemma embedded_yearStep_closeYear (random : nat -> Q) (this : TaxSystem)
    (profile : Profile) (year : Z) (st st' : State) :
  Embedded.yearStep random this profile year st = Ok st' ->
  exists (income : value) (expenses : num) (st1 : State)
         (invs : list Investment) (k : nat) (ret contrib : num)
         (taxes : list (string * num)) (wtax cgt : num),
    beginYear random this profile year st = Ok (income, expenses, st1) /\
    calculateInvestmentReturns random this (draws st1) (investments st) = Ok (invs, k) /\
    calculatePensionReturns random this k (pensionPot st) = Ok ret /\
    calculatePensionContribution (taxRules this) (toNumber income) (country st1)
      (Fin (inject_Z (year - birthYear profile))) = Ok contrib /\
    st' = closeYear year income expenses st1 invs (S k)
            (add (add (pensionPot st) ret) contrib)
            (pensionIncomeOf (isRetired st1) (add (add (pensionPot st) ret) contrib))
            taxes wtax cgt.
Proof.
  intros H. apply embedded_yearStep_Ok in H as (income & expenses & st1 & Hb & Hy).
  apply yearBody_Ok in Hy
    as (invs & k & ret & contrib & taxes & wtax & cgt & E1 & E2 & E3 & _ & _ & _ & ->).
  pose proof (beginYear_Ok _ _ _ _ _ _ _ _ Hb)
    as (_ & _ & _ & _ & Hinv & Hpot & _).
  rewrite Hinv in E1. rewrite Hpot in E2. rewrite Hpot.
  exists income, expenses, st1, invs, k, ret, contrib, taxes, wtax, cgt.
  repeat split; assumption.
Qed.

Lemma ge_true_lt_false (a b : num) : ge a b = true -> lt a b = false.
Proof.
  unfold ge. destruct a as [x| | |], b as [y| | |]; simpl; try congruence.
  unfold Qltb. intros ->. reflexivity.
Qed.

Lemma distribute_amounts (surplus wealth : num) (invs : list Investment) :
  map amount (distribute surplus wealth invs)
  = map (fun a => add a (mul surplus (div a wealth))) (map amount invs).
Proof.
  unfold distribute. rewrite !map_map. reflexivity.
Qed.

(** The surplus branch of lines 317-326. *)
Lemma updateWealth_surplus (netIncome expenses wealth : num) (invs : list Investment) :
  lt netIncome expenses = false ->
  updateWealth netIncome expenses wealth invs
  = (add wealth (sub netIncome expenses),
     distribute (sub netIncome expenses) (add wealth (sub netIncome expenses)) invs).
Proof. unfold updateWealth. intros ->. reflexivity. Qed.

(** The surplus branch of a completed step, whenever line 317's test
    fails. *)
Lemma embedded_yearStep_surplus (random : nat -> Q) (this : TaxSystem)
    (profile : Profile) (year : Z) (st st' : State) (yr : YearResult) :
  Embedded.yearStep random this profile year st = Ok st' ->
  results st' = (results st ++ [yr])%list ->
  lt (r_netIncome yr) (r_expenses yr) = false ->
  remainingWealth st' = add (remainingWealth st) (sub (r_netIncome yr) (r_expenses yr)) /\
  map amount (investments st')
  = map (fun a => add a (mul (sub (r_netIncome yr) (r_expenses yr))
                             (div a (remainingWealth st'))))
        (map amount (investments st)) /\
  r_remainingWealth yr = remainingWealth st'.
Proof.
  intros Hs Hr Hlt.
  apply embedded_yearStep_closeYear in Hs
    as (income & expenses & st1 & invs & k & ret & contrib & taxes & wtax & cgt
        & Hb & E1 & _ & _ & ->).
  pose proof (beginYear_Ok _ _ _ _ _ _ _ _ Hb)
    as (_ & _ & Hres & Hw & _).
  simpl in Hr. rewrite Hres in Hr. apply app_inj_tail in Hr as [_ <-].
  simpl in *. rewrite Hw in *.
  rewrite (updateWealth_surplus _ _ _ _ Hlt). simpl.
  rewrite distribute_amounts.
  destruct (calculateInvestmentReturns_amounts _ _ _ _ _ _ E1) as [-> _].
  repeat split; reflexivity.
Qed.

(** ** C6: the surplus is spread over the post-surplus wealth *)

(** C6: in every completed year step with netIncome >= expenses, the new
    wealth is the old wealth plus the surplus, and every position's amount
    grows by surplus x (amount / new wealth): the divisor is the wealth
    that already includes the surplus. *)
Theorem C6_surplus_distribution :
  forall (random : nat -> Q) (this : TaxSystem) (profile : Profile)
         (year : Z) (st st' : State) (yr : YearResult),
    Embedded.yearStep random this profile year st = Ok st' ->
    results st' = (results st ++ [yr])%list ->
    ge (r_netIncome yr) (r_expenses yr) = true ->
    let surplus := sub (r_netIncome yr) (r_expenses yr) in
    remainingWealth st' = add (remainingWealth st) surplus /\
    map amount (investments st')
    = map (fun a => add a (mul surplus (div a (add (remainingWealth st) surplus))))
          (map amount (investments st)).
Proof.
  intros random this profile year st st' yr Hs Hr Hge surplus.
  destruct (embedded_yearStep_surplus _ _ _ _ _ _ _ Hs Hr (ge_true_lt_false _ _ Hge))
    as (Hw & Ha & _).
  split; [exact Hw|]. rewrite Ha, Hw. reflexivity.
Qed.

(** C6, witness: [userProfile] in 2025. *)
Lemma C6_witness_userProfile_2025 :
  let surplus := sub (r_netIncome surplusResult) (r_expenses surplusResult) in
  remainingWealth surplusYear = add (Fin 1200000) surplus /\
  map amount (investments surplusYear)
  = map (fun a => add a (mul surplus (div a (add (Fin 1200000) surplus))))
        [Fin 50000; Fin 30000].
Proof.
  apply (C6_surplus_distribution evenDraws (assignedSystem taxRules_table) userProfile
           2025 (initialState userProfile) surplusYear surplusResult).
  - vm_compute. reflexivity.
  - vm_compute. reflexivity.
  - vm_compute. reflexivity.
Defined.

(** ** C7: the division by the post-surplus wealth *)

Lemma div_by_zero_not_finite (a w : num) :
  num_eq w (Fin 0) -> is_finite (div a w) = false.
Proof.
  destruct w as [z| | |]; simpl; try contradiction. intros Hz.
  destruct a as [x| | |]; simpl; try reflexivity.
  - destruct (Qzerob_reflect z); [|contradiction].
    destruct (Qzerob x); [reflexivity|]. destruct (Qltb 0 x); reflexivity.
  - destruct (Qltb z 0); reflexivity.
  - destruct (Qltb z 0); reflexivity.
Qed.

Lemma mul_not_finite (s d : num) :
  is_finite d = false -> is_finite (mul s d) = false.
Proof.
  destruct d as [y| | |]; simpl; try discriminate; intros _;
    destruct s as [x| | |]; simpl; try reflexivity;
    unfold inf_times; destruct (Qzerob x); try reflexivity;
    destruct (Bool.eqb _ _); reflexivity.
Qed.

Lemma add_not_finite (a m : num) :
  is_finite m = false -> is_finite (add a m) = false.
Proof.
  destruct m as [y| | |]; simpl; try discriminate; intros _;
    destruct a as [x| | |]; reflexivity.
Qed.

(** C7, counterexample: in [breakEvenProfile]'s year the surplus branch
    runs with a post-surplus wealth of exactly zero; line 324 divides 1000
    by it, and the position's amount changes from 1000 to NaN. *)
Lemma C7_counterexample_break_even :
  exists (st' : State) (yr : YearResult),
    Embedded.yearStep evenDraws (assignedSystem taxRules_table) breakEvenProfile 2024
      (initialState breakEvenProfile) = Ok st' /\
    results st' = [yr] /\
    ge (r_netIncome yr) (r_expenses yr) = true /\
    num_eq (remainingWealth st') (Fin 0) /\
    map amount (investments (initialState breakEvenProfile)) = [Fin 1000] /\
    map amount (investments st') = [NaN].
Proof.
  eexists. eexists. split; [vm_compute; reflexivity|].
  split; [reflexivity|]. split; [vm_compute; reflexivity|].
  split; [vm_compute; reflexivity|]. split; reflexivity.
Qed.

(** C7, as amended: the division on line 324 is not guarded.  In every
    completed year step that takes the surplus branch and leaves a wealth
    of exactly zero, each position's amount is divided by zero, which
    raises no error, and ends the year as NaN or an infinity. *)
Theorem C7_zero_wealth_division_unguarded :
  forall (random : nat -> Q) (this : TaxSystem) (profile : Profile)
         (year : Z) (st st' : State) (yr : YearResult),
    Embedded.yearStep random this profile year st = Ok st' ->
    results st' = (results st ++ [yr])%list ->
    lt (r_netIncome yr) (r_expenses yr) = false ->
    num_eq (remainingWealth st') (Fin 0) ->
    length (investments st') = length (investments st) /\
    Forall (fun inv => is_finite (amount inv) = false) (investments st').
Proof.
  intros random this profile year st st' yr Hs Hr Hlt Hz.
  destruct (embedded_yearStep_surplus _ _ _ _ _ _ _ Hs Hr Hlt) as (_ & Ha & _).
  split.
  - rewrite <- (length_map amount (investments st')), Ha, !length_map. reflexivity.
  - apply (proj1 (Forall_map amount (fun a => is_finite a = false) (investments st'))).
    rewrite Ha. apply Forall_map, Forall_forall. intros a _.
    apply add_not_finite, mul_not_finite, div_by_zero_not_finite. exact Hz.
Qed.

(** C7, witness: [breakEvenProfile] in 2024. *)
Lemma C7_witness_break_even :
  length (investments breakEvenYear) = length (investments (initialState breakEvenProfile)) /\
  Forall (fun inv => is_finite (amount inv) = false) (investments breakEvenYear).
Proof.
  apply (C7_zero_wealth_division_unguarded evenDraws (assignedSystem taxRules_table)
           breakEvenProfile 2024 (initialState breakEvenProfile)
           breakEvenYear breakEvenResult).
  - vm_compute. reflexivity.
  - vm_compute. reflexivity.
  - vm_compute. reflexivity.
  - vm_compute. reflexivity.
Defined.

(** ** C9: the pension pot is only ever added to *)

Lemma calculatePensionReturns_Ok (random : nat -> Q) (this : TaxSystem) (k : nat)
    (pensionPot ret : num) :
  calculatePensionReturns random this k pensionPot = Ok ret ->
  exists (fp : gmap string Params) (p : Params),
    FinancialParameters this = Some fp /\ fp !! "pension" = Some p /\
    ret = mul pensionPot
            (add (toNumber (expectedReturn p)) (randomFactor random k (volatility p))).
Proof.
  unfold calculatePensionReturns.
  destruct (FinancialParameters this) as [fp|]; [|discriminate].
  destruct (fp !! "pension") as [p|] eqn:E; [|discriminate].
  intros H. injection H as <-. exists fp, p. repeat split. exact E.
Qed.

(** C9: in every completed year step the new pension pot is the old pot,
    plus the old pot times the rate sampled from the receiver's pension
    entry with the draw that follows the positions' draws, plus the year's
    contribution on the year's income in the year's country - retired or
    not.  The pension income the year reports is 0.04 of that pot when
    retired and 0 otherwise, and is not taken out of the pot. *)
Theorem C9_pension_pot_not_drawn_down :
  forall (random : nat -> Q) (this : TaxSystem) (profile : Profile)
         (year : Z) (st st' : State),
    Embedded.yearStep random this profile year st = Ok st' ->
    exists (fp : gmap string Params) (pension : Params) (contribution : num)
           (yr : YearResult),
      FinancialParameters this = Some fp /\
      fp !! "pension" = Some pension /\
      calculatePensionContribution (taxRules this)
        (toNumber (incomeFor (findEvent profile year) (previousIncome st)))
        (countryFor (findEvent profile year) (country st))
        (Fin (inject_Z (year - birthYear profile))) = Ok contribution /\
      pensionPot st'
      = add (add (pensionPot st)
                 (mul (pensionPot st)
                      (add (toNumber (expectedReturn pension))
                           (mul (sub (mul (Fin (random
                                     (draws st
                                      + match explicitExpenses (findEvent profile year) with
                                        | Some _ => 0
                                        | None => 1
                                        end
                                      + length (investments st))%nat))
                                          (Fin 2))
                                     (Fin 1))
                                (toNumber (volatility pension))))))
            contribution /\
      results st' = (results st ++ [yr])%list /\
      r_pensionIncome yr
      = (if (if retiresNow (findEvent profile year) then true else isRetired st)
         then mul (pensionPot st') (Fin (Qd 4 100))
         else Fin 0) /\
      isRetired st' = (if retiresNow (findEvent profile year) then true else isRetired st).
Proof.
  intros random this profile year st st' Hs.
  apply embedded_yearStep_closeYear in Hs
    as (income & expenses & st1 & invs & k & ret & contrib & taxes & wtax & cgt
        & Hb & E1 & E2 & E3 & ->).
  pose proof (beginYear_Ok _ _ _ _ _ _ _ _ Hb)
    as (Hinc & Hexp & Hres & _ & _ & _ & Hret & _ & _ & Hc).
  apply calculateInvestmentReturns_draws in E1.
  assert (Hk : k = (draws st
                    + match explicitExpenses (findEvent profile year) with
                      | Some _ => 0
                      | None => 1
                      end
                    + length (investments st))%nat).
  { destruct (explicitExpenses (findEvent profile year)); destruct Hexp as [_ Hd]; lia. }
  apply calculatePensionReturns_Ok in E2 as (fp & p & Hfp & Hp & ->).
  rewrite Hinc, Hc in E3. rewrite <- Hk.
  exists fp, p, contrib. eexists. simpl. rewrite Hres, Hret.
  split; [exact Hfp|]. split; [exact Hp|]. split; [exact E3|].
  split; [reflexivity|]. split; [reflexivity|]. split; reflexivity.
Qed.

(** C9, witness: [userProfile] in 2030, the year of retirement. *)
Lemma C9_witness_userProfile_2030 :
  exists (fp : gmap string Params) (pension : Params) (contribution : num)
         (yr : YearResult),
    FinancialParameters (assignedSystem taxRules_table) = Some fp /\
    fp !! "pension" = Some pension /\
    calculatePensionContribution taxRules_table
      (toNumber (incomeFor (findEvent userProfile 2030) (Some (Fin 80000))))
      (countryFor (findEvent userProfile 2030) "Germany")
      (Fin (inject_Z (2030 - 1985))) = Ok contribution /\
    pensionPot retirementYear
    = add (add (Fin 100000)
               (mul (Fin 100000)
                    (add (toNumber (expectedReturn pension))
                         (mul (sub (mul (Fin (evenDraws
                                   (0 + match explicitExpenses (findEvent userProfile 2030) with
                                        | Some _ => 0
                                        | None => 1
                                        end
                                    + length (initialInvestments userProfile))%nat))
                                        (Fin 2))
                                   (Fin 1))
                              (toNumber (volatility pension))))))
          contribution /\
    results retirementYear = ([] ++ [yr])%list /\
    r_pensionIncome yr
    = (if (if retiresNow (findEvent userProfile 2030) then true else false)
       then mul (pensionPot retirementYear) (Fin (Qd 4 100))
       else Fin 0) /\
    isRetired retirementYear
    = (if retiresNow (findEvent userProfile 2030) then true else false).
Proof.
  apply (C9_pension_pot_not_drawn_down evenDraws (assignedSystem taxRules_table)
           userProfile 2030 (initialState userProfile) retirementYear).
  vm_compute. reflexivity.
Defined.

(** In figures: 100000 + 100000 x 0.05 + 80000 x 0.18 = 119400 in the
    pot at the end of 2030, and 0.04 of it, 4776, reported as pension
    income. *)
Example retirementYear_in_figures :
  exists (pot income : Q) (yr : YearResult),
    pensionPot retirementYear = Fin pot /\ (pot == 119400)%Q /\
    results retirementYear = [yr] /\
    r_pensionIncome yr = Fin income /\ (income == 4776)%Q.
Proof.
  eexists. eexists. eexists. split; [vm_compute; reflexivity|].
  split; [reflexivity|]. split; [vm_compute; reflexivity|].
  split; reflexivity.
Qed.

(** ** C10: where the starting income and expenses come from *)

(** C10: in a first simulated year that no life event matches, the
    year's income is the income of the first element of [lifeEvents],
    whatever that element's year, and the year's expenses are that
    element's expenses times 1 + the inflation rate sampled from the
    receiver's inflation entry with the first draw; the year's income taxes
    are computed on that income.  With an empty [lifeEvents] the income is
    0 and the expenses are 0 times that factor, which is 0 for a finite
    inflation entry. *)
Theorem C10_starting_income_and_expenses :
  forall (profile : Profile) (random : nat -> Q) (this : TaxSystem)
         (startYear : Z) (st' : State),
    findEvent profile startYear = None ->
    Embedded.yearStep random this profile startYear (initialState profile) = Ok st' ->
    exists (yr : YearResult) (fp : gmap string Params) (inflation : Params),
      results st' = [yr] /\
      r_year yr = startYear /\
      FinancialParameters this = Some fp /\
      fp !! "inflation" = Some inflation /\
      (forall (e : LifeEvent) (rest : list LifeEvent),
          lifeEvents profile = e :: rest ->
          previousIncome st' = e_income e /\
          r_expenses yr
          = mul (toNumber (e_expenses e))
              (add (Fin 1)
                   (add (toNumber (rate inflation))
                        (mul (sub (mul (Fin (random O)) (Fin 2)) (Fin 1))
                             (toNumber (volatility inflation)))))) /\
      (lifeEvents profile = [] ->
         previousIncome st' = Some (Fin 0) /\
         r_expenses yr
         = mul (Fin 0)
             (add (Fin 1)
                  (add (toNumber (rate inflation))
                       (mul (sub (mul (Fin (random O)) (Fin 2)) (Fin 1))
                            (toNumber (volatility inflation))))) /\
         (forall i v : Q,
             rate inflation = Some (Fin i) -> volatility inflation = Some (Fin v) ->
             num_eq (r_expenses yr) (Fin 0))) /\
      previousExpenses st' = Some (r_expenses yr) /\
      calculateIncomeTaxes (taxRules this)
        (add (toNumber (previousIncome st')) (Fin 0)) (initialCountry profile)
      = Ok (r_incomeTaxes yr).
Proof.
  intros profile random this startYear st' Hnone Hs.
  apply embedded_yearStep_Ok in Hs as (income & expenses & st1 & Hb & Hy).
  pose proof (beginYear_Ok _ _ _ _ _ _ _ _ Hb)
    as (Hinc & Hexp & Hres & _ & _ & _ & Hret & Hpi & Hpe & Hc).
  rewrite Hnone in Hinc, Hexp, Hret, Hc. simpl in Hinc, Hexp, Hret, Hc.
  destruct Hexp as [Hexp _].
  unfold calculateExpenses, randomFactor in Hexp.
  destruct (FinancialParameters this) as [fp|] eqn:Hfp; [|discriminate].
  destruct (fp !! "inflation") as [inflation|] eqn:Hinfl; [|discriminate].
  injection Hexp as Hval. symmetry in Hval.
  apply yearBody_Ok in Hy
    as (invs & k & ret & contrib & taxes & wtax & cgt & _ & _ & _ & Htaxes & _ & _ & ->).
  rewrite Hret in Htaxes. simpl in Htaxes. rewrite Hc in Htaxes.
  eexists. exists fp, inflation. simpl. rewrite Hres, Hpi, Hpe.
  split; [reflexivity|]. split; [reflexivity|].
  split; [reflexivity|]. split; [exact Hinfl|].
  split; [|split; [|split]].
  - intros e rest He. unfold initialState in Hinc, Hval. simpl in Hinc, Hval.
    rewrite He in Hinc, Hval. split; assumption.
  - intros He. unfold initialState in Hinc, Hval. simpl in Hinc, Hval.
    rewrite He in Hinc, Hval. simpl in Hval. split; [exact Hinc|].
    split; [exact Hval|].
    intros i v Hi Hv. rewrite Hval, Hi, Hv. simpl. ring.
  - reflexivity.
  - rewrite Hinc in Htaxes. rewrite Hinc. exact Htaxes.
Qed.

(** C10, witness: [userProfile] started in 2024; its first life event is
    dated 2025 and states an income of 80000 and expenses of 42000. *)
Lemma C10_witness_userProfile_2024 :
  exists (yr : YearResult) (fp : gmap string Params) (inflation : Params),
    results firstYear = [yr] /\
    r_year yr = 2024 /\
    FinancialParameters (assignedSystem taxRules_table) = Some fp /\
    fp !! "inflation" = Some inflation /\
    (forall (e : LifeEvent) (rest : list LifeEvent),
        lifeEvents userProfile = e :: rest ->
        previousIncome firstYear = e_income e /\
        r_expenses yr
        = mul (toNumber (e_expenses e))
            (add (Fin 1)
                 (add (toNumber (rate inflation))
                      (mul (sub (mul (Fin (evenDraws O)) (Fin 2)) (Fin 1))
                           (toNumber (volatility inflation)))))) /\
    (lifeEvents userProfile = [] ->
       previousIncome firstYear = Some (Fin 0) /\
       r_expenses yr
       = mul (Fin 0)
           (add (Fin 1)
                (add (toNumber (rate inflation))
                     (mul (sub (mul (Fin (evenDraws O)) (Fin 2)) (Fin 1))
                          (toNumber (volatility inflation))))) /\
       (forall i v : Q,
           rate inflation = Some (Fin i) -> volatility inflation = Some (Fin v) ->
           num_eq (r_expenses yr) (Fin 0))) /\
    previousExpenses firstYear = Some (r_expenses yr) /\
    calculateIncomeTaxes taxRules_table
      (add (toNumber (previousIncome firstYear)) (Fin 0)) (initialCountry userProfile)
    = Ok (r_incomeTaxes yr).
Proof.
  apply (C10_starting_income_and_expenses userProfile evenDraws
           (assignedSystem taxRules_table) 2024 firstYear).
  - reflexivity.
  - vm_compute. reflexivity.
Defined.

(** In figures: started in 2024, [userProfile] has an income of 80000 and
    expenses of 42000 x 1.02 = 42840 in 2024, taken from the event dated
    2025. *)
Example firstYear_in_figures :
  exists (expenses : Q) (yr : YearResult),
    results firstYear = [yr] /\
    previousIncome firstYear = Some (Fin 80000) /\
    r_expenses yr = Fin expenses /\ (expenses == 42840)%Q.
Proof.
  eexists. eexists. split; [vm_compute; reflexivity|].
  split; [vm_compute; reflexivity|]. split; reflexivity.
Qed.

(** ** C8: retirement *)

Lemma find_by_year_unique (evs : list LifeEvent) (e : LifeEvent) :
  List.NoDup (map e_year evs) -> In e evs ->
  find (fun event => (e_year event =? e_year e)%Z) evs = Some e.
Proof.
  induction evs as [|a evs IH]; simpl; intros Hnd Hin; [contradiction|].
  apply NoDup_cons_iff in Hnd as [Hna Hnd].
  destruct Hin as [->|Hin].
  - rewrite Z.eqb_refl. reflexivity.
  - destruct (Z.eqb_spec (e_year a) (e_year e)) as [Heq|_].
    + exfalso. apply Hna. rewrite Heq. apply in_map. exact Hin.
    + apply IH; assumption.
Qed.

(** Retired stays retired: no step clears the flag. *)
Lemma embedded_yearStep_stays_retired (random : nat -> Q) (this : TaxSystem)
    (profile : Profile) (year : Z) (st st' : State) :
  Embedded.yearStep random this profile year st = Ok st' ->
  isRetired st = true -> isRetired st' = true.
Proof.
  intros Hs Hr.
  apply embedded_yearStep_closeYear in Hs
    as (income & expenses & st1 & invs & k & ret & contrib & taxes & wtax & cgt
        & Hb & _ & _ & _ & ->).
  pose proof (beginYear_Ok _ _ _ _ _ _ _ _ Hb)
    as (_ & _ & _ & _ & _ & _ & Hret & _).
  simpl. rewrite Hret, Hr. destruct (retiresNow _); reflexivity.
Qed.

Lemma embedded_run_stays_retired (random : nat -> Q) (this : TaxSystem)
    (profile : Profile) (n : nat) (year : Z) (st st' : State) :
  Embedded.simulateYears random this profile n year st = Ok st' ->
  isRetired st = true -> isRetired st' = true.
Proof.
  revert year st. induction n as [|n IH]; intros year st Hrun Hr; simpl in Hrun.
  - injection Hrun as <-. exact Hr.
  - destruct (Embedded.yearStep random this profile year st) as [st1|e] eqn:Es;
      simpl in Hrun; [|discriminate].
    apply (IH (year + 1) st1 Hrun).
    apply (embedded_yearStep_stays_retired _ _ _ _ _ _ Es Hr).
Qed.

(** A run of [n + 1] years is a run of [n] years followed by one step:
    every YearResult of a run is pushed by a step that follows a completed
    shorter run. *)
Lemma embedded_simulateYears_snoc (random : nat -> Q) (this : TaxSystem)
    (profile : Profile) (n : nat) (year : Z) (st st'' : State) :
  Embedded.simulateYears random this profile (S n) year st = Ok st'' <->
  exists st' : State,
    Embedded.simulateYears random this profile n year st = Ok st' /\
    Embedded.yearStep random this profile (year + Z.of_nat n) st' = Ok st''.
Proof.
  revert year st. induction n as [|n IH]; intros year st.
  - simpl. rewrite Z.add_0_r. split.
    + destruct (Embedded.yearStep random this profile year st) as [s|e] eqn:E;
        simpl; [|discriminate].
      intros H. exists st. split; [reflexivity|]. rewrite E. exact H.
    + intros (st' & H1 & H2). injection H1 as <-. rewrite H2. reflexivity.
  - replace (year + Z.of_nat (S n)) with (year + 1 + Z.of_nat n) by lia.
    change (Embedded.simulateYears random this profile (S (S n)) year st)
      with (bind (Embedded.yearStep random this profile year st)
                 (fun s => Embedded.simulateYears random this profile (S n) (year + 1) s)).
    change (Embedded.simulateYears random this profile (S n) year st)
      with (bind (Embedded.yearStep random this profile year st)
                 (fun s => Embedded.simulateYears random this profile n (year + 1) s)).
    destruct (Embedded.yearStep random this profile year st) as [s|e]; simpl.
    + apply IH.
    + split; [discriminate|]. intros (st' & H & _). discriminate H.
Qed.

Lemma pension_income_positive (pot : num) :
  gt pot (Fin 0) = true ->
  gt (calculatePensionIncome pot pensionWithdrawalRate) (Fin 0) = true.
Proof.
  unfold gt, calculatePensionIncome, pensionWithdrawalRate.
  destruct pot as [q| | |]; simpl; try discriminate.
  - intros H. destruct (Qltb_reflect 0 q) as [Hq|]; [|discriminate].
    destruct (Qltb_reflect 0 (q * Qd 4 100)) as [|Hn]; [reflexivity|].
    exfalso. apply Hn. unfold Qd.
    apply Qmult_lt_0_compat; [exact Hq | reflexivity].
  - intros _. vm_compute. reflexivity.
Qed.

Section Retirement.

Variable random : nat -> Q.
Variable this : TaxSystem.
Variable profile : Profile.

(** The year of the retire event. *)
Variable R : Z.
Variable retireEvent : LifeEvent.

Hypothesis retire_listed : In retireEvent (lifeEvents profile).
Hypothesis retire_kind : e_event retireEvent = Some Retire.
Hypothesis retire_year : e_year retireEvent = R.

(** It is the only retire event. *)
Hypothesis retire_only :
  forall e : LifeEvent,
    In e (lifeEvents profile) -> e_event e = Some Retire -> e_year e = R.

(** At most one event per year (specification, section 3). *)
Hypothesis one_event_per_year : List.NoDup (map e_year (lifeEvents profile)).

Lemma retiresNow_at (year : Z) :
  retiresNow (findEvent profile year) = (year =? R)%Z.
Proof.
  unfold retiresNow, findEvent.
  destruct (Z.eqb_spec year R) as [->|Hne].
  - rewrite <- retire_year.
    rewrite (find_by_year_unique _ _ one_event_per_year retire_listed).
    rewrite retire_kind. reflexivity.
  - destruct (find _ (lifeEvents profile)) as [e|] eqn:E; [|reflexivity].
    apply find_some in E as [Hin Hy]. apply Z.eqb_eq in Hy.
    destruct (e_event e) as [[|c]|] eqn:Ek; try reflexivity.
    exfalso. apply Hne. rewrite <- Hy. apply retire_only; assumption.
Qed.

(** What a completed step does to the flag, and the pension income it
    reports. *)
Lemma embedded_yearStep_retired (year : Z) (st st' : State) :
  Embedded.yearStep random this profile year st = Ok st' ->
  isRetired st' = (if retiresNow (findEvent profile year) then true else isRetired st) /\
  exists yr : YearResult,
    results st' = (results st ++ [yr])%list /\
    r_year yr = year /\
    r_pensionIncome yr = pensionIncomeOf (isRetired st') (pensionPot st').
Proof.
  intros Hs.
  apply embedded_yearStep_closeYear in Hs
    as (income & expenses & st1 & invs & k & ret & contrib & taxes & wtax & cgt
        & Hb & _ & _ & _ & ->).
  pose proof (beginYear_Ok _ _ _ _ _ _ _ _ Hb)
    as (_ & _ & Hres & _ & _ & _ & Hret & _).
  simpl. rewrite Hres. split; [exact Hret|].
  eexists. split; [reflexivity|]. split; reflexivity.
Qed.

(** Before year [y] is processed, the flag says whether [R] is past. *)
Lemma retired_flag_invariant (n : nat) (y : Z) (st st' : State) :
  isRetired st = (R <? y)%Z ->
  Embedded.simulateYears random this profile n y st = Ok st' ->
  isRetired st' = (R <? y + Z.of_nat n)%Z.
Proof.
  revert y st. induction n as [|n IH]; intros y st Hinv Hrun.
  - simpl in Hrun. injection Hrun as <-. rewrite Z.add_0_r. exact Hinv.
  - simpl in Hrun.
    destruct (Embedded.yearStep random this profile y st) as [st1|e] eqn:Es;
      simpl in Hrun; [|discriminate].
    apply embedded_yearStep_retired in Es as [Hflag _].
    rewrite retiresNow_at, Hinv in Hflag.
    replace (y + Z.of_nat (S n)) with (y + 1 + Z.of_nat n) by lia.
    apply (IH (y + 1) st1); [|exact Hrun].
    rewrite Hflag.
    destruct (Z.eqb_spec y R), (Z.ltb_spec R y), (Z.ltb_spec R (y + 1));
      try reflexivity; lia.
Qed.

(** The run starts no later than [R]. *)
Variable startYear : Z.
Hypothesis starts_in_time : startYear <= R.

(** What the step pushes after [n] completed years. *)
Lemma pension_income_by_year (n : nat) (st st' : State) :
  Embedded.simulateYears random this profile n startYear (initialState profile) = Ok st ->
  Embedded.yearStep random this profile (startYear + Z.of_nat n) st = Ok st' ->
  exists yr : YearResult,
    results st' = (results st ++ [yr])%list /\
    r_year yr = startYear + Z.of_nat n /\
    isRetired st' = (R <=? r_year yr)%Z /\
    pensionIncomeAsClaimed R (pensionPot st') yr.
Proof.
  intros Hrun Hstep.
  assert (Hflag : isRetired st = (R <? startYear + Z.of_nat n)%Z).
  { apply (retired_flag_invariant n startYear (initialState profile) st); [|exact Hrun].
    simpl. symmetry. apply Z.ltb_ge. exact starts_in_time. }
  destruct (embedded_yearStep_retired _ _ _ Hstep) as (Hnew & yr & Hres & Hy & Hpi).
  rewrite retiresNow_at, Hflag in Hnew.
  assert (Hret : isRetired st' = (R <=? startYear + Z.of_nat n)%Z).
  { rewrite Hnew.
    destruct (Z.eqb_spec (startYear + Z.of_nat n) R),
             (Z.ltb_spec R (startYear + Z.of_nat n)),
             (Z.leb_spec R (startYear + Z.of_nat n)); try reflexivity; lia. }
  exists yr. split; [exact Hres|]. split; [exact Hy|]. rewrite Hy.
  split; [exact Hret|]. unfold pensionIncomeAsClaimed. rewrite Hy, Hpi, Hret.
  split.
  - intros Hlt. destruct (Z.leb_spec R (startYear + Z.of_nat n)); [lia|]. reflexivity.
  - intros Hge. destruct (Z.leb_spec R (startYear + Z.of_nat n)); [|lia]. simpl.
    split; [reflexivity|]. apply pension_income_positive.
Qed.

(** Every YearResult a run has pushed. *)
Lemma pension_income_of_run (n : nat) (st : State) :
  Embedded.simulateYears random this profile n startYear (initialState profile) = Ok st ->
  Forall (fun yr => exists pot : num, pensionIncomeAsClaimed R pot yr) (results st).
Proof.
  revert st. induction n as [|n IH]; intros st Hrun.
  - simpl in Hrun. injection Hrun as <-. constructor.
  - apply embedded_simulateYears_snoc in Hrun as (st' & Hrun & Hstep).
    destruct (pension_income_by_year n st' st Hrun Hstep) as (yr & Hres & _ & _ & Hp).
    rewrite Hres. apply Forall_app. split; [apply IH; exact Hrun|].
    constructor; [|constructor]. exists (pensionPot st). exact Hp.
Qed.

End Retirement.

(** C8, counterexample: the only retire event of [lateProfile] is dated
    2030 and its pension pot is 100000.  Started in 2031, the loop never
    meets the event: the YearResult for 2031 >= 2030 has pensionIncome 0. *)
Lemma C8_counterexample_retire_before_start :
  exists yr : YearResult,
    Embedded.simulateScenario evenDraws (assignedSystem taxRules_table) lateProfile 2031
    = Ok [yr] /\
    r_year yr = 2031 /\
    map e_year (List.filter (fun e => match e_event e with Some Retire => true | _ => false end)
                       (lifeEvents lateProfile)) = [2030] /\
    gt (initialPensionPot lateProfile) (Fin 0) = true /\
    r_pensionIncome yr = Fin 0.
Proof.
  eexists. split; [vm_compute; reflexivity|]. repeat split; reflexivity.
Qed.

(** C8, as amended: take a profile whose events are dated by distinct
    years, whose only retire event is dated R, and a run that starts no
    later than R.  Then the YearResult of every completed year before R
    has pensionIncome 0; the YearResult of every completed year from R on
    has pensionIncome = pensionPot x 0.04, the pot being the one that year
    ends with, and this is positive whenever that pot is; and once the
    retired flag is set no later year clears it. *)
Theorem C8_pension_income_from_retirement_year :
  forall (random : nat -> Q) (this : TaxSystem) (profile : Profile)
         (R : Z) (retireEvent : LifeEvent) (startYear : Z),
    In retireEvent (lifeEvents profile) ->
    e_event retireEvent = Some Retire ->
    e_year retireEvent = R ->
    (forall e : LifeEvent,
        In e (lifeEvents profile) -> e_event e = Some Retire -> e_year e = R) ->
    List.NoDup (map e_year (lifeEvents profile)) ->
    startYear <= R ->
    forall (n : nat) (st st' : State),
      Embedded.simulateYears random this profile n startYear (initialState profile)
      = Ok st ->
      Embedded.yearStep random this profile (startYear + Z.of_nat n) st = Ok st' ->
      (exists yr : YearResult,
          results st' = (results st ++ [yr])%list /\
          r_year yr = startYear + Z.of_nat n /\
          isRetired st' = (R <=? r_year yr)%Z /\
          (r_year yr < R -> r_pensionIncome yr = Fin 0) /\
          (R <= r_year yr ->
             r_pensionIncome yr = mul (pensionPot st') (Fin (Qd 4 100)) /\
             (gt (pensionPot st') (Fin 0) = true ->
              gt (r_pensionIncome yr) (Fin 0) = true))) /\
      Forall (fun yr =>
                (r_year yr < R -> r_pensionIncome yr = Fin 0) /\
                (R <= r_year yr ->
                   exists pot : num,
                     r_pensionIncome yr = mul pot (Fin (Qd 4 100)) /\
                     (gt pot (Fin 0) = true -> gt (r_pensionIncome yr) (Fin 0) = true)))
             (results st') /\
      (forall (m : nat) (later : State),
          Embedded.simulateYears random this profile m
            (startYear + Z.of_nat n + 1) st' = Ok later ->
          isRetired st' = true -> isRetired later = true).
Proof.
  intros random this profile R retireEvent startYear Hin Hkind Hyear Honly Hnd Hstart
         n st st' Hrun Hstep.
  split; [|split].
  - destruct (pension_income_by_year random this profile R retireEvent
                Hin Hkind Hyear Honly Hnd startYear Hstart n st st' Hrun Hstep)
      as (yr & Hres & Hy & Hret & Hlt & Hge).
    exists yr. repeat split; try assumption; apply Hge; assumption.
  - assert (Hnext : Embedded.simulateYears random this profile (S n) startYear
                      (initialState profile) = Ok st').
    { apply embedded_simulateYears_snoc. exists st. split; assumption. }
    pose proof (pension_income_of_run random this profile R retireEvent
                  Hin Hkind Hyear Honly Hnd startYear Hstart (S n) st' Hnext) as Hall.
    eapply Forall_impl; [exact Hall|].
    intros yr (pot & Hlt & Hge). split; [exact Hlt|].
    intros H. exists pot. apply Hge. exact H.
  - intros m later Hlater Hr.
    apply (embedded_run_stays_retired _ _ _ _ _ _ _ Hlater Hr).
Qed.

(** C8, witness: [userProfile] started in 2029, retiring in 2030. *)
Lemma C8_witness_userProfile_2029 :
  (exists yr : YearResult,
      results yearOfRetirement = (results yearBeforeRetirement ++ [yr])%list /\
      r_year yr = 2029 + Z.of_nat 1 /\
      isRetired yearOfRetirement = (2030 <=? r_year yr)%Z /\
      (r_year yr < 2030 -> r_pensionIncome yr = Fin 0) /\
      (2030 <= r_year yr ->
         r_pensionIncome yr = mul (pensionPot yearOfRetirement) (Fin (Qd 4 100)) /\
         (gt (pensionPot yearOfRetirement) (Fin 0) = true ->
          gt (r_pensionIncome yr) (Fin 0) = true))) /\
  Forall (fun yr =>
            (r_year yr < 2030 -> r_pensionIncome yr = Fin 0) /\
            (2030 <= r_year yr ->
               exists pot : num,
                 r_pensionIncome yr = mul pot (Fin (Qd 4 100)) /\
                 (gt pot (Fin 0) = true -> gt (r_pensionIncome yr) (Fin 0) = true)))
         (results yearOfRetirement) /\
  (forall (m : nat) (later : State),
      Embedded.simulateYears evenDraws (assignedSystem taxRules_table) userProfile m
        (2029 + Z.of_nat 1 + 1) yearOfRetirement = Ok later ->
      isRetired yearOfRetirement = true -> isRetired later = true).
Proof.
  apply (C8_pension_income_from_retirement_year evenDraws (assignedSystem taxRules_table)
           userProfile 2030 (mkEvent 2030 None None (Some Retire)) 2029).
  - simpl. right. left. reflexivity.
  - reflexivity.
  - reflexivity.
  - intros e [<-|[<-|[]]]; simpl; [discriminate | reflexivity].
  - simpl. repeat constructor; simpl; intuition lia.
  - lia.
  - vm_compute. reflexivity.
  - vm_compute. reflexivity.
Defined.

(** ** C4: a year whose country cannot be resolved *)

(** C4, counterexample: [atlantisProfile] from 2024 to 2026.  2024 is
    processed with Germany's rules, which stay cached; 2025 moves to
    Atlantis and is skipped; 2026 has no event and is skipped as well,
    because the country is still Atlantis: the run does not go back to
    Germany, the last country whose rules were resolved. *)
Lemma C4_counterexample_atlantis :
  exists (this' : TaxSystem) (yr : YearResult),
    Fetched.simulateScenario evenDraws server atlantisProfile (assignedSystem ∅) 2024
    = Ok (this', [yr]) /\
    r_year yr = 2024 /\
    r_country yr = "Germany" /\
    taxRules this' !! "Germany" = Some Germany /\
    findEvent atlantisProfile 2026 = None.
Proof.
  eexists. eexists. split; [vm_compute; reflexivity|].
  split; [reflexivity|]. split; [reflexivity|]. split; [vm_compute|]; reflexivity.
Qed.

(** C4, as amended: when the rules of the year's country (the target of
    the year's move, if it has one) are neither cached nor delivered, the
    step pushes no YearResult and leaves wealth, positions, pension pot
    and the rule cache as they were; it keeps the year's income, expenses,
    retirement flag and country, so the next iteration starts from the
    country that failed to resolve, not from the last one that resolved;
    and the loop goes on with the next year. *)
Theorem C4_unresolved_year_is_skipped :
  forall (random : nat -> Q) (fetch : Z -> string -> option CountryTaxRules)
         (profile : Profile) (year : Z) (this this' : TaxSystem) (st st' : State),
    taxRules this !! countryFor (findEvent profile year) (country st) = None ->
    fetch year (countryFor (findEvent profile year) (country st)) = None ->
    Fetched.yearStep random fetch profile year (this, st) = Ok (this', st') ->
    this' = this /\
    results st' = results st /\
    remainingWealth st' = remainingWealth st /\
    investments st' = investments st /\
    pensionPot st' = pensionPot st /\
    country st' = countryFor (findEvent profile year) (country st) /\
    isRetired st' = (if retiresNow (findEvent profile year) then true else isRetired st) /\
    previousIncome st' = incomeFor (findEvent profile year) (previousIncome st) /\
    match explicitExpenses (findEvent profile year) with
    | Some x => previousExpenses st' = Some x
    | None =>
        exists (fp : gmap string Params) (inflation : Params),
          FinancialParameters this = Some fp /\ fp !! "inflation" = Some inflation /\
          previousExpenses st'
          = Some (mul (toNumber (previousExpenses st))
                    (add (Fin 1)
                         (add (toNumber (rate inflation))
                              (mul (sub (mul (Fin (random (draws st))) (Fin 2)) (Fin 1))
                                   (toNumber (volatility inflation))))))
    end /\
    (forall n : nat,
        Fetched.simulateYears random fetch profile (S n) year (this, st)
        = Fetched.simulateYears random fetch profile n (year + 1) (this, st')).
Proof.
  intros random fetch profile year this this' st st' Hcache Hfetch Hstep.
  assert (Hskip : this' = this /\
                  beginYear random this profile year st
                  = Ok (incomeFor (findEvent profile year) (previousIncome st),
                        toNumber (previousExpenses st'), st')).
  { unfold Fetched.yearStep in Hstep. simpl in Hstep.
    destruct (beginYear random this profile year st) as [[[income expenses] st1]|e] eqn:Hb;
      simpl in Hstep; [|discriminate].
    pose proof (beginYear_Ok _ _ _ _ _ _ _ _ Hb)
      as (Hinc & _ & _ & _ & _ & _ & _ & _ & Hpe & Hc).
    unfold Fetched.loadCountryRules in Hstep.
    rewrite Hc, Hcache, Hfetch in Hstep. simpl in Hstep.
    injection Hstep as <- <-. rewrite Hpe, Hinc. split; reflexivity. }
  destruct Hskip as [-> Hb].
  pose proof (beginYear_Ok _ _ _ _ _ _ _ _ Hb)
    as (_ & Hexp & Hres & Hw & Hinv & Hpot & Hret & Hpi & Hpe & Hc).
  assert (Hkept :
    match explicitExpenses (findEvent profile year) with
    | Some x => previousExpenses st' = Some x
    | None =>
        exists (fp : gmap string Params) (inflation : Params),
          FinancialParameters this = Some fp /\ fp !! "inflation" = Some inflation /\
          previousExpenses st'
          = Some (mul (toNumber (previousExpenses st))
                    (add (Fin 1)
                         (add (toNumber (rate inflation))
                              (mul (sub (mul (Fin (random (draws st))) (Fin 2)) (Fin 1))
                                   (toNumber (volatility inflation))))))
    end).
  { destruct (explicitExpenses (findEvent profile year)) as [x|].
    - destruct Hexp as [Hx _]. rewrite Hpe, Hx. reflexivity.
    - destruct Hexp as [Hx _].
      apply calculateExpenses_Ok in Hx as (fp & inflation & Hfp & Hinfl & Hval).
      exists fp, inflation. split; [exact Hfp|]. split; [exact Hinfl|].
      rewrite Hpe, Hval. reflexivity. }
  repeat split; try assumption.
  intros n. simpl. rewrite Hstep. reflexivity.
Qed.

(** C4, witness: the move to Atlantis in 2025. *)
Lemma C4_witness_atlantis_2025 :
  germanSystem = germanSystem /\
  results afterAtlantis = [] /\
  remainingWealth afterAtlantis = Fin 1200000 /\
  investments afterAtlantis = [ mkInvestment "indexFunds" (Fin 50000) None ] /\
  pensionPot afterAtlantis = Fin 100000 /\
  country afterAtlantis = "Atlantis" /\
  isRetired afterAtlantis = false /\
  previousIncome afterAtlantis = Some (Fin 80000) /\
  previousExpenses afterAtlantis = Some (Fin 42000) /\
  (forall n : nat,
      Fetched.simulateYears evenDraws server atlantisProfile (S n) 2025
        (germanSystem, initialState atlantisProfile)
      = Fetched.simulateYears evenDraws server atlantisProfile n (2025 + 1)
          (germanSystem, afterAtlantis)).
Proof.
  apply (C4_unresolved_year_is_skipped evenDraws server atlantisProfile 2025
           germanSystem germanSystem (initialState atlantisProfile) afterAtlantis).
  - vm_compute. reflexivity.
  - vm_compute. reflexivity.
  - vm_compute. reflexivity.
Defined.

(** * Further properties of the simulator *)

(** ** Runs: how many results, for which years *)

(** A completed step of the first edition pushes exactly one result, for
    the year of the iteration and the country then in force. *)
Lemma embedded_yearStep_pushes (random : nat -> Q) (this : TaxSystem)
    (profile : Profile) (year : Z) (st st' : State) :
  Embedded.yearStep random this profile year st = Ok st' ->
  exists yr : YearResult,
    results st' = (results st ++ [yr])%list /\
    r_year yr = year /\
    r_country yr = country st' /\
    country st' = countryFor (findEvent profile year) (country st) /\
    r_remainingWealth yr = remainingWealth st'.
Proof.
  intros Hs.
  apply embedded_yearStep_closeYear in Hs
    as (income & expenses & st1 & invs & k & ret & contrib & taxes & wtax & cgt
        & Hb & _ & _ & _ & ->).
  pose proof (beginYear_Ok _ _ _ _ _ _ _ _ Hb)
    as (_ & _ & Hres & _ & _ & _ & _ & _ & _ & Hc).
  eexists. simpl. rewrite Hres, Hc. repeat split; reflexivity.
Qed.

Lemma years_from_succ (y : Z) (n : nat) :
  map (fun i => y + Z.of_nat i) (seq 0 (S n))
  = y :: map (fun i => y + 1 + Z.of_nat i) (seq 0 n).
Proof.
  simpl. rewrite Z.add_0_r. f_equal.
  rewrite <- seq_shift, map_map. apply map_ext. intros i. lia.
Qed.

Lemma embedded_run_years (random : nat -> Q) (this : TaxSystem)
    (profile : Profile) (n : nat) (y : Z) (st st' : State) :
  Embedded.simulateYears random this profile n y st = Ok st' ->
  map r_year (results st')
  = (map r_year (results st) ++ map (fun i => y + Z.of_nat i) (seq 0 n))%list.
Proof.
  revert y st. induction n as [|n IH]; intros y st Hrun.
  - simpl in Hrun. injection Hrun as <-. simpl. rewrite app_nil_r. reflexivity.
  - simpl in Hrun.
    destruct (Embedded.yearStep random this profile y st) as [st1|e] eqn:Es;
      simpl in Hrun; [|discriminate].
    apply embedded_yearStep_pushes in Es as (yr & Hres & Hy & _).
    rewrite (IH _ _ Hrun), Hres, map_app, years_from_succ. simpl.
    rewrite Hy, <- app_assoc. reflexivity.
Qed.

(** X1: when the target year lies before the start year the loop body
    never runs: [simulateScenario] returns the empty list without touching
    the receiver, in both editions and on any receiver, the one the
    constructor builds included. *)
Theorem X1_no_years_no_results :
  forall (random : nat -> Q) (this : TaxSystem) (profile : Profile) (startYear : Z),
    targetYear profile < startYear ->
    Embedded.simulateScenario random this profile startYear = Ok [] /\
    (forall fetch : Z -> string -> option CountryTaxRules,
        Fetched.simulateScenario random fetch profile this startYear = Ok (this, [])).
Proof.
  intros random this profile startYear Hlt.
  unfold Embedded.simulateScenario, Fetched.simulateScenario.
  replace (Z.to_nat (targetYear profile - startYear + 1)) with O by lia.
  split; [reflexivity|]. intros fetch. reflexivity.
Qed.

(** X1, witness: the script itself (lines 373-374), run in 2051. *)
Lemma X1_witness_main_2051 :
  main evenDraws 2051 = Ok [] /\
  (forall fetch : Z -> string -> option CountryTaxRules,
      Fetched.simulateScenario evenDraws fetch userProfile
        (new_TaxSystem taxRules_table financialParameters_table) 2051
      = Ok (new_TaxSystem taxRules_table financialParameters_table, [])).
Proof.
  apply (X1_no_years_no_results evenDraws
           (new_TaxSystem taxRules_table financialParameters_table) userProfile 2051).
  simpl. lia.
Defined.

(** X2: a completed run of the first edition returns exactly one
    YearResult per calendar year from the start year to the target year,
    in ascending order and without gaps. *)
Theorem X2_one_result_per_year :
  forall (random : nat -> Q) (this : TaxSystem) (profile : Profile)
         (startYear : Z) (rs : list YearResult),
    Embedded.simulateScenario random this profile startYear = Ok rs ->
    map r_year rs
    = map (fun i => startYear + Z.of_nat i)
          (seq 0 (Z.to_nat (targetYear profile - startYear + 1))) /\
    length rs = Z.to_nat (targetYear profile - startYear + 1).
Proof.
  intros random this profile startYear rs. unfold Embedded.simulateScenario.
  destruct (Embedded.simulateYears random this profile _ startYear (initialState profile))
    as [st|e] eqn:Hrun; simpl; [|discriminate].
  intros H. injection H as <-.
  apply embedded_run_years in Hrun. simpl in Hrun.
  split; [exact Hrun|].
  rewrite <- (length_map r_year), Hrun, length_map, length_seq. reflexivity.
Qed.

(** X2, witness: [lateProfile] from 2030 to 2031. *)
Lemma X2_witness_lateProfile :
  map r_year
    (valueOf [] (Embedded.simulateScenario evenDraws (assignedSystem taxRules_table)
                   lateProfile 2030))
  = map (fun i => 2030 + Z.of_nat i) (seq 0 (Z.to_nat (targetYear lateProfile - 2030 + 1))) /\
  length
    (valueOf [] (Embedded.simulateScenario evenDraws (assignedSystem taxRules_table)
                   lateProfile 2030))
  = Z.to_nat (targetYear lateProfile - 2030 + 1).
Proof.
  apply (X2_one_result_per_year evenDraws (assignedSystem taxRules_table) lateProfile 2030).
  vm_compute. reflexivity.
Defined.

(** ** The rule cache of the second edition *)

(** The three ways [loadCountryRules] can go. *)
Lemma loadCountryRules_cases (fetch : Z -> string -> option CountryTaxRules)
    (this : TaxSystem) (year : Z) (country : string) :
  (exists r : CountryTaxRules,
      taxRules this !! country = Some r /\
      Fetched.loadCountryRules fetch this year country = (this, true)) \/
  (exists rules : CountryTaxRules,
      taxRules this !! country = None /\ fetch year country = Some rules /\
      Fetched.loadCountryRules fetch this year country
      = ({| taxRules := <[country := rules]> (taxRules this);
            financialParameters := financialParameters this;
            FinancialParameters := FinancialParameters this |}, true)) \/
  (taxRules this !! country = None /\ fetch year country = None /\
   Fetched.loadCountryRules fetch this year country = (this, false)).
Proof.
  unfold Fetched.loadCountryRules.
  destruct (taxRules this !! country) as [r0|] eqn:Hc.
  - left. exists r0. split; reflexivity.
  - destruct (fetch year country) as [rules|] eqn:Hf.
    + right. left. exists rules. repeat split; reflexivity.
    + right. right. repeat split; reflexivity.
Qed.



(** A completed step of the second edition: the year either was skipped
    or ran the body on the receiver [loadCountryRules] returned. *)
Lemma fetched_yearStep_Ok (random : nat -> Q)
    (fetch : Z -> string -> option CountryTaxRules) (profile : Profile)
    (year : Z) (this this' : TaxSystem) (st st' : State) :
  Fetched.yearStep random fetch profile year (this, st) = Ok (this', st') ->
  exists (income : value) (expenses : num) (st1 : State),
    beginYear random this profile year st = Ok (income, expenses, st1) /\
    ((Fetched.loadCountryRules fetch this year (country st1) = (this, false) /\
      this' = this /\ st' = st1) \/
     (Fetched.loadCountryRules fetch this year (country st1) = (this', true) /\
      yearBody random calculateWealthTax_fetched this' profile year income expenses st1
      = Ok st')).
Proof.
  unfold Fetched.yearStep. simpl.
  destruct (beginYear random this profile year st) as [[[income expenses] st1]|e] eqn:Hb;
    simpl; [|discriminate].
  intros H. exists income, expenses, st1. split; [reflexivity|].
  destruct (loadCountryRules_cases fetch this year (country st1))
    as [(r0 & Hc & Hl)|[(rules & Hc & Hf & Hl)|(Hc & Hf & Hl)]];
    rewrite Hl in H; simpl in H.
  - right.
    destruct (yearBody random calculateWealthTax_fetched this profile year income
                expenses st1) as [s|e] eqn:Hy; simpl in H; [|discriminate].
    injection H as <- <-. rewrite Hl. split; [reflexivity | exact Hy].
  - right.
    destruct (yearBody random calculateWealthTax_fetched _ profile year income
                expenses st1) as [s|e] eqn:Hy; simpl in H; [|discriminate].
    injection H as <- <-. rewrite Hl. split; [reflexivity | exact Hy].
  - left. injection H as <- <-. rewrite Hl. repeat split; reflexivity.
Qed.

(** What a completed step of the second edition does to the cache and to
    the result list. *)
Lemma fetched_yearStep_effects (random : nat -> Q)
    (fetch : Z -> string -> option CountryTaxRules) (profile : Profile)
    (year : Z) (this this' : TaxSystem) (st st' : State) :
  Fetched.yearStep random fetch profile year (this, st) = Ok (this', st') ->
  (forall (c : string) (r : CountryTaxRules),
      taxRules this !! c = Some r -> taxRules this' !! c = Some r) /\
  (results st' = results st \/
   exists yr : YearResult,
     results st' = (results st ++ [yr])%list /\
     r_year yr = year /\
     exists r : CountryTaxRules, taxRules this' !! r_country yr = Some r).
Proof.
  intros Hs.
  apply fetched_yearStep_Ok in Hs
    as (income & expenses & st1 & Hb & [(Hl & -> & ->)|(Hl & Hy)]).
  - pose proof (beginYear_Ok _ _ _ _ _ _ _ _ Hb) as (_ & _ & Hres & _).
    split; [auto|]. left. exact Hres.
  - pose proof (beginYear_Ok _ _ _ _ _ _ _ _ Hb) as (_ & _ & Hres & _).
    destruct (loadCountryRules_cases fetch this year (country st1))
      as [(r0 & Hc & Hl')|[(rules & Hc & Hf & Hl')|(Hc & Hf & Hl')]];
      rewrite Hl' in Hl; [injection Hl as <- | injection Hl as <- | discriminate Hl].
    + split; [auto|]. right.
      apply yearBody_Ok in Hy
        as (invs & k & ret & contrib & taxes & wtax & cgt & _ & _ & _ & _ & _ & _ & ->).
      eexists. simpl. rewrite Hres. split; [reflexivity|]. split; [reflexivity|].
      exists r0. exact Hc.
    + split.
      * intros c r Hcr. simpl. destruct (decide (country st1 = c)) as [<-|Hne].
        -- congruence.
        -- rewrite lookup_insert_ne; assumption.
      * right.
        apply yearBody_Ok in Hy
          as (invs & k & ret & contrib & taxes & wtax & cgt & _ & _ & _ & _ & _ & _ & ->).
        eexists. simpl. rewrite Hres. split; [reflexivity|]. split; [reflexivity|].
        exists rules. apply lookup_insert_eq.
Qed.

Lemma fetched_run_effects (random : nat -> Q)
    (fetch : Z -> string -> option CountryTaxRules) (profile : Profile)
    (n : nat) (y : Z) (this this' : TaxSystem) (st st' : State) :
  Fetched.simulateYears random fetch profile n y (this, st) = Ok (this', st') ->
  (forall (c : string) (r : CountryTaxRules),
      taxRules this !! c = Some r -> taxRules this' !! c = Some r) /\
  exists new : list YearResult,
    results st' = (results st ++ new)%list /\
    (length new <= n)%nat /\
    StronglySorted Z.lt (map r_year new) /\
    Forall (fun yr =>
              y <= r_year yr < y + Z.of_nat n /\
              exists r : CountryTaxRules, taxRules this' !! r_country yr = Some r)
           new.
Proof.
  revert y this st. induction n as [|n IH]; intros y this st Hrun.
  - simpl in Hrun. injection Hrun as <- <-. split; [auto|].
    exists []. rewrite app_nil_r. repeat split; simpl; try lia; constructor.
  - simpl in Hrun.
    destruct (Fetched.yearStep random fetch profile y (this, st)) as [[this1 st1]|e] eqn:Es;
      simpl in Hrun; [|discriminate].
    apply fetched_yearStep_effects in Es as (Hmono1 & Hpush).
    destruct (IH _ _ _ Hrun) as (Hmono & new & Hres & Hlen & Hsorted & Hall).
    split; [auto|].
    assert (Hall' : Forall (fun yr =>
                y <= r_year yr < y + Z.of_nat (S n) /\
                exists r : CountryTaxRules, taxRules this' !! r_country yr = Some r) new).
    { eapply Forall_impl; [exact Hall|]. intros yr [Hy Hr]. split; [lia | exact Hr]. }
    destruct Hpush as [Hsame|(yr & Hpushed & Hyear & r & Hr)].
    + exists new. rewrite Hres, Hsame. repeat split; try assumption. lia.
    + exists (yr :: new). rewrite Hres, Hpushed, <- app_assoc. simpl.
      split; [reflexivity|]. split; [lia|]. split.
      * constructor; [exact Hsorted|].
        apply Forall_map. eapply Forall_impl; [exact Hall|].
        intros z [Hz _]. simpl. lia.
      * constructor; [|exact Hall'].
        split; [lia|]. exists r. apply Hmono. exact Hr.
Qed.

(** X4: a completed run of the second edition never drops a cached rule
    table, returns at most one YearResult per simulated year, in strictly
    ascending order of years within the simulated range, and every
    YearResult is for a country whose rules are in the cache when the run
    ends: no year is taxed without its country's rules. *)
Theorem X4_fetched_run_results :
  forall (random : nat -> Q) (fetch : Z -> string -> option CountryTaxRules)
         (profile : Profile) (this this' : TaxSystem) (startYear : Z)
         (rs : list YearResult),
    Fetched.simulateScenario random fetch profile this startYear = Ok (this', rs) ->
    (forall (c : string) (r : CountryTaxRules),
        taxRules this !! c = Some r -> taxRules this' !! c = Some r) /\
    (length rs <= Z.to_nat (targetYear profile - startYear + 1))%nat /\
    StronglySorted Z.lt (map r_year rs) /\
    Forall (fun yr =>
              startYear <= r_year yr <= targetYear profile /\
              exists r : CountryTaxRules, taxRules this' !! r_country yr = Some r)
           rs.
Proof.
  intros random fetch profile this this' startYear rs.
  unfold Fetched.simulateScenario.
  destruct (Fetched.simulateYears random fetch profile _ startYear
              (this, initialState profile)) as [[this1 st1]|e] eqn:Hrun;
    simpl; [|discriminate].
  intros H. injection H as <- <-.
  apply fetched_run_effects in Hrun as (Hmono & new & Hres & Hlen & Hsorted & Hall).
  simpl in Hres. subst new.
  split; [exact Hmono|]. split; [exact Hlen|]. split; [exact Hsorted|].
  eapply Forall_impl; [exact Hall|].
  intros yr [Hy Hr]. split; [lia | exact Hr].
Qed.

(** X4, witness: [atlantisProfile] from 2024 to 2026 (one year processed,
    two skipped). *)
Lemma X4_witness_atlantis :
  let run := valueOf (assignedSystem ∅, [])
               (Fetched.simulateScenario evenDraws server atlantisProfile
                  (assignedSystem ∅) 2024) in
  (forall (c : string) (r : CountryTaxRules),
      taxRules (assignedSystem ∅) !! c = Some r -> taxRules (fst run) !! c = Some r) /\
  (length (snd run) <= Z.to_nat (targetYear atlantisProfile - 2024 + 1))%nat /\
  StronglySorted Z.lt (map r_year (snd run)) /\
  Forall (fun yr =>
            2024 <= r_year yr <= targetYear atlantisProfile /\
            exists r : CountryTaxRules, taxRules (fst run) !! r_country yr = Some r)
         (snd run).
Proof.
  apply (X4_fetched_run_results evenDraws server atlantisProfile (assignedSystem ∅)).
  vm_compute. reflexivity.
Defined.

(** ** Pension contributions *)

Lemma find_first_match (age : num) (before after : list AgeBand) (band : AgeBand) :
  firstMatch age before band ->
  find (fun r => le age (maxAge r)) (before ++ band :: after) = Some band.
Proof.
  intros [Hb Hm]. induction Hb as [|b before Hb _ IH]; simpl.
  - rewrite Hm. reflexivity.
  - rewrite Hb. exact IH.
Qed.

(** X5: an age-banded rule contributes income x rate of the first band
    whose [maxAge] is not below the age, capped by [annualCap]; for finite
    income, rate and cap the contribution is finite, never above the cap
    and never above the uncapped amount. *)
Theorem X5_age_band_contribution :
  forall (rules : gmap string CountryTaxRules) (country : string) (r : CountryTaxRules)
         (before after : list AgeBand) (band : AgeBand) (age : num)
         (income bandRate cap : Q),
    rules !! country = Some r ->
    pensionContribution r = AgeBasedPercentage (before ++ band :: after) (Fin cap) ->
    firstMatch age before band ->
    band_rate band = Fin bandRate ->
    exists c : Q,
      calculatePensionContribution rules (Fin income) country age = Ok (Fin c) /\
      (c == Qmin (income * bandRate) cap)%Q /\
      (c <= cap)%Q /\ (c <= income * bandRate)%Q.
Proof.
  intros rules country r before after band age income bandRate cap Hc Hp Hm Hr.
  unfold calculatePensionContribution. rewrite Hc, Hp.
  rewrite (find_first_match _ _ _ _ Hm), Hr. simpl.
  destruct (Qltb_reflect cap (income * bandRate)) as [H|H].
  - exists cap. split; [reflexivity|]. split; [rewrite Q.min_r; lra|]. lra.
  - exists (income * bandRate)%Q. split; [reflexivity|].
    split; [rewrite Q.min_l; lra|]. lra.
Qed.

(** X5, witness: Ireland at the age of 30 with an income of 80000: the
    second band (up to 39, rate 0.20) applies, not the first (up to 29). *)
Lemma X5_witness_ireland_age_30 :
  exists c : Q,
    calculatePensionContribution taxRules_table (Fin 80000) "Ireland" (Fin 30) = Ok (Fin c) /\
    (c == Qmin (80000 * Qd 20 100) 115000)%Q /\
    (c <= 115000)%Q /\ (c <= 80000 * Qd 20 100)%Q.
Proof.
  apply (X5_age_band_contribution taxRules_table "Ireland" Ireland
           [ mkBand (Fin 29) (Fin (Qd 15 100)) ]
           [ mkBand (Fin 49) (Fin (Qd 25 100)); mkBand (Fin 59) (Fin (Qd 30 100));
             mkBand PInf (Fin (Qd 35 100)) ]
           (mkBand (Fin 39) (Fin (Qd 20 100))) (Fin 30) 80000 (Qd 20 100) 115000).
  - vm_compute. reflexivity.
  - reflexivity.
  - split; [repeat constructor | reflexivity].
  - reflexivity.
Defined.

Lemma find_no_match (age : num) (rates : list AgeBand) :
  Forall (fun b => le age (maxAge b) = false) rates ->
  find (fun r => le age (maxAge r)) rates = None.
Proof.
  intros H. induction H as [|b rates Hb _ IH]; simpl; [reflexivity|].
  rewrite Hb. exact IH.
Qed.

Lemma find_unbounded_band (age : Q) (rates : list AgeBand) (band : AgeBand) :
  In band rates -> maxAge band = PInf ->
  exists b : AgeBand, find (fun r => le (Fin age) (maxAge r)) rates = Some b.
Proof.
  induction rates as [|b rates IH]; intros Hin Hinf; [destruct Hin|].
  cbn [find].
  destruct (le (Fin age) (maxAge b)) eqn:E; [exists b; reflexivity|].
  destruct Hin as [->|Hin]; [|apply IH; assumption].
  rewrite Hinf in E. discriminate E.
Qed.

(** X6: where the age-banded rule fails.  If the age is above every
    band's [maxAge] (or is NaN) the lookup of line 209 finds no band and
    the method throws a TypeError; a list that contains a band with
    [maxAge: Infinity] serves every finite age. *)
Theorem X6_age_band_coverage :
  forall (rules : gmap string CountryTaxRules) (country : string) (r : CountryTaxRules)
         (rates : list AgeBand) (cap income : num),
    rules !! country = Some r ->
    pensionContribution r = AgeBasedPercentage rates cap ->
    (forall age : num,
        Forall (fun b => le age (maxAge b) = false) rates ->
        calculatePensionContribution rules income country age = Throw TypeError) /\
    (forall (band : AgeBand) (age : Q),
        In band rates -> maxAge band = PInf ->
        exists c : num,
          calculatePensionContribution rules income country (Fin age) = Ok c).
Proof.
  intros rules country r rates cap income Hc Hp. split.
  - intros age Hall. unfold calculatePensionContribution.
    rewrite Hc, Hp, (find_no_match _ _ Hall). reflexivity.
  - intros band age Hin Hinf. unfold calculatePensionContribution. rewrite Hc, Hp.
    destruct (find_unbounded_band age rates band Hin Hinf) as [b ->].
    eexists. reflexivity.
Qed.

(** X6, witness: Ireland's bands (lines 143-149), which end with
    [maxAge: Infinity]. *)
Lemma X6_witness_ireland :
  let bands :=
    [ mkBand (Fin 29) (Fin (Qd 15 100)); mkBand (Fin 39) (Fin (Qd 20 100));
      mkBand (Fin 49) (Fin (Qd 25 100)); mkBand (Fin 59) (Fin (Qd 30 100));
      mkBand PInf (Fin (Qd 35 100)) ] in
  (forall age : num,
      Forall (fun b => le age (maxAge b) = false) bands ->
      calculatePensionContribution taxRules_table (Fin 80000) "Ireland" age
      = Throw TypeError) /\
  (forall (band : AgeBand) (age : Q),
      In band bands -> maxAge band = PInf ->
      exists c : num,
        calculatePensionContribution taxRules_table (Fin 80000) "Ireland" (Fin age) = Ok c).
Proof.
  apply (X6_age_band_coverage taxRules_table "Ireland" Ireland
           [ mkBand (Fin 29) (Fin (Qd 15 100)); mkBand (Fin 39) (Fin (Qd 20 100));
             mkBand (Fin 49) (Fin (Qd 25 100)); mkBand (Fin 59) (Fin (Qd 30 100));
             mkBand PInf (Fin (Qd 35 100)) ]
           (Fin 115000) (Fin 80000)).
  - vm_compute. reflexivity.
  - reflexivity.
Defined.

(** ** Investment returns and the market model *)

(** Priced positions get their returns, and keep their classes. *)
Lemma calculateInvestmentReturns_priced (random : nat -> Q) (this : TaxSystem)
    (k : nat) (investments : list Investment) :
  Forall (fun inv => exists p : Params,
              financialParameters this !! i_type inv = Some p) investments ->
  exists (investments' : list Investment) (k' : nat),
    calculateInvestmentReturns random this k investments = Ok (investments', k') /\
    map i_type investments' = map i_type investments.
Proof.
  intros H. revert k. induction H as [|inv rest [p Hp] _ IH]; intros k.
  - exists [], k. split; reflexivity.
  - destruct (IH (S k)) as (rest' & k' & Hrun & Ht).
    simpl. rewrite (entryOf_own _ _ _ Hp), Hrun. simpl. eexists. eexists.
    split; [reflexivity|]. simpl. rewrite Ht. reflexivity.
Qed.

Lemma mul_NaN_r (a : num) : mul a NaN = NaN.
Proof. destruct a; reflexivity. Qed.

(** X7: [calculateInvestmentReturns] over positions whose class the
    table lists, or inherits from [Object.prototype], returns the
    positions in the same order with class and amount untouched and a gain
    set on every one - NaN for a class the table does not list - and draws
    one random number per position; if some position's class is neither
    listed nor inherited it throws a TypeError. *)
Theorem X7_investment_returns_frame :
  forall (random : nat -> Q) (this : TaxSystem) (k : nat) (investments : list Investment),
    (Forall (fun inv =>
               (exists p : Params, financialParameters this !! i_type inv = Some p) \/
               inheritedName (i_type inv) = true) investments ->
     exists investments' : list Investment,
       calculateInvestmentReturns random this k investments
       = Ok (investments', (k + length investments)%nat) /\
       map i_type investments' = map i_type investments /\
       map amount investments' = map amount investments /\
       Forall (fun inv => exists g : num, gains inv = Some g) investments' /\
       Forall (fun inv => financialParameters this !! i_type inv = None ->
                          gains inv = Some NaN) investments') /\
    (Exists (fun inv => financialParameters this !! i_type inv = None /\
                        inheritedName (i_type inv) = false) investments ->
     calculateInvestmentReturns random this k investments = Throw TypeError).
Proof.
  intros random this k investments. revert k.
  induction investments as [|inv rest IH]; intros k; split.
  - intros _. exists []. simpl. rewrite Nat.add_0_r. repeat split; constructor.
  - intros H. inversion H.
  - intros H. apply Forall_cons in H as [Hinv Hrest].
    destruct (proj1 (IH (S k)) Hrest) as (rest' & Hrun & Ht & Ha & Hg & Hn).
    simpl. unfold entryOf.
    destruct (financialParameters this !! i_type inv) as [p|] eqn:Hp.
    + rewrite Hrun. simpl. eexists. split; [f_equal; f_equal; lia|].
      simpl. rewrite Ht, Ha. repeat split.
      * constructor; [eexists; reflexivity | exact Hg].
      * constructor; [simpl; congruence | exact Hn].
    + destruct Hinv as [[p Hp']|Hinh]; [discriminate|]. rewrite Hinh, Hrun. simpl.
      eexists. split; [f_equal; f_equal; lia|].
      simpl. rewrite Ht, Ha. repeat split.
      * constructor; [eexists; reflexivity | exact Hg].
      * constructor; [|exact Hn]. simpl. intros _. rewrite mul_NaN_r. reflexivity.
  - intros H. simpl. unfold entryOf.
    apply Exists_cons in H as [[Hnone Hinh]|H].
    + rewrite Hnone, Hinh. reflexivity.
    + destruct (financialParameters this !! i_type inv) as [p|];
        [|destruct (inheritedName (i_type inv)); [|reflexivity]];
        rewrite (proj2 (IH (S k)) H); reflexivity.
Qed.

(** X7, witness: the two positions of [userProfile]. *)
Lemma X7_witness_userProfile :
  exists investments' : list Investment,
    calculateInvestmentReturns evenDraws (assignedSystem taxRules_table) 0
      (initialInvestments userProfile)
    = Ok (investments', (0 + length (initialInvestments userProfile))%nat) /\
    map i_type investments' = map i_type (initialInvestments userProfile) /\
    map amount investments' = map amount (initialInvestments userProfile) /\
    Forall (fun inv => exists g : num, gains inv = Some g) investments' /\
    Forall (fun inv => financialParameters (assignedSystem taxRules_table) !! i_type inv = None ->
                       gains inv = Some NaN) investments'.
Proof.
  apply (proj1 (X7_investment_returns_frame evenDraws (assignedSystem taxRules_table) 0
                  (initialInvestments userProfile))).
  constructor; [left; eexists; vm_compute; reflexivity|].
  constructor; [left; eexists; vm_compute; reflexivity|].
  constructor.
Defined.

(** A position of the class "toString": no error, a gain of NaN. *)
Example inherited_class_gains_NaN :
  calculateInvestmentReturns evenDraws (assignedSystem taxRules_table) 0
    [ mkInvestment "toString" (Fin 1000) None ]
  = Ok ([ mkInvestment "toString" (Fin 1000) (Some NaN) ], 1%nat).
Proof. vm_compute. reflexivity. Qed.

(** X8: with draws between 0 and 1, every position of finite,
    non-negative amount whose class has a finite expected return e and a
    finite, non-negative volatility v ends the call with a gain between
    amount x (e - v) and amount x (e + v). *)
Theorem X8_gains_within_volatility :
  forall (random : nat -> Q) (this : TaxSystem) (k : nat) (investments : list Investment),
    (forall j : nat, (0 <= random j)%Q /\ (random j <= 1)%Q) ->
    Forall (fun inv => exists a e v : Q,
                pricedPosition (financialParameters this) inv a e v) investments ->
    exists (investments' : list Investment) (k' : nat),
      calculateInvestmentReturns random this k investments = Ok (investments', k') /\
      Forall2 (gainWithinVolatility (financialParameters this)) investments investments'.
Proof.
  intros random this k investments Hr. revert k.
  induction investments as [|inv rest IH]; intros k Hall.
  - exists [], k. split; [reflexivity | constructor].
  - apply Forall_cons in Hall as [(a & e & v & Hpriced) Hrest].
    destruct (IH (S k) Hrest) as (rest' & k' & Hrun & Hwithin).
    pose proof Hpriced as (Ha & Ha0 & Hv0 & p & Hp & He & Hv).
    simpl. rewrite (entryOf_own _ _ _ Hp), Hrun, Ha, He, Hv. simpl.
    eexists. eexists. split; [reflexivity|].
    constructor; [|exact Hwithin].
    destruct (Hr k) as [H0 H1].
    exists a, e, v. eexists. split; [exact Hpriced|]. simpl.
    split; [reflexivity|].
    assert (Hlo : (- v <= (random k * 2 - 1) * v)%Q) by nra.
    assert (Hhi : ((random k * 2 - 1) * v <= v)%Q) by nra.
    split; nra.
Qed.

(** X8, witness: the positions of [userProfile], every draw being 0.5. *)
Lemma X8_witness_userProfile :
  exists (investments' : list Investment) (k' : nat),
    calculateInvestmentReturns evenDraws (assignedSystem taxRules_table) 0
      (initialInvestments userProfile) = Ok (investments', k') /\
    Forall2 (gainWithinVolatility financialParameters_table)
      (initialInvestments userProfile) investments'.
Proof.
  apply (X8_gains_within_volatility evenDraws (assignedSystem taxRules_table) 0
           (initialInvestments userProfile)).
  - intros j. split; unfold Qle; simpl; lia.
  - constructor; [|constructor; [|constructor]].
    + exists 50000%Q, (Qd 7 100), (Qd 1 10). split; [reflexivity|].
      split; [unfold Qle; simpl; lia|]. split; [unfold Qle; simpl; lia|].
      eexists. split; [vm_compute; reflexivity|]. split; reflexivity.
    + exists 30000%Q, (Qd 1 10), (Qd 25 100). split; [reflexivity|].
      split; [unfold Qle; simpl; lia|]. split; [unfold Qle; simpl; lia|].
      eexists. split; [vm_compute; reflexivity|]. split; reflexivity.
Defined.

(** X9: on a receiver whose [FinancialParameters] holds finite inflation
    and pension entries with non-negative volatilities, and for a draw
    between 0 and 1, [calculateExpenses] of non-negative expenses x returns
    a number between x (1 + rate - volatility) and x (1 + rate +
    volatility), and [calculatePensionReturns] of a non-negative pot p
    returns a number between p (e - v) and p (e + v). *)
Theorem X9_sampled_rates_within_volatility :
  forall (random : nat -> Q) (this : TaxSystem) (fp : gmap string Params)
         (inflation pension : Params) (k : nat) (i vi e ve x : Q),
    FinancialParameters this = Some fp ->
    fp !! "inflation" = Some inflation ->
    rate inflation = Some (Fin i) -> volatility inflation = Some (Fin vi) ->
    fp !! "pension" = Some pension ->
    expectedReturn pension = Some (Fin e) -> volatility pension = Some (Fin ve) ->
    (0 <= vi)%Q -> (0 <= ve)%Q -> (0 <= x)%Q ->
    (0 <= random k)%Q -> (random k <= 1)%Q ->
    (exists y : Q,
        calculateExpenses random this k (Fin x) = Ok (Fin y) /\
        (x * (1 + i - vi) <= y)%Q /\ (y <= x * (1 + i + vi))%Q) /\
    (exists y : Q,
        calculatePensionReturns random this k (Fin x) = Ok (Fin y) /\
        (x * (e - ve) <= y)%Q /\ (y <= x * (e + ve))%Q).
Proof.
  intros random this fp inflation pension k i vi e ve x
         Hfp Hi Hri Hvi Hp He Hve Hvi0 Hve0 Hx H0 H1.
  unfold calculateExpenses, calculatePensionReturns.
  rewrite Hfp, Hi, Hp, Hri, Hvi, He, Hve. simpl.
  assert (Hlo : (- vi <= (random k * 2 - 1) * vi)%Q) by nra.
  assert (Hhi : ((random k * 2 - 1) * vi <= vi)%Q) by nra.
  assert (Hlo' : (- ve <= (random k * 2 - 1) * ve)%Q) by nra.
  assert (Hhi' : ((random k * 2 - 1) * ve <= ve)%Q) by nra.
  split.
  - eexists. split; [reflexivity|]. split; nra.
  - eexists. split; [reflexivity|]. split; nra.
Qed.

(** X9, witness: the market table of lines 156-164, a draw of 0.5 and
    42000 of expenses (or of pension pot). *)
Lemma X9_witness_market_table :
  (exists y : Q,
      calculateExpenses evenDraws (assignedSystem taxRules_table) 0 (Fin 42000) = Ok (Fin y) /\
      (42000 * (1 + Qd 2 100 - Qd 5 1000) <= y)%Q /\
      (y <= 42000 * (1 + Qd 2 100 + Qd 5 1000))%Q) /\
  (exists y : Q,
      calculatePensionReturns evenDraws (assignedSystem taxRules_table) 0 (Fin 42000)
      = Ok (Fin y) /\
      (42000 * (Qd 5 100 - Qd 2 100) <= y)%Q /\ (y <= 42000 * (Qd 5 100 + Qd 2 100))%Q).
Proof.
  apply (X9_sampled_rates_within_volatility evenDraws (assignedSystem taxRules_table)
           financialParameters_table
           (mkParams None (Some (Fin (Qd 2 100))) (Some (Fin (Qd 5 1000))))
           (asset (Qd 5 100) (Qd 2 100)) 0).
  - reflexivity.
  - vm_compute. reflexivity.
  - reflexivity.
  - reflexivity.
  - vm_compute. reflexivity.
  - reflexivity.
  - reflexivity.
  - unfold Qle; simpl; lia.
  - unfold Qle; simpl; lia.
  - unfold Qle; simpl; lia.
  - unfold Qle; simpl; lia.
  - unfold Qle; simpl; lia.
Defined.

(** ** Capital-gains tax *)

Lemma add_NaN_r (a : num) : add a NaN = NaN.
Proof. destruct a; reflexivity. Qed.

Lemma gainsLoop_NaN (rates : gmap string Q) (investments : list Investment) :
  fold_left
    (fun total inv => add total (mul (toNumber (gains inv)) (rateOf rates (i_type inv))))
    investments NaN = NaN.
Proof. induction investments as [|inv rest IH]; simpl; [reflexivity | exact IH]. Qed.

(** X10: [calculateCapitalGainsTax] on a list in which some position has
    no [gains] yet (it was not passed through [calculateInvestmentReturns])
    returns NaN, whatever the other positions hold. *)
Theorem X10_capital_gains_without_returns :
  forall (rules : gmap string CountryTaxRules) (country : string) (r : CountryTaxRules)
         (investments : list Investment) (inv : Investment),
    rules !! country = Some r ->
    In inv investments -> gains inv = None ->
    calculateCapitalGainsTax rules investments country = Ok NaN.
Proof.
  intros rules country r investments inv Hc Hin Hg.
  unfold calculateCapitalGainsTax. rewrite Hc. f_equal.
  generalize (Fin 0). induction investments as [|x rest IH]; intros acc; [destruct Hin|].
  simpl. destruct Hin as [->|Hin].
  - rewrite Hg. simpl. rewrite add_NaN_r. apply gainsLoop_NaN.
  - apply IH. exact Hin.
Qed.

(** X10, witness: the positions of [userProfile] as the profile states
    them, taxed in Germany before any returns are computed. *)
Lemma X10_witness_userProfile :
  calculateCapitalGainsTax taxRules_table (initialInvestments userProfile) "Germany"
  = Ok NaN.
Proof.
  apply (X10_capital_gains_without_returns taxRules_table "Germany" Germany
           (initialInvestments userProfile) (mkInvestment "indexFunds" (Fin 50000) None)).
  - vm_compute. reflexivity.
  - simpl. left. reflexivity.
  - reflexivity.
Defined.

Lemma rateOf_listed_or_plain (rates : gmap string Q) (key : string) :
  (rates !! key = None -> inheritedName key = false) ->
  rateOf rates key = Fin (default 0%Q (rates !! key)).
Proof.
  intros H. unfold rateOf. destruct (rates !! key); [reflexivity|].
  rewrite H; reflexivity.
Qed.

Lemma gainsLoop_finite (rates : gmap string Q) (investments : list Investment)
    (positions : list (string * Q)) (a : Q) :
  Forall2 hasGain investments positions ->
  Forall (fun p => rates !! fst p = None -> inheritedName (fst p) = false) positions ->
  exists q : Q,
    fold_left
      (fun total inv => add total (mul (toNumber (gains inv)) (rateOf rates (i_type inv))))
      investments (Fin a) = Fin q /\
    (q == a + gainsTaxQ rates positions)%Q.
Proof.
  intros H. revert a.
  induction H as [|inv p investments positions [Ht Hg] _ IH]; intros a Hplain.
  - exists a. split; [reflexivity|]. simpl. ring.
  - apply Forall_cons in Hplain as [Hp Hplain].
    simpl. rewrite Hg, Ht, (rateOf_listed_or_plain _ _ Hp). simpl.
    destruct (IH (a + snd p * default 0%Q (rates !! fst p))%Q Hplain) as (q & Hq & Hv).
    exists q. split; [exact Hq|]. rewrite Hv. ring.
Qed.

Lemma gainsLoop_inherited (rates : gmap string Q) (investments : list Investment)
    (inv : Investment) (total : num) :
  In inv investments ->
  rates !! i_type inv = None -> inheritedName (i_type inv) = true ->
  fold_left
    (fun total inv => add total (mul (toNumber (gains inv)) (rateOf rates (i_type inv))))
    investments total = NaN.
Proof.
  revert total. induction investments as [|x rest IH]; intros total Hin Hnone Hinh;
    [destruct Hin|].
  simpl. destruct Hin as [->|Hin].
  - unfold rateOf at 2. rewrite Hnone, Hinh, mul_NaN_r, add_NaN_r. apply gainsLoop_NaN.
  - apply IH; assumption.
Qed.

(** X11: for positions with finite gains whose classes are listed in the
    country's table or are not names inherited from [Object.prototype],
    [calculateCapitalGainsTax] is the sum of gain x rate over the
    positions, an unlisted class being taxed at 0; the sum over no
    positions is 0, and a loss enters with its sign.  A position of an
    unlisted class whose name is inherited makes the tax NaN. *)
Theorem X11_capital_gains_sum :
  forall (rules : gmap string CountryTaxRules) (country : string) (r : CountryTaxRules)
         (investments : list Investment),
    rules !! country = Some r ->
    (forall positions : list (string * Q),
        Forall2 hasGain investments positions ->
        Forall (fun p => capitalGainsTax r !! fst p = None -> inheritedName (fst p) = false)
               positions ->
        exists q : Q,
          calculateCapitalGainsTax rules investments country = Ok (Fin q) /\
          (q == gainsTaxQ (capitalGainsTax r) positions)%Q) /\
    (forall inv : Investment,
        In inv investments ->
        capitalGainsTax r !! i_type inv = None -> inheritedName (i_type inv) = true ->
        calculateCapitalGainsTax rules investments country = Ok NaN).
Proof.
  intros rules country r investments Hc. split.
  - intros positions H Hplain.
    unfold calculateCapitalGainsTax. rewrite Hc.
    destruct (gainsLoop_finite (capitalGainsTax r) investments positions 0%Q H Hplain)
      as (q & Hq & Hv).
    exists q. split; [rewrite Hq; reflexivity|]. rewrite Hv. ring.
  - intros inv Hin Hnone Hinh.
    unfold calculateCapitalGainsTax. rewrite Hc.
    rewrite (gainsLoop_inherited _ _ inv (Fin 0) Hin Hnone Hinh). reflexivity.
Qed.

(** X11, witness: in Germany, 3500 gained on index funds (25%), 1000 lost
    on bonds (15%) and 200 gained on a class the table does not list:
    875 - 150 + 0. *)
Lemma X11_witness_germany :
  exists q : Q,
    calculateCapitalGainsTax taxRules_table
      [ mkInvestment "indexFunds" (Fin 50000) (Some (Fin 3500));
        mkInvestment "bonds" (Fin 20000) (Some (Fin (-1000)));
        mkInvestment "crypto" (Fin 1000) (Some (Fin 200)) ] "Germany" = Ok (Fin q) /\
    (q == gainsTaxQ (capitalGainsTax Germany)
            [ ("indexFunds", 3500%Q); ("bonds", (-1000)%Q); ("crypto", 200%Q) ])%Q.
Proof.
  apply (proj1 (X11_capital_gains_sum taxRules_table "Germany" Germany
                  [ mkInvestment "indexFunds" (Fin 50000) (Some (Fin 3500));
                    mkInvestment "bonds" (Fin 20000) (Some (Fin (-1000)));
                    mkInvestment "crypto" (Fin 1000) (Some (Fin 200)) ]
                  ltac:(vm_compute; reflexivity))).
  - repeat constructor.
  - repeat constructor; intros _; reflexivity.
Defined.

(** A gain on a position of the class "constructor": the rate read on
    line 227 is a function, and the tax is NaN. *)
Example inherited_class_tax_NaN :
  calculateCapitalGainsTax taxRules_table
    [ mkInvestment "indexFunds" (Fin 50000) (Some (Fin 3500));
      mkInvestment "constructor" (Fin 1000) (Some (Fin 200)) ] "Germany" = Ok NaN.
Proof. vm_compute. reflexivity. Qed.

Example gainsTaxQ_germany :
  (gainsTaxQ (capitalGainsTax Germany)
     [ ("indexFunds", 3500%Q); ("bonds", (-1000)%Q); ("crypto", 200%Q) ] == 725)%Q.
Proof. vm_compute. reflexivity. Qed.

(** ** The wealth tax of the second edition *)

Lemma wealthBrackets_below (w : Q) (bs : list Bracket) (tax : num) :
  Forall (fun b => (w <= b_from b)%Q) bs ->
  wealthBrackets (Fin w) tax bs = tax.
Proof.
  intros H. induction H as [|b bs Hb _ IH]; simpl; [reflexivity|].
  unfold gt, lt. destruct (Qltb_reflect (b_from b) w); [lra|].
  destruct (truthyQ (b_to b) && Qle_bool w (default 0%Q (b_to b))); [reflexivity|].
  exact IH.
Qed.

(** X12: a bracketed wealth-tax rule yields 0 for every wealth that is
    not above any bracket's lower bound, in whatever order the brackets
    are listed. *)
Theorem X12_wealth_brackets_below_lower_bounds :
  forall (rules : gmap string CountryTaxRules) (country : string) (r : CountryTaxRules)
         (bs : list Bracket) (w : Q),
    rules !! country = Some r ->
    orElse (personalAssetsTax r) (wealthTax r) = Some (BracketWealth bs) ->
    Forall (fun b => (w <= b_from b)%Q) bs ->
    calculateWealthTax_fetched rules (Fin w) country = Ok (Fin 0).
Proof.
  intros rules country r bs w Hc Hr Hall.
  unfold calculateWealthTax_fetched. rewrite Hc, Hr.
  rewrite (wealthBrackets_below w bs (Fin 0) Hall). reflexivity.
Qed.

(** X12, witness: a personal-assets tax that starts at 500000, and a
    wealth of exactly 500000. *)
Lemma X12_witness_personal_assets :
  calculateWealthTax_fetched
    {[ "Argentina" :=
         mkRules None None
           (Some (BracketWealth [ bracket (Qd 5 1000) 500000 (Some 1000000%Q);
                                  bracket (Qd 75 10000) 1000000 None ]))
           ∅ UnknownPension ]}
    (Fin 500000) "Argentina" = Ok (Fin 0).
Proof.
  apply (X12_wealth_brackets_below_lower_bounds _ "Argentina"
           (mkRules None None
              (Some (BracketWealth [ bracket (Qd 5 1000) 500000 (Some 1000000%Q);
                                     bracket (Qd 75 10000) 1000000 None ]))
              ∅ UnknownPension)
           [ bracket (Qd 5 1000) 500000 (Some 1000000%Q);
             bracket (Qd 75 10000) 1000000 None ] 500000).
  - vm_compute. reflexivity.
  - reflexivity.
  - repeat constructor; unfold Qle; simpl; lia.
Defined.

Lemma bracketLoop_above (w : Q) (u : Q) (bs : list Bracket) (amount : num) :
  (w <= u)%Q ->
  forallb (fun c => Qle_bool u (b_from c)) bs = true ->
  fold_left (bracketStep (Fin w)) bs amount = amount.
Proof.
  intros Hw. revert amount. induction bs as [|b bs IH]; intros amount H; simpl;
    [reflexivity|].
  simpl in H. apply andb_prop in H as [Hb Hbs]. apply Qle_bool_iff in Hb.
  unfold bracketStep at 2. unfold gt, lt.
  destruct (Qltb_reflect (b_from b) w); [lra|]. apply IH. exact Hbs.
Qed.

Lemma wealthStep_is_bracketStep (w a : Q) (b : Bracket) :
  (if gt (Fin w) (Fin (b_from b))
   then add (Fin a)
            (mul (nmin (sub (Fin w) (Fin (b_from b)))
                       (sub (if truthyQ (b_to b)
                             then Fin (default 0%Q (b_to b)) else PInf)
                            (Fin (b_from b))))
                 (Fin (b_rate b)))
   else Fin a)
  = bracketStep (Fin w) (Fin a) b.
Proof.
  unfold bracketStep, gt, lt.
  destruct (Qltb (b_from b) w); [|reflexivity].
  destruct (truthyQ (b_to b)); simpl; [|reflexivity].
  destruct (Qltb_reflect (default 0%Q (b_to b) - b_from b) (w - b_from b)),
           (Qltb_reflect (default 0%Q (b_to b)) w); try reflexivity; lra.
Qed.

Lemma wealthBrackets_is_bracketLoop (w : Q) (bs : list Bracket) (a : Q) :
  ascending bs = true ->
  wealthBrackets (Fin w) (Fin a) bs = fold_left (bracketStep (Fin w)) bs (Fin a).
Proof.
  revert a. induction bs as [|b bs IH]; intros a Hasc; [reflexivity|].
  cbn [ascending] in Hasc. apply andb_prop in Hasc as [Hb Hasc].
  cbn [wealthBrackets fold_left]. rewrite wealthStep_is_bracketStep.
  rewrite bracketStep_finite.
  destruct (truthyQ (b_to b)) eqn:Ht; simpl.
  - destruct (Qleb_reflect w (default 0%Q (b_to b))) as [Hle|Hgt].
    + symmetry. apply (bracketLoop_above w (default 0%Q (b_to b))); assumption.
    + apply IH. exact Hasc.
  - apply IH. exact Hasc.
Qed.

(** X13: on brackets in ascending order the second edition's bracketed
    wealth tax, with its early exit, is the amount the income-tax bracket
    loop computes for the same brackets and base. *)
Theorem X13_wealth_brackets_as_income_brackets :
  forall (rules : gmap string CountryTaxRules) (country : string) (r : CountryTaxRules)
         (bs : list Bracket) (w : Q),
    rules !! country = Some r ->
    orElse (personalAssetsTax r) (wealthTax r) = Some (BracketWealth bs) ->
    ascending bs = true ->
    calculateWealthTax_fetched rules (Fin w) country
    = Ok (componentAmount (Fin w) (BracketTax bs)).
Proof.
  intros rules country r bs w Hc Hr Hasc.
  unfold calculateWealthTax_fetched. rewrite Hc, Hr. simpl.
  rewrite (wealthBrackets_is_bracketLoop w bs 0%Q Hasc). reflexivity.
Qed.

(** X13, witness: Germany's income-tax brackets used as a wealth-tax
    rule, at a wealth of 60000. *)
Lemma X13_witness_german_brackets :
  calculateWealthTax_fetched
    {[ "Germany" := mkRules None (Some (BracketWealth germanBrackets)) None ∅
                      UnknownPension ]}
    (Fin 60000) "Germany"
  = Ok (componentAmount (Fin 60000) (BracketTax germanBrackets)).
Proof.
  apply (X13_wealth_brackets_as_income_brackets _ "Germany"
           (mkRules None (Some (BracketWealth germanBrackets)) None ∅ UnknownPension)).
  - vm_compute. reflexivity.
  - reflexivity.
  - reflexivity.
Defined.

(** Brackets listed in descending order: the early exit changes the
    amount, so the order of the list matters to the second edition. *)
Example wealth_brackets_out_of_order :
  exists p q : Q,
    wealthBrackets (Fin 5000) (Fin 0)
      [ bracket (Qd 3 10) 10001 (Some 50000%Q); bracket (Qd 14 100) 0 (Some 10000%Q) ]
    = Fin p /\
    fold_left (bracketStep (Fin 5000))
      [ bracket (Qd 3 10) 10001 (Some 50000%Q); bracket (Qd 14 100) 0 (Some 10000%Q) ]
      (Fin 0) = Fin q /\
    (p == 0)%Q /\ (q == 700)%Q.
Proof.
  eexists. eexists. split; [vm_compute; reflexivity|].
  split; [vm_compute; reflexivity|]. split; reflexivity.
Qed.

(** X14: for a flat wealth-tax rule with non-negative rate and threshold
    the two editions agree up to the threshold (both 0); above it the
    first edition charges exactly threshold x rate more than the second,
    so the second never charges more than the first. *)
Theorem X14_flat_wealth_tax_editions :
  forall (rules : gmap string CountryTaxRules) (country : string) (r : CountryTaxRules)
         (rate threshold w : Q),
    rules !! country = Some r ->
    wealthTax r = Some (FlatWealth rate threshold) ->
    personalAssetsTax r = None ->
    (0 <= rate)%Q -> (0 <= threshold)%Q ->
    exists first second : Q,
      calculateWealthTax_embedded rules (Fin w) country = Ok (Fin first) /\
      calculateWealthTax_fetched rules (Fin w) country = Ok (Fin second) /\
      (second <= first)%Q /\
      ((w <= threshold)%Q -> (first == 0)%Q /\ (second == 0)%Q) /\
      ((threshold < w)%Q -> (first - second == threshold * rate)%Q).
Proof.
  intros rules country r rate threshold w Hc Hw Hp Hr Ht.
  rewrite (calculateWealthTax_embedded_flat rules country r rate threshold w Hc Hw).
  rewrite (calculateWealthTax_fetched_flat rules country r rate threshold w Hc).
  2: { rewrite Hp. exact Hw. }
  destruct (Qltb_reflect threshold w) as [H|H].
  - eexists. eexists. split; [reflexivity|]. split; [reflexivity|].
    split; [nra|]. split; [intros; lra|]. intros _. ring.
  - exists 0%Q, 0%Q. split; [reflexivity|]. split; [reflexivity|].
    split; [lra|]. split; [intros _; split; reflexivity|]. intros; lra.
Qed.

(** X14, witness: Germany at a wealth of 1200000. *)
Lemma X14_witness_germany :
  exists first second : Q,
    calculateWealthTax_embedded taxRules_table (Fin 1200000) "Germany" = Ok (Fin first) /\
    calculateWealthTax_fetched taxRules_table (Fin 1200000) "Germany" = Ok (Fin second) /\
    (second <= first)%Q /\
    ((1200000 <= 1000000)%Q -> (first == 0)%Q /\ (second == 0)%Q) /\
    ((1000000 < 1200000)%Q -> (first - second == 1000000 * Qd 1 100)%Q).
Proof.
  apply (X14_flat_wealth_tax_editions taxRules_table "Germany" Germany (Qd 1 100) 1000000).
  - vm_compute. reflexivity.
  - reflexivity.
  - reflexivity.
  - unfold Qle; simpl; lia.
  - unfold Qle; simpl; lia.
Defined.

(** ** The wealth update *)

(** The wealth and the positions a completed step leaves, as lines
    317-326 compute them from the year's net income and expenses. *)
Lemma embedded_yearStep_wealth (random : nat -> Q) (this : TaxSystem)
    (profile : Profile) (year : Z) (st st' : State) (yr : YearResult) :
  Embedded.yearStep random this profile year st = Ok st' ->
  results st' = (results st ++ [yr])%list ->
  exists invs : list Investment,
    map amount invs = map amount (investments st) /\
    (remainingWealth st', investments st')
    = updateWealth (r_netIncome yr) (r_expenses yr) (remainingWealth st) invs /\
    r_remainingWealth yr = remainingWealth st'.
Proof.
  intros Hs Hr.
  apply embedded_yearStep_closeYear in Hs
    as (income & expenses & st1 & invs & k & ret & contrib & taxes & wtax & cgt
        & Hb & E1 & _ & _ & ->).
  pose proof (beginYear_Ok _ _ _ _ _ _ _ _ Hb) as (_ & _ & Hres & Hw & _).
  simpl in Hr. rewrite Hres in Hr. apply app_inj_tail in Hr as [_ <-].
  exists invs. simpl. rewrite Hw.
  destruct (calculateInvestmentReturns_amounts _ _ _ _ _ _ E1) as [Ha _].
  split; [exact Ha|]. split; [|reflexivity].
  destruct (updateWealth _ _ _ _); reflexivity.
Qed.

(** X15: in every completed year step with finite wealth, net income and
    expenses, the new wealth is the old wealth plus net income minus
    expenses, in the deficit branch as in the surplus branch, and it is the
    wealth the YearResult reports; in the deficit branch the positions'
    amounts are not touched. *)
Theorem X15_wealth_balance :
  forall (random : nat -> Q) (this : TaxSystem) (profile : Profile)
         (year : Z) (st st' : State) (yr : YearResult) (w n x : Q),
    Embedded.yearStep random this profile year st = Ok st' ->
    results st' = (results st ++ [yr])%list ->
    remainingWealth st = Fin w ->
    r_netIncome yr = Fin n ->
    r_expenses yr = Fin x ->
    exists w' : Q,
      remainingWealth st' = Fin w' /\
      r_remainingWealth yr = Fin w' /\
      (w' == w + n - x)%Q /\
      ((n < x)%Q -> map amount (investments st') = map amount (investments st)).
Proof.
  intros random this profile year st st' yr w n x Hs Hr Hw Hn Hx.
  destruct (embedded_yearStep_wealth _ _ _ _ _ _ _ Hs Hr) as (invs & Ha & Hu & Hrw).
  rewrite Hn, Hx, Hw in Hu. unfold updateWealth in Hu. simpl in Hu.
  destruct (Qltb_reflect n x) as [Hlt|Hge]; injection Hu as Hw' Hi.
  - exists (w - (x - n))%Q. rewrite Hrw, Hw'. split; [reflexivity|].
    split; [reflexivity|]. split; [ring|]. intros _. rewrite Hi. exact Ha.
  - exists (w + (n - x))%Q. rewrite Hrw, Hw'. split; [reflexivity|].
    split; [reflexivity|]. split; [ring|]. intros Hlt. contradiction.
Qed.

(** X15, witness: [userProfile] in 2025 (a surplus year). *)
Lemma X15_witness_userProfile_2025 :
  exists w' : Q,
    remainingWealth surplusYear = Fin w' /\
    r_remainingWealth surplusResult = Fin w' /\
    (w' == 1200000
           + match r_netIncome surplusResult with Fin n => n | _ => 0 end
           - 42000)%Q /\
    ((match r_netIncome surplusResult with Fin n => n | _ => 0 end < 42000)%Q ->
     map amount (investments surplusYear)
     = map amount (investments (initialState userProfile))).
Proof.
  apply (X15_wealth_balance evenDraws (assignedSystem taxRules_table) userProfile 2025
           (initialState userProfile) surplusYear surplusResult).
  - vm_compute. reflexivity.
  - vm_compute. reflexivity.
  - reflexivity.
  - vm_compute. reflexivity.
  - vm_compute. reflexivity.
Defined.

Lemma scale_amounts (s w' : Q) (amounts : list num) :
  ~ (w' == 0)%Q ->
  Forall (fun a => is_finite a = true) amounts ->
  Forall2 (scaledBy (1 + s / w')) amounts
    (map (fun a => add a (mul (Fin s) (div a (Fin w')))) amounts).
Proof.
  intros Hnz Hfin. induction Hfin as [|a rest Ha _ IH]; simpl; [constructor|].
  constructor; [|exact IH].
  destruct a as [p| | |]; try discriminate Ha.
  simpl. destruct (Qzerob_reflect w') as [Hz|_]; [contradiction|].
  exists p. eexists. split; [reflexivity|]. split; [reflexivity|].
  field. exact Hnz.
Qed.

(** X16: in the surplus branch, with finite amounts and a non-zero new
    wealth, every position is multiplied by the same factor
    1 + surplus / new wealth: the distribution keeps the positions'
    proportions. *)
Theorem X16_surplus_scales_positions :
  forall (random : nat -> Q) (this : TaxSystem) (profile : Profile)
         (year : Z) (st st' : State) (yr : YearResult) (w n x : Q),
    Embedded.yearStep random this profile year st = Ok st' ->
    results st' = (results st ++ [yr])%list ->
    remainingWealth st = Fin w ->
    r_netIncome yr = Fin n ->
    r_expenses yr = Fin x ->
    (x <= n)%Q ->
    ~ (w + (n - x) == 0)%Q ->
    Forall (fun inv => is_finite (amount inv) = true) (investments st) ->
    Forall2 (scaledBy (1 + (n - x) / (w + (n - x))))
      (map amount (investments st)) (map amount (investments st')).
Proof.
  intros random this profile year st st' yr w n x Hs Hr Hw Hn Hx Hge Hnz Hfin.
  assert (Hlt : lt (r_netIncome yr) (r_expenses yr) = false).
  { rewrite Hn, Hx. simpl. destruct (Qltb_reflect n x); [lra | reflexivity]. }
  destruct (embedded_yearStep_surplus _ _ _ _ _ _ _ Hs Hr Hlt) as (Hw' & Ha & _).
  rewrite Ha, Hw', Hw, Hn, Hx. simpl.
  apply scale_amounts; [exact Hnz|]. apply Forall_map. exact Hfin.
Qed.

(** X16, witness: [userProfile] in 2025. *)
Lemma X16_witness_userProfile_2025 :
  Forall2
    (scaledBy (1 + (match r_netIncome surplusResult with Fin n => n | _ => 0 end - 42000)
                   / (1200000
                      + (match r_netIncome surplusResult with Fin n => n | _ => 0 end
                         - 42000))))
    (map amount (investments (initialState userProfile)))
    (map amount (investments surplusYear)).
Proof.
  apply (X16_surplus_scales_positions evenDraws (assignedSystem taxRules_table)
           userProfile 2025 (initialState userProfile) surplusYear surplusResult).
  - vm_compute. reflexivity.
  - vm_compute. reflexivity.
  - reflexivity.
  - vm_compute. reflexivity.
  - vm_compute. reflexivity.
  - vm_compute. discriminate.
  - vm_compute. discriminate.
  - repeat constructor.
Defined.

(** ** Undefined income *)

(** X17: a year whose income is [undefined] - no event states one and
    none was carried over, as when the first life event has no [income] -
    still completes, but its net income is NaN, the surplus branch runs
    (NaN < expenses is false), and the wealth and every position's amount
    become NaN. *)
Theorem X17_undefined_income_poisons_wealth :
  forall (random : nat -> Q) (this : TaxSystem) (profile : Profile)
         (year : Z) (st st' : State),
    Embedded.yearStep random this profile year st = Ok st' ->
    incomeFor (findEvent profile year) (previousIncome st) = None ->
    exists yr : YearResult,
      results st' = (results st ++ [yr])%list /\
      r_netIncome yr = NaN /\
      r_remainingWealth yr = NaN /\
      remainingWealth st' = NaN /\
      length (investments st') = length (investments st) /\
      Forall (fun inv => amount inv = NaN) (investments st').
Proof.
  intros random this profile year st st' Hs Hnone.
  apply embedded_yearStep_closeYear in Hs
    as (income & expenses & st1 & invs & k & ret & contrib & taxes & wtax & cgt
        & Hb & E1 & _ & _ & ->).
  pose proof (beginYear_Ok _ _ _ _ _ _ _ _ Hb) as (Hinc & _ & Hres & _).
  rewrite Hnone in Hinc. subst income.
  destruct (calculateInvestmentReturns_amounts _ _ _ _ _ _ E1) as [Ha _].
  eexists. unfold closeYear. simpl. rewrite Hres.
  split; [reflexivity|]. split; [reflexivity|].
  rewrite !add_NaN_r. split; [reflexivity|]. split; [reflexivity|].
  split.
  - unfold distribute. rewrite length_map, <- (length_map amount invs), Ha, length_map.
    reflexivity.
  - unfold distribute. apply Forall_map, Forall_forall. intros inv _. simpl.
    apply add_NaN_r.
Qed.

(** X17, witness: [retireOnlyProfile] in 2030. *)
Lemma X17_witness_retire_only :
  exists yr : YearResult,
    results retireOnlyYear = (results (initialState retireOnlyProfile) ++ [yr])%list /\
    r_netIncome yr = NaN /\
    r_remainingWealth yr = NaN /\
    remainingWealth retireOnlyYear = NaN /\
    length (investments retireOnlyYear)
    = length (investments (initialState retireOnlyProfile)) /\
    Forall (fun inv => amount inv = NaN) (investments retireOnlyYear).
Proof.
  apply (X17_undefined_income_poisons_wealth evenDraws (assignedSystem taxRules_table)
           retireOnlyProfile 2030 (initialState retireOnlyProfile) retireOnlyYear).
  - vm_compute. reflexivity.
  - reflexivity.
Defined.

(** ** Countries *)

(** A run over years without a move keeps the country and reports it in
    every result it pushes. *)
Lemma embedded_run_without_move (random : nat -> Q) (this : TaxSystem)
    (profile : Profile) (n : nat) (y : Z) (st st' : State) :
  (forall year : Z, y <= year < y + Z.of_nat n ->
      forall c : string, countryFor (findEvent profile year) c = c) ->
  Embedded.simulateYears random this profile n y st = Ok st' ->
  country st' = country st /\
  exists new : list YearResult,
    results st' = (results st ++ new)%list /\
    length new = n /\
    Forall (fun yr => r_country yr = country st) new.
Proof.
  revert y st. induction n as [|n IH]; intros y st Hstay Hrun.
  - simpl in Hrun. injection Hrun as <-. split; [reflexivity|].
    exists []. rewrite app_nil_r. repeat split. constructor.
  - simpl in Hrun.
    destruct (Embedded.yearStep random this profile y st) as [st1|e] eqn:Es;
      simpl in Hrun; [|discriminate].
    apply embedded_yearStep_pushes in Es as (yr & Hres & _ & Hrc & Hc & _).
    rewrite (Hstay y) in Hc by lia.
    destruct (IH (y + 1) st1) as (Hc' & new & Hres' & Hlen & Hall); [|exact Hrun|].
    { intros year Hy c. apply Hstay. lia. }
    rewrite Hc in Hc', Hall. split; [exact Hc'|].
    exists (yr :: new). rewrite Hres', Hres, <- app_assoc. simpl.
    split; [reflexivity|]. split; [lia|].
    constructor; [|exact Hall]. rewrite Hrc. exact Hc.
Qed.

(** X18: when the event of year Y is a move to a country c and no later
    year up to Y + n has a move, a completed run over the years Y .. Y + n
    reports c in every one of its n + 1 results, the one for Y included,
    and ends with c as the country. *)
Theorem X18_move_takes_effect_at_once :
  forall (random : nat -> Q) (this : TaxSystem) (profile : Profile)
         (n : nat) (Y : Z) (e : LifeEvent) (c : string) (st st' : State),
    findEvent profile Y = Some e ->
    e_event e = Some (Move c) ->
    (forall year : Z, Y < year <= Y + Z.of_nat n ->
        forall c0 : string, countryFor (findEvent profile year) c0 = c0) ->
    Embedded.simulateYears random this profile (S n) Y st = Ok st' ->
    country st' = c /\
    exists new : list YearResult,
      results st' = (results st ++ new)%list /\
      length new = S n /\
      Forall (fun yr => r_country yr = c) new.
Proof.
  intros random this profile n Y e c st st' He Hk Hstay Hrun.
  simpl in Hrun.
  destruct (Embedded.yearStep random this profile Y st) as [st1|err] eqn:Es;
    simpl in Hrun; [|discriminate].
  apply embedded_yearStep_pushes in Es as (yr & Hres & _ & Hrc & Hc & _).
  unfold countryFor in Hc. rewrite He, Hk in Hc.
  destruct (embedded_run_without_move random this profile n (Y + 1) st1 st')
    as (Hc' & new & Hres' & Hlen & Hall); [|exact Hrun|].
  { intros year Hy c0. apply Hstay. lia. }
  rewrite Hc in Hc', Hall. split; [exact Hc'|].
  exists (yr :: new). rewrite Hres', Hres, <- app_assoc. simpl.
  split; [reflexivity|]. split; [lia|].
  constructor; [|exact Hall]. rewrite Hrc. exact Hc.
Qed.

(** X18, witness: [userProfile] moves to the USA in 2025; the results for
    2025 and 2026 report the USA. *)
Lemma X18_witness_userProfile_2025 :
  country afterMove = "USA" /\
  exists new : list YearResult,
    results afterMove = (results (initialState userProfile) ++ new)%list /\
    length new = 2%nat /\
    Forall (fun yr => r_country yr = "USA") new.
Proof.
  apply (X18_move_takes_effect_at_once evenDraws (assignedSystem taxRules_table)
           userProfile 1 2025
           (mkEvent 2025 (Some (Fin 80000)) (Some (Fin 42000)) (Some (Move "USA")))
           "USA" (initialState userProfile) afterMove).
  - reflexivity.
  - reflexivity.
  - intros year Hy c0. assert (year = 2026) as -> by lia. reflexivity.
  - vm_compute. reflexivity.
Defined.

(** X19: in the first edition a year whose country has no rule table
    never completes: whatever else the year holds, the step throws a
    TypeError, and so does every run that reaches it; nothing is
    returned, where the second edition would skip the year. *)
Theorem X19_unknown_country_throws :
  forall (random : nat -> Q) (this : TaxSystem) (profile : Profile)
         (year : Z) (st : State),
    taxRules this !! countryFor (findEvent profile year) (country st) = None ->
    Embedded.yearStep random this profile year st = Throw TypeError /\
    (forall n : nat,
        Embedded.simulateYears random this profile (S n) year st = Throw TypeError).
Proof.
  intros random this profile year st Hnone.
  assert (Hstep : Embedded.yearStep random this profile year st = Throw TypeError).
  { unfold Embedded.yearStep.
    destruct (beginYear random this profile year st) as [[[income expenses] st1]|e] eqn:Hb;
      simpl.
    - pose proof (beginYear_Ok _ _ _ _ _ _ _ _ Hb)
        as (_ & _ & _ & _ & _ & _ & _ & _ & _ & Hc).
      unfold yearBody.
      destruct (calculateInvestmentReturns random this (draws st1) (investments st1))
        as [returned|e] eqn:E1; simpl.
      + destruct (calculatePensionReturns random this (snd returned) (pensionPot st1))
          as [ret|e] eqn:E2; simpl.
        * unfold calculatePensionContribution. rewrite Hc, Hnone. reflexivity.
        * unfold calculatePensionReturns in E2.
          destruct (FinancialParameters this) as [fp|]; [|congruence].
          destruct (fp !! "pension"); congruence.
      + apply calculateInvestmentReturns_throws in E1. congruence.
    - unfold beginYear in Hb.
      destruct (explicitExpenses (findEvent profile year)); simpl in Hb; [discriminate|].
      unfold calculateExpenses in Hb.
      destruct (FinancialParameters this) as [fp|]; [|simpl in Hb; congruence].
      destruct (fp !! "inflation"); simpl in Hb; congruence. }
  split; [exact Hstep|]. intros n. simpl. rewrite Hstep. reflexivity.
Qed.

(** X19, witness: [atlantisProfile] in 2025, with the embedded tables. *)
Lemma X19_witness_atlantis :
  Embedded.yearStep evenDraws (assignedSystem taxRules_table) atlantisProfile 2025
    (initialState atlantisProfile) = Throw TypeError /\
  (forall n : nat,
      Embedded.simulateYears evenDraws (assignedSystem taxRules_table) atlantisProfile
        (S n) 2025 (initialState atlantisProfile) = Throw TypeError).
Proof.
  apply (X19_unknown_country_throws evenDraws (assignedSystem taxRules_table)
           atlantisProfile 2025 (initialState atlantisProfile)).
  vm_compute. reflexivity.
Defined.

(** ** The second edition on its own receiver, and after a failed move *)

(** A year whose country neither is cached nor is delivered, when the
    step completes. *)
Lemma fetched_yearStep_unresolved (random : nat -> Q)
    (fetch : Z -> string -> option CountryTaxRules) (profile : Profile)
    (year : Z) (this this' : TaxSystem) (st st' : State) :
  taxRules this !! countryFor (findEvent profile year) (country st) = None ->
  fetch year (countryFor (findEvent profile year) (country st)) = None ->
  Fetched.yearStep random fetch profile year (this, st) = Ok (this', st') ->
  this' = this /\
  results st' = results st /\
  remainingWealth st' = remainingWealth st /\
  investments st' = investments st /\
  pensionPot st' = pensionPot st /\
  country st' = countryFor (findEvent profile year) (country st).
Proof.
  intros Hcache Hfetch Hs.
  apply fetched_yearStep_Ok in Hs
    as (income & expenses & st1 & Hb & [(_ & -> & ->)|(Hl & _)]);
    pose proof (beginYear_Ok _ _ _ _ _ _ _ _ Hb)
      as (_ & _ & Hres & Hw & Hinv & Hpot & _ & _ & _ & Hc).
  - repeat split; assumption.
  - exfalso. unfold Fetched.loadCountryRules in Hl.
    rewrite Hc, Hcache, Hfetch in Hl. discriminate Hl.
Qed.

(** X20: after a country has failed to resolve the run stalls.  Over any
    stretch of years without a move during which the server keeps failing
    for that country, a run that completes pushes no YearResult, caches
    nothing and leaves wealth, positions, pension pot and country exactly
    as they were, however many years pass. *)
Theorem X20_unresolved_country_stalls_the_run :
  forall (random : nat -> Q) (fetch : Z -> string -> option CountryTaxRules)
         (profile : Profile) (n : nat) (y : Z) (this this' : TaxSystem) (st st' : State),
    taxRules this !! country st = None ->
    (forall year : Z, y <= year < y + Z.of_nat n -> fetch year (country st) = None) ->
    (forall year : Z, y <= year < y + Z.of_nat n ->
        forall c : string, countryFor (findEvent profile year) c = c) ->
    Fetched.simulateYears random fetch profile n y (this, st) = Ok (this', st') ->
    this' = this /\
    results st' = results st /\
    remainingWealth st' = remainingWealth st /\
    investments st' = investments st /\
    pensionPot st' = pensionPot st /\
    country st' = country st.
Proof.
  intros random fetch profile n. induction n as [|n IH];
    intros y this this' st st' Hcache Hfetch Hstay Hrun.
  - simpl in Hrun. injection Hrun as <- <-. repeat split; reflexivity.
  - simpl in Hrun.
    destruct (Fetched.yearStep random fetch profile y (this, st)) as [[this1 st1]|e] eqn:Es;
      simpl in Hrun; [|discriminate].
    apply fetched_yearStep_unresolved in Es.
    + rewrite (Hstay y) in Es by lia.
      destruct Es as (-> & Hres & Hw & Hinv & Hpot & Hc).
      destruct (IH (y + 1) this this' st1 st') as (Ht & Hres' & Hw' & Hinv' & Hpot' & Hc').
      * rewrite Hc. exact Hcache.
      * intros year Hy. rewrite Hc. apply Hfetch. lia.
      * intros year Hy c. apply Hstay. lia.
      * exact Hrun.
      * repeat split; congruence.
    + rewrite (Hstay y) by lia. exact Hcache.
    + rewrite (Hstay y) by lia. apply Hfetch. lia.
Qed.

(** X20, witness: [atlantisProfile] after the failed move of 2025, over
    2026 and 2027. *)
Lemma X20_witness_atlantis :
  fst stalledYears = assignedSystem {[ "Germany" := Germany ]} /\
  results (snd stalledYears) = results afterAtlantis /\
  remainingWealth (snd stalledYears) = remainingWealth afterAtlantis /\
  investments (snd stalledYears) = investments afterAtlantis /\
  pensionPot (snd stalledYears) = pensionPot afterAtlantis /\
  country (snd stalledYears) = country afterAtlantis.
Proof.
  apply (X20_unresolved_country_stalls_the_run evenDraws server atlantisProfile 2 2026
           (assignedSystem {[ "Germany" := Germany ]}) (fst stalledYears)
           afterAtlantis (snd stalledYears)).
  - vm_compute. reflexivity.
  - intros year _. vm_compute. reflexivity.
  - intros year Hy c.
    assert (year = 2026 \/ year = 2027) as [-> | ->] by lia; reflexivity.
  - vm_compute. reflexivity.
Defined.

Lemma yearBody_needs_FinancialParameters (random : nat -> Q)
    (f : gmap string CountryTaxRules -> num -> string -> result num)
    (this : TaxSystem) (profile : Profile) (year : Z) (income : value)
    (expenses : num) (st : State) :
  FinancialParameters this = None ->
  yearBody random f this profile year income expenses st = Throw TypeError.
Proof.
  intros Hnone. unfold yearBody.
  destruct (calculateInvestmentReturns random this (draws st) (investments st))
    as [returned|e] eqn:E; simpl.
  - unfold calculatePensionReturns. rewrite Hnone. reflexivity.
  - apply calculateInvestmentReturns_throws in E. congruence.
Qed.

Lemma fetched_run_without_FinancialParameters (random : nat -> Q)
    (fetch : Z -> string -> option CountryTaxRules) (profile : Profile)
    (n : nat) (y : Z) (this this' : TaxSystem) (st st' : State) :
  FinancialParameters this = None ->
  Fetched.simulateYears random fetch profile n y (this, st) = Ok (this', st') ->
  this' = this /\ results st' = results st.
Proof.
  intros Hnone. revert y st. induction n as [|n IH]; intros y st Hrun.
  - simpl in Hrun. injection Hrun as <- <-. split; reflexivity.
  - simpl in Hrun.
    destruct (Fetched.yearStep random fetch profile y (this, st)) as [[this1 st1]|e] eqn:Es;
      simpl in Hrun; [|discriminate].
    apply fetched_yearStep_Ok in Es
      as (income & expenses & st0 & Hb & [(_ & -> & ->)|(Hl & Hy)]).
    + pose proof (beginYear_Ok _ _ _ _ _ _ _ _ Hb) as (_ & _ & Hres & _).
      destruct (IH _ _ Hrun) as [-> Hr]. split; [reflexivity|]. congruence.
    + rewrite yearBody_needs_FinancialParameters in Hy; [discriminate|].
      destruct (loadCountryRules_cases fetch this y (country st0))
        as [(r0 & _ & Hl')|[(rules & _ & _ & Hl')|(_ & _ & Hl')]];
        rewrite Hl' in Hl; [injection Hl as <- | injection Hl as <- | discriminate Hl];
        exact Hnone.
Qed.

(** X21: on the receiver [new TaxSystem(financialParameters)] builds, the
    second edition's [simulateScenario] completes only if every simulated
    year was skipped: whenever it returns, the result list is empty and
    the cache is as empty as it was.  A year whose rules load throws. *)
Theorem X21_fetched_constructed_system_returns_nothing :
  forall (random : nat -> Q) (fetch : Z -> string -> option CountryTaxRules)
         (profile : Profile) (fp : gmap string Params) (startYear : Z)
         (this' : TaxSystem) (rs : list YearResult),
    Fetched.simulateScenario random fetch profile (new_TaxSystem_fetched fp) startYear
    = Ok (this', rs) ->
    this' = new_TaxSystem_fetched fp /\ rs = [].
Proof.
  intros random fetch profile fp startYear this' rs.
  unfold Fetched.simulateScenario.
  destruct (Fetched.simulateYears random fetch profile _ startYear
              (new_TaxSystem_fetched fp, initialState profile))
    as [[this1 st1]|e] eqn:Hrun; simpl; [|discriminate].
  intros H. injection H as <- <-.
  apply fetched_run_without_FinancialParameters in Hrun; [|reflexivity].
  destruct Hrun as [-> ->]. split; reflexivity.
Qed.

(** A profile whose single year moves to a country the server lacks. *)
Example fetched_constructed_system_skips :
  Fetched.simulateScenario evenDraws server
    (mkProfile 1985 (Fin 0) (Fin 0) [] "Germany" 2025
       [ mkEvent 2025 (Some (Fin 80000)) (Some (Fin 42000)) (Some (Move "Atlantis")) ])
    (new_TaxSystem_fetched financialParameters_table) 2025
  = Ok (new_TaxSystem_fetched financialParameters_table, []).
Proof. vm_compute. reflexivity. Qed.

(** X21, witness: that profile. *)
Lemma X21_witness_atlantis :
  new_TaxSystem_fetched financialParameters_table
  = new_TaxSystem_fetched financialParameters_table /\
  @nil YearResult = [].
Proof.
  apply (X21_fetched_constructed_system_returns_nothing evenDraws server
           (mkProfile 1985 (Fin 0) (Fin 0) [] "Germany" 2025
              [ mkEvent 2025 (Some (Fin 80000)) (Some (Fin 42000))
                  (Some (Move "Atlantis")) ])
           financialParameters_table 2025).
  vm_compute. reflexivity.
Defined.

(** ** When a run completes *)

Lemma countryFor_usable (this : TaxSystem) (profile : Profile) (year : Z) (c : string) :
  usableCountry this c ->
  (forall (e : LifeEvent) (c' : string),
      In e (lifeEvents profile) -> e_event e = Some (Move c') -> usableCountry this c') ->
  usableCountry this (countryFor (findEvent profile year) c).
Proof.
  intros Hc Hmoves. unfold countryFor, findEvent.
  destruct (find _ (lifeEvents profile)) as [e|] eqn:E; [|exact Hc].
  apply find_some in E as [Hin _].
  destruct (e_event e) as [[|c']|] eqn:Ek; try exact Hc.
  apply (Hmoves e c' Hin Ek).
Qed.

Lemma updateWealth_classes (netIncome expenses wealth : num) (invs : list Investment) :
  map i_type (snd (updateWealth netIncome expenses wealth invs)) = map i_type invs.
Proof.
  unfold updateWealth. destruct (lt netIncome expenses); simpl; [reflexivity|].
  unfold distribute. rewrite map_map. reflexivity.
Qed.

(** One step completes and keeps what the next step needs. *)
Lemma embedded_yearStep_completes (random : nat -> Q) (this : TaxSystem)
    (profile : Profile) (year : Z) (st : State) :
  (exists (fp : gmap string Params) (pension inflation : Params),
      FinancialParameters this = Some fp /\
      fp !! "pension" = Some pension /\ fp !! "inflation" = Some inflation) ->
  (forall (e : LifeEvent) (c : string),
      In e (lifeEvents profile) -> e_event e = Some (Move c) -> usableCountry this c) ->
  Forall (fun class => exists p : Params, financialParameters this !! class = Some p)
         (map i_type (investments st)) ->
  usableCountry this (country st) ->
  exists st' : State,
    Embedded.yearStep random this profile year st = Ok st' /\
    Forall (fun class => exists p : Params, financialParameters this !! class = Some p)
           (map i_type (investments st')) /\
    usableCountry this (country st').
Proof.
  intros (fp & pension & inflation & Hfp & Hpension & Hinflation) Hmoves Hpriced Hcountry.
  assert (Hbegin : exists income expenses st1,
             beginYear random this profile year st = Ok (income, expenses, st1)).
  { unfold beginYear.
    destruct (explicitExpenses (findEvent profile year)) as [x|]; simpl.
    - eexists. eexists. eexists. reflexivity.
    - unfold calculateExpenses. rewrite Hfp, Hinflation. simpl.
      eexists. eexists. eexists. reflexivity. }
  destruct Hbegin as (income & expenses & st1 & Hb).
  pose proof (beginYear_Ok _ _ _ _ _ _ _ _ Hb)
    as (_ & _ & _ & _ & Hinv & _ & _ & _ & _ & Hc).
  pose proof (countryFor_usable this profile year (country st) Hcountry Hmoves) as Husable.
  rewrite <- Hc in Husable. destruct Husable as (r & Hr & Hcovers).
  rewrite <- Hinv in Hpriced. rewrite List.Forall_map in Hpriced.
  destruct (calculateInvestmentReturns_priced random this (draws st1)
              (investments st1) Hpriced) as (invs & k' & Hreturns & Hclasses).
  unfold Embedded.yearStep. rewrite Hb. simpl.
  unfold yearBody. rewrite Hreturns. simpl.
  unfold calculatePensionReturns. rewrite Hfp, Hpension. simpl.
  assert (Hcontribution : exists c : num,
             calculatePensionContribution (taxRules this) (toNumber income) (country st1)
               (Fin (inject_Z (year - birthYear profile))) = Ok c).
  { unfold calculatePensionContribution. rewrite Hr.
    destruct (pensionContribution r) as [a b|rates cap|]; try (eexists; reflexivity).
    destruct Hcovers as (band & Hin & Hinf).
    destruct (find_unbounded_band (inject_Z (year - birthYear profile)) rates band Hin Hinf)
      as [b ->].
    eexists. reflexivity. }
  destruct Hcontribution as (contribution & ->). simpl.
  unfold calculateIncomeTaxes, calculateWealthTax_embedded, calculateCapitalGainsTax.
  rewrite Hr.
  destruct (incomeTaxes r) as [taxes|];
    destruct (wealthTax r) as [[rate threshold|bs]|];
    try destruct (gt (remainingWealth st1) (Fin threshold));
    simpl; (eexists; split; [reflexivity|]; simpl;
            rewrite updateWealth_classes, Hclasses;
            split; [rewrite List.Forall_map; exact Hpriced
                   | exists r; split; assumption]).
Qed.

Lemma embedded_run_completes (random : nat -> Q) (this : TaxSystem)
    (profile : Profile) (n : nat) (year : Z) (st : State) :
  (exists (fp : gmap string Params) (pension inflation : Params),
      FinancialParameters this = Some fp /\
      fp !! "pension" = Some pension /\ fp !! "inflation" = Some inflation) ->
  (forall (e : LifeEvent) (c : string),
      In e (lifeEvents profile) -> e_event e = Some (Move c) -> usableCountry this c) ->
  Forall (fun class => exists p : Params, financialParameters this !! class = Some p)
         (map i_type (investments st)) ->
  usableCountry this (country st) ->
  exists st' : State, Embedded.simulateYears random this profile n year st = Ok st'.
Proof.
  intros Hmarket Hmoves. revert year st.
  induction n as [|n IH]; intros year st Hpriced Hcountry.
  - exists st. reflexivity.
  - destruct (embedded_yearStep_completes random this profile year st
                Hmarket Hmoves Hpriced Hcountry) as (st1 & Hstep & Hpriced1 & Hcountry1).
    destruct (IH (year + 1) st1 Hpriced1 Hcountry1) as (st' & Hrun).
    exists st'. simpl. rewrite Hstep. simpl. exact Hrun.
Qed.

(** X22: what it takes for the first edition to finish.  On a receiver
    whose [FinancialParameters] has a pension and an inflation entry, with
    every position's asset class priced, and with a rule table - whose
    age-banded pension rule, if any, has an unbounded last band - for the
    initial country and for the target of every move, [simulateScenario]
    throws nothing: it returns one YearResult per year from the start year
    to the target year, for every sequence of random draws. *)
Theorem X22_runnable_profiles_complete :
  forall (random : nat -> Q) (this : TaxSystem) (profile : Profile) (startYear : Z),
    runnable this profile ->
    exists rs : list YearResult,
      Embedded.simulateScenario random this profile startYear = Ok rs /\
      length rs = Z.to_nat (targetYear profile - startYear + 1).
Proof.
  intros random this profile startYear (Hmarket & Hpriced & Hcountry & Hmoves).
  destruct (embedded_run_completes random this profile
              (Z.to_nat (targetYear profile - startYear + 1)) startYear
              (initialState profile) Hmarket Hmoves Hpriced Hcountry) as (st & Hrun).
  exists (results st). unfold Embedded.simulateScenario. rewrite Hrun.
  split; [reflexivity|].
  apply embedded_run_years in Hrun. simpl in Hrun.
  rewrite <- (length_map r_year), Hrun, length_map, length_seq. reflexivity.
Qed.

(** X22, witness: [userProfile] on the embedded tables, from 2024 to
    2050, on a receiver with [FinancialParameters] assigned. *)
Lemma X22_witness_userProfile :
  exists rs : list YearResult,
    Embedded.simulateScenario evenDraws (assignedSystem taxRules_table) userProfile 2024
    = Ok rs /\
    length rs = Z.to_nat (targetYear userProfile - 2024 + 1).
Proof.
  apply (X22_runnable_profiles_complete evenDraws (assignedSystem taxRules_table)
           userProfile 2024).
  split; [|split; [|split]].
  - exists financialParameters_table. eexists. eexists.
    split; [reflexivity|]. split; vm_compute; reflexivity.
  - repeat constructor; eexists; vm_compute; reflexivity.
  - exists Germany. split; [vm_compute; reflexivity | exact I].
  - intros e c [<-|[<-|[]]] Hk; simpl in Hk; [|discriminate].
    injection Hk as <-. exists USA. split; [vm_compute; reflexivity | exact I].
Defined.

(** ** The pension pot over a year *)

(** X23: in a completed year step with a finite, non-negative pot p, a
    pension entry with finite expected return e and volatility v where
    0 <= v <= e, draws between 0 and 1 and a finite, non-negative
    contribution c, the pot ends the year between p (1 + e - v) + c and
    p (1 + e + v) + c; it never shrinks, in retirement either. *)
Theorem X23_pension_pot_never_shrinks :
  forall (random : nat -> Q) (this : TaxSystem) (profile : Profile)
         (year : Z) (st st' : State) (fp : gmap string Params) (pension : Params)
         (p e v c : Q),
    Embedded.yearStep random this profile year st = Ok st' ->
    (forall j : nat, (0 <= random j)%Q /\ (random j <= 1)%Q) ->
    FinancialParameters this = Some fp ->
    fp !! "pension" = Some pension ->
    expectedReturn pension = Some (Fin e) -> volatility pension = Some (Fin v) ->
    (0 <= v)%Q -> (v <= e)%Q ->
    pensionPot st = Fin p -> (0 <= p)%Q ->
    calculatePensionContribution (taxRules this) (toNumber (previousIncome st'))
      (country st') (Fin (inject_Z (year - birthYear profile))) = Ok (Fin c) ->
    (0 <= c)%Q ->
    exists p' : Q,
      pensionPot st' = Fin p' /\
      (p * (1 + e - v) + c <= p')%Q /\ (p' <= p * (1 + e + v) + c)%Q /\
      (p <= p')%Q.
Proof.
  intros random this profile year st st' fp pension p e v c
         Hs Hr Hfp Hpension He Hv Hv0 Hve Hp Hp0 Hc Hc0.
  apply embedded_yearStep_closeYear in Hs
    as (income & expenses & st1 & invs & k & ret & contrib & taxes & wtax & cgt
        & Hb & _ & E2 & E3 & ->).
  pose proof (beginYear_Ok _ _ _ _ _ _ _ _ Hb)
    as (_ & _ & _ & _ & _ & _ & _ & Hinc & _ & _).
  simpl in Hc. rewrite Hinc, E3 in Hc. injection Hc as ->.
  unfold calculatePensionReturns in E2.
  rewrite Hfp, Hpension, He, Hv, Hp in E2. simpl in E2. injection E2 as <-.
  destruct (Hr k) as [H0 H1].
  assert (Hlo : (- v <= (random k * 2 - 1) * v)%Q) by nra.
  assert (Hhi : ((random k * 2 - 1) * v <= v)%Q) by nra.
  simpl. rewrite Hp. simpl. eexists. split; [reflexivity|].
  split; [nra|]. split; nra.
Qed.

(** X23, witness: [userProfile] in 2030, the year of retirement. *)
Lemma X23_witness_userProfile_2030 :
  exists p' : Q,
    pensionPot retirementYear = Fin p' /\
    (100000 * (1 + Qd 5 100 - Qd 2 100) + 80000 * (Qd 9 100 + Qd 9 100) <= p')%Q /\
    (p' <= 100000 * (1 + Qd 5 100 + Qd 2 100) + 80000 * (Qd 9 100 + Qd 9 100))%Q /\
    (100000 <= p')%Q.
Proof.
  apply (X23_pension_pot_never_shrinks evenDraws (assignedSystem taxRules_table)
           userProfile 2030 (initialState userProfile) retirementYear
           financialParameters_table (asset (Qd 5 100) (Qd 2 100))).
  - vm_compute. reflexivity.
  - intros j. split; unfold Qle; simpl; lia.
  - reflexivity.
  - vm_compute. reflexivity.
  - reflexivity.
  - reflexivity.
  - unfold Qle; simpl; lia.
  - unfold Qle; simpl; lia.
  - reflexivity.
  - unfold Qle; simpl; lia.
  - vm_compute. reflexivity.
  - unfold Qle; simpl; lia.
Defined.
